(** * tmail core/microservice.go: the microservice hook dispatcher

    A shallow embedding of [core/microservice.go] and the properties of its
    endpoint parser, transport call, failure policy and hook pipelines.

    Go values are embedded as follows.
    - [string] and [[]byte]: Rocq [string] (a sequence of 8-bit [ascii]) and
      [list byte];
    - [uint64]: [Z], with the range written out where the code depends on it;
    - a pointer that may be nil: [option];
    - a Go result pair (pointer, error): a pair of options, the way the
      code returns it;
    - [error]: the inductive [error]; a log line built as [text + err.Error()]
      is kept as the text and the error value;
    - the session, the network, the goroutines started and the temporary
      directory: explicit state ([SMTPServerSession], [World]);
    - a loop body with its [continue] and [return]: a function to [Flow],
      iterated by [forEach]; a nil dereference: [Panic];
    - what the program cannot decide (the remote services, the wire codec,
      the file system): variables of the section [Hooks]. *)

From Stdlib Require Import ZArith List String Ascii Bool Lia.
From Stdlib Require Import DecimalString.
Import ListNotations.

Local Open Scope string_scope.
Local Open Scope Z_scope.

(* ================================================================== *)
(** * Strings and bytes *)

Definition byteval (c : ascii) : Z := Z.of_N (N_of_ascii c).

Definition between (lo c hi : ascii) : bool :=
  (byteval lo <=? byteval c) && (byteval c <=? byteval hi).

Definition isLetter (c : ascii) : bool :=
  between "a" c "z" || between "A" c "Z".

Definition isDigit (c : ascii) : bool := between "0" c "9".

(** the double quote byte *)
Definition dquote : ascii := ascii_of_nat 34.

Fixpoint containsByte (c : ascii) (s : string) : bool :=
  match s with
  | EmptyString => false
  | String d rest => Ascii.eqb c d || containsByte c rest
  end.

Fixpoint existsByte (p : ascii -> bool) (s : string) : bool :=
  match s with
  | EmptyString => false
  | String d rest => p d || existsByte p rest
  end.

Fixpoint forallByte (p : ascii -> bool) (s : string) : bool :=
  match s with
  | EmptyString => true
  | String d rest => p d && forallByte p rest
  end.

(** [strings.Cut(s, sep)] for a one-byte separator: the text before the
    first [sep], the text after it, and whether [sep] occurs. *)
Fixpoint strings_Cut (s : string) (sep : ascii) : string * string * bool :=
  match s with
  | EmptyString => (EmptyString, EmptyString, false)
  | String c rest =>
      if Ascii.eqb c sep then (EmptyString, rest, true)
      else let '(before, after, found) := strings_Cut rest sep in
           (String c before, after, found)
  end.

(** [strings.Split(s, sep)] for a one-byte separator. *)
Fixpoint strings_Split (s : string) (sep : ascii) : list string :=
  match s with
  | EmptyString => [EmptyString]
  | String c rest =>
      if Ascii.eqb c sep then EmptyString :: strings_Split rest sep
      else match strings_Split rest sep with
           | [] => [String c EmptyString]
           | h :: t => String c h :: t
           end
  end.

(** [strings.LastIndex(s, sep)] for a one-byte separator, as a cut: the
    text before the last [sep] and the text after it. *)
Fixpoint cutLast (s : string) (sep : ascii) : option (string * string) :=
  match s with
  | EmptyString => None
  | String c rest =>
      match cutLast rest sep with
      | Some (before, after) => Some (String c before, after)
      | None => if Ascii.eqb c sep then Some (EmptyString, rest) else None
      end
  end.

Definition strings_HasPrefix (s p : string) : bool := String.prefix p s.

(** the first at most [n] bytes of [s] *)
Fixpoint take (n : nat) (s : string) : string :=
  match n, s with
  | S n', String c rest => String c (take n' rest)
  | _, _ => EmptyString
  end.

(** [fmt]'s [%d] *)
Definition fmt_d (n : Z) : string := NilZero.string_of_int (Z.to_int n).

(** [string(b)] for [b []byte] *)
Definition string_of_bytes (b : list Byte.byte) : string :=
  string_of_list_byte b.

(* ================================================================== *)
(** * Errors *)

(** What [net/url] reports inside a [*url.Error]. *)
Inductive UrlErr : Type :=
| InvalidControlChar            (* invalid control character in URL *)
| MissingScheme                 (* missing protocol scheme *)
| FirstSegmentColon             (* first path segment in URL cannot contain colon *)
| EscapeError (s : string)      (* invalid URL escape s *)
| InvalidHostError (s : string) (* invalid character s in host name *)
| MissingBracket                (* missing ']' in host *)
| InvalidPort (s : string)      (* invalid port s after host *)
| InvalidUserinfo.              (* net/url: invalid userinfo *)

Inductive NumErr : Type := ErrSyntax | ErrRange.

(** Go's [error] values that reach this file. *)
Inductive error : Type :=
| errorString (s : string)                        (* errors.New(s) *)
| url_Error (Op URL : string) (Err : UrlErr)      (* *url.Error *)
| strconv_NumError (Func Num : string) (Err : NumErr)
| foreignError (text : string).                   (* raised by a collaborator *)

Definition errors_New (s : string) : error := errorString s.

(* ================================================================== *)
(** * The Go standard library, as far as [microservice.go] calls it

    [net/url] and [strconv] are not part of the repository.  They are
    modelled after their Go sources (Go 1.17 to 1.22): [Parse] with each of
    its rejections, [Query] and [Values.Get], and [ParseUint] in base 10
    for 64 bits. *)

Module net_url.

Inductive encoding : Type :=
| encodePath | encodeHost | encodeZone | encodeUserPassword
| encodeQueryComponent | encodeFragment.

Definition ishex (c : ascii) : bool :=
  isDigit c || between "a" c "f" || between "A" c "F".

Definition unhex (c : ascii) : Z :=
  if isDigit c then byteval c - byteval "0"
  else if between "a" c "f" then byteval c - byteval "a" + 10
  else if between "A" c "F" then byteval c - byteval "A" + 10
  else 0.

Definition unhex2 (a b : ascii) : ascii :=
  ascii_of_N (Z.to_N (Z.lor (Z.shiftl (unhex a) 4) (unhex b))).

Definition isHostMode (mode : encoding) : bool :=
  match mode with encodeHost | encodeZone => true | _ => false end.

(** [shouldEscape(c, encodeHost)] *)
Definition shouldEscapeHost (c : ascii) : bool :=
  if isLetter c || isDigit c then false
  else if existsByte (Ascii.eqb c) "!$&'()*+,;=:[]<>" || Ascii.eqb c dquote
  then false
  else if existsByte (Ascii.eqb c) "-_.~" then false
  else true.

(** [unescape(s, mode)]: the decoded text, or the first malformed place. *)
Fixpoint unescape (s : string) (mode : encoding) : UrlErr + string :=
  match s with
  | EmptyString => inr EmptyString
  | String c rest =>
      if Ascii.eqb c "%" then
        match rest with
        | String a (String b rest') =>
            if negb (ishex a && ishex b) then inl (EscapeError (take 3 s))
            else if match mode with encodeHost => true | _ => false end
                    && (unhex a <? 8) && negb (String.eqb (take 3 s) "%25")
            then inl (EscapeError (take 3 s))
            else if match mode with encodeZone => true | _ => false end
                    && negb (String.eqb (take 3 s) "%25")
                    && negb (Ascii.eqb (unhex2 a b) " ")
                    && shouldEscapeHost (unhex2 a b)
            then inl (EscapeError (take 3 s))
            else match unescape rest' mode with
                 | inl e => inl e
                 | inr t => inr (String (unhex2 a b) t)
                 end
        | _ => inl (EscapeError (take 3 s))
        end
      else if Ascii.eqb c "+" then
        match unescape rest mode with
        | inl e => inl e
        | inr t =>
            inr (String (match mode with
                         | encodeQueryComponent => " "%char
                         | _ => c
                         end) t)
        end
      else if isHostMode mode && (byteval c <? 128) && shouldEscapeHost c
      then inl (InvalidHostError (String c EmptyString))
      else match unescape rest mode with
           | inl e => inl e
           | inr t => inr (String c t)
           end
  end.

Definition QueryUnescape (s : string) : UrlErr + string :=
  unescape s encodeQueryComponent.

Record URL : Type := mkURL {
  Scheme : string;
  Opaque : string;
  Host : string;
  Path : string;
  ForceQuery : bool;
  RawQuery : string;
  Fragment : string
}.

Definition stringContainsCTLByte (s : string) : bool :=
  existsByte (fun b => (byteval b <? 32) || (byteval b =? 127)) s.

(** the scan of [getScheme]: [Some (scheme, rest)] at a colon that ends
    a scheme, [None] when the text has no scheme *)
Fixpoint schemeScan (first : bool) (s : string)
  : UrlErr + option (string * string) :=
  match s with
  | EmptyString => inr None
  | String c rest =>
      let further :=
        match schemeScan false rest with
        | inr (Some (scheme, path)) => inr (Some (String c scheme, path))
        | other => other
        end in
      if isLetter c then further
      else if isDigit c || existsByte (Ascii.eqb c) "+-." then
        if first then inr None else further
      else if Ascii.eqb c ":" then
        if first then inl MissingScheme else inr (Some (EmptyString, rest))
      else inr None
  end.

Definition getScheme (rawURL : string) : UrlErr + (string * string) :=
  match schemeScan true rawURL with
  | inl e => inl e
  | inr None => inr (EmptyString, rawURL)
  | inr (Some p) => inr p
  end.

Definition toLowerByte (c : ascii) : ascii :=
  if between "A" c "Z" then ascii_of_N (Z.to_N (byteval c + 32)) else c.

Fixpoint strings_ToLower (s : string) : string :=
  match s with
  | EmptyString => EmptyString
  | String c rest => String (toLowerByte c) (strings_ToLower rest)
  end.

Definition validOptionalPort (port : string) : bool :=
  match port with
  | EmptyString => true
  | String c digits => Ascii.eqb c ":" && forallByte isDigit digits
  end.

Definition validUserinfo (s : string) : bool :=
  forallByte (fun r => isLetter r || isDigit r
                       || existsByte (Ascii.eqb r) "-._:~!$&'()*+,;=%@") s.

(** [strings.Index(s, "%25")] as a cut: the text before the first
    occurrence and the text from it on *)
Fixpoint cutAtZone (s : string) : option (string * string) :=
  match s with
  | EmptyString => None
  | String c rest =>
      if strings_HasPrefix s "%25" then Some (EmptyString, s)
      else match cutAtZone rest with
           | Some (before, from) => Some (String c before, from)
           | None => None
           end
  end.

Definition parseHost (host : string) : UrlErr + string :=
  let plain := unescape host encodeHost in
  if strings_HasPrefix host "[" then
    match cutLast host "]" with
    | None => inl MissingBracket
    | Some (inside, colonPort) =>
        if negb (validOptionalPort colonPort) then inl (InvalidPort colonPort)
        else match cutAtZone inside with
             | Some (addr, zone) =>
                 match unescape addr encodeHost with
                 | inl e => inl e
                 | inr host1 =>
                     match unescape zone encodeZone with
                     | inl e => inl e
                     | inr host2 =>
                         match unescape (String "]" colonPort) encodeHost with
                         | inl e => inl e
                         | inr host3 => inr (host1 ++ host2 ++ host3)
                         end
                     end
                 end
             | None => plain
             end
    end
  else
    match cutLast host ":" with
    | Some (_, port) =>
        if negb (validOptionalPort (String ":" port))
        then inl (InvalidPort (String ":" port))
        else plain
    | None => plain
    end.

(** [parseAuthority]: the host; the user information is only validated *)
Definition parseAuthority (authority : string) : UrlErr + string :=
  match cutLast authority "@" with
  | None => parseHost authority
  | Some (userinfo, hostport) =>
      match parseHost hostport with
      | inl e => inl e
      | inr host =>
          if negb (validUserinfo userinfo) then inl InvalidUserinfo
          else
            let '(username, password, _) := strings_Cut userinfo ":" in
            match unescape username encodeUserPassword with
            | inl e => inl e
            | inr _ =>
                match unescape password encodeUserPassword with
                | inl e => inl e
                | inr _ => inr host
                end
            end
      end
  end.

(** [parse(rawURL, false)] *)
Definition parse (rawURL : string) : UrlErr + URL :=
  if stringContainsCTLByte rawURL then inl InvalidControlChar
  else if String.eqb rawURL "*"
  then inr (mkURL "" "" "" "*" false "" "")
  else
    match getScheme rawURL with
    | inl e => inl e
    | inr (scheme, rest) =>
        let scheme := strings_ToLower scheme in
        (* a lone final question mark forces an empty query; otherwise
           the query is the text after the first question mark *)
        let '(rest, rawQuery, found) := strings_Cut rest "?" in
        let forceQuery := found && String.eqb rawQuery "" in
        if negb (strings_HasPrefix rest "/") && negb (String.eqb scheme "")
        then inr (mkURL scheme rest "" "" forceQuery rawQuery "")
        else if negb (strings_HasPrefix rest "/")
                && (let '(segment, _, _) := strings_Cut rest "/" in
                    containsByte ":" segment)
        then inl FirstSegmentColon
        else
          let withPath (host path : string) :=
            match unescape path encodePath with
            | inl e => inl e
            | inr p => inr (mkURL scheme "" host p forceQuery rawQuery "")
            end in
          if (negb (String.eqb scheme "")
              || negb (strings_HasPrefix rest "///"))
             && strings_HasPrefix rest "//"
          then
            let authority := String.substring 2 (String.length rest) rest in
            let '(authority, tail, slash) := strings_Cut authority "/" in
            let rest := if slash then String "/" tail else EmptyString in
            match parseAuthority authority with
            | inl e => inl e
            | inr host => withPath host rest
            end
          else withPath "" rest
    end.

(** [url.Parse] *)
Definition Parse (rawURL : string) : option URL * option error :=
  let '(u, frag, _) := strings_Cut rawURL "#" in
  match parse u with
  | inl e => (None, Some (url_Error "parse" u e))
  | inr url =>
      if String.eqb frag "" then (Some url, None)
      else match unescape frag encodeFragment with
           | inl e => (None, Some (url_Error "parse" rawURL e))
           | inr f =>
               (Some (mkURL (Scheme url) (Opaque url) (Host url) (Path url)
                            (ForceQuery url) (RawQuery url) f), None)
           end
  end.

(** [url.Values]: per key the values in the order they were added; the
    pairs are kept in order, so the first pair of a key is [m[key][0]]. *)
Definition Values : Type := list (string * string).

Definition parsePair (pair : string) : Values :=
  if containsByte ";" pair then []
  else if String.eqb pair "" then []
  else
    let '(key, value, _) := strings_Cut pair "=" in
    match QueryUnescape key with
    | inl _ => []
    | inr key =>
        match QueryUnescape value with
        | inl _ => []
        | inr value => [(key, value)]
        end
    end.

(** [ParseQuery], its error dropped as [URL.Query] drops it *)
Definition ParseQuery (query : string) : Values :=
  flat_map parsePair (strings_Split query "&").

Definition Query (u : URL) : Values := ParseQuery (RawQuery u).

Fixpoint Get (v : Values) (key : string) : string :=
  match v with
  | [] => EmptyString
  | (k, x) :: rest => if String.eqb k key then x else Get rest key
  end.

End net_url.

Module strconv.

Definition maxUint64 : Z := 2 ^ 64 - 1.

(** the digit loop of [ParseUint(s, 10, 64)] from the accumulator [n] *)
Fixpoint digits (s0 s : string) (n : Z) : Z * option error :=
  match s with
  | EmptyString => (n, None)
  | String c rest =>
      if negb (isDigit c)
      then (0, Some (strconv_NumError "ParseUint" s0 ErrSyntax))
      else
        let d := byteval c - byteval "0" in
        let cutoff := maxUint64 / 10 + 1 in
        if n >=? cutoff
        then (maxUint64, Some (strconv_NumError "ParseUint" s0 ErrRange))
        else
          let n := (n * 10) mod 2 ^ 64 in
          let n1 := (n + d) mod 2 ^ 64 in
          if (n1 <? n) || (n1 >? maxUint64)
          then (maxUint64, Some (strconv_NumError "ParseUint" s0 ErrRange))
          else digits s0 rest n1
  end.

(** [strconv.ParseUint(s, 10, 64)] *)
Definition ParseUint (s : string) : Z * option error :=
  if String.eqb s ""
  then (0, Some (strconv_NumError "ParseUint" s ErrSyntax))
  else digits s s 0.

End strconv.

(* ================================================================== *)
(** * The endpoint descriptor *)

(** what to do on failure *)
Inductive onfailure : Type := CONTINUE | TEMPFAIL | PERMFAIL.

(** microservice represents a microservice *)
Record microservice : Type := mkMicroservice {
  url : string;
  skipAuthentifiedUser : bool;
  fireAndForget : bool;
  timeout : Z;                      (* uint64 *)
  onFailure : onfailure
}.

Definition set_url (v : string) (ms : microservice) : microservice :=
  mkMicroservice v (skipAuthentifiedUser ms) (fireAndForget ms) (timeout ms)
                 (onFailure ms).
Definition set_skipAuthentifiedUser (v : bool) (ms : microservice) :=
  mkMicroservice (url ms) v (fireAndForget ms) (timeout ms) (onFailure ms).
Definition set_fireAndForget (v : bool) (ms : microservice) :=
  mkMicroservice (url ms) (skipAuthentifiedUser ms) v (timeout ms)
                 (onFailure ms).
Definition set_timeout (v : Z) (ms : microservice) :=
  mkMicroservice (url ms) (skipAuthentifiedUser ms) (fireAndForget ms) v
                 (onFailure ms).
Definition set_onFailure (v : onfailure) (ms : microservice) :=
  mkMicroservice (url ms) (skipAuthentifiedUser ms) (fireAndForget ms)
                 (timeout ms) v.

(** newMicroservice retuns a microservice parsing URI *)
Definition newMicroservice (uri : string)
  : option microservice * option error :=
  let ms := mkMicroservice "" false false 30 CONTINUE in
  let t := strings_Split uri "?" in
  let ms := set_url (nth 0 t "") ms in
  match net_url.Parse uri with
  | (_, Some err) => (None, Some err)
  | (None, None) => (None, None)
  | (Some parsed, None) =>
      let query := net_url.Query parsed in
      let ms :=
        if String.eqb (net_url.Get query "skipauthentifieduser") "true"
        then set_skipAuthentifiedUser true ms else ms in
      let ms :=
        if String.eqb (net_url.Get query "fireandforget") "true"
        then set_fireAndForget true ms else ms in
      let timed :=
        if negb (String.eqb (net_url.Get query "timeout") "") then
          let '(n, err) := strconv.ParseUint (net_url.Get query "timeout") in
          (set_timeout n ms, err)
        else (ms, None) in
      match timed with
      | (_, Some err) => (None, Some err)
      | (ms, None) =>
          let ms :=
            if negb (String.eqb (net_url.Get query "onfailure") "") then
              let v := net_url.Get query "onfailure" in
              if String.eqb v "tempfail" then set_onFailure TEMPFAIL ms
              else if String.eqb v "permfail" then set_onFailure PERMFAIL ms
              else ms
            else ms in
          (Some ms, None)
      end
  end.

(** stopOnError return if process wich call microserviuce should stop on
    error *)
Definition stopOnError (ms : microservice) : bool :=
  match onFailure ms with
  | PERMFAIL => true
  | TEMPFAIL => true
  | _ => false
  end.

(* ================================================================== *)
(** * Collaborators: wire messages, session, network, files *)

(** Modelled from the spec: the package [msproto] (generated wire messages)
    is not among the sources.  A hook outcome has an optional reply of a
    code and a message, a drop-connection flag, and per hook a
    relay-granted flag, extra header lines or a list of route records. *)
Record SmtpResponse : Type := mkSmtpResponse {
  GetCode : Z;
  GetMsg : string
}.

Record SmtpdNewClientResponse : Type := mkNewClientResponse {
  nc_SmtpResponse : option SmtpResponse;
  nc_DropConnection : bool
}.

Record SmtpdRcptToResponse : Type := mkRcptToResponse {
  rt_SmtpResponse : option SmtpResponse;
  rt_DropConnection : bool;
  rt_RelayGranted : bool
}.

Record SmtpdDataResponse : Type := mkDataResponse {
  da_SmtpResponse : option SmtpResponse;
  da_DropConnection : bool;
  da_ExtraHeaders : list string
}.

Record RouteMsg : Type := mkRouteMsg {
  GetRemoteHost : string;
  GetLocalIp : string;
  GetRemotePort : Z;
  GetPriority : Z
}.

Record DeliverdGetRoutesResponse : Type := mkGetRoutesResponse {
  GetRoutes : list RouteMsg
}.

(** the request messages the hooks serialize *)
Inductive Query : Type :=
| SmtpdNewClientQuery (SessionId RemoteIp : string)
| SmtpdRcptToQuery (SessionId Rcptto : string)
| SmtpdDataQuery (SessionId DataLink : string)
| DeliverdGetRoutesQuery (DeliverdId Mailfrom Rcptto AuthentifiedUser : string).

Inductive LogEntry : Type :=
| Info (text : string)
| Error (text : string) (err : error).   (* text + err.Error() *)

(** Modelled from the spec: [SMTPServerSession] is declared in another file
    of the package.  The pipeline reads the session identity, the remote
    address and whether a user is authenticated, and it writes replies,
    requests termination, sets the relay grant and logs. *)
Record SMTPServerSession : Type := mkSession {
  uuid : string;
  remoteAddr : string;          (* s.conn.RemoteAddr().String() *)
  user : option string;         (* s.user, nil until authenticated *)
  relayGranted : bool;
  exiting : bool;               (* set by exitAsap() *)
  outbox : list string;         (* lines given to s.out, oldest first *)
  journal : list LogEntry       (* s.log and s.logError, oldest first *)
}.

Definition out (line : string) (s : SMTPServerSession) : SMTPServerSession :=
  mkSession (uuid s) (remoteAddr s) (user s) (relayGranted s) (exiting s)
            (outbox s ++ [line]) (journal s).

Definition log (text : string) (s : SMTPServerSession) : SMTPServerSession :=
  mkSession (uuid s) (remoteAddr s) (user s) (relayGranted s) (exiting s)
            (outbox s) (journal s ++ [Info text]).

Definition logError (text : string) (err : error) (s : SMTPServerSession)
  : SMTPServerSession :=
  mkSession (uuid s) (remoteAddr s) (user s) (relayGranted s) (exiting s)
            (outbox s) (journal s ++ [Error text err]).

Definition exitAsap (s : SMTPServerSession) : SMTPServerSession :=
  mkSession (uuid s) (remoteAddr s) (user s) (relayGranted s) true
            (outbox s) (journal s).

Definition set_relayGranted (v : bool) (s : SMTPServerSession) :=
  mkSession (uuid s) (remoteAddr s) (user s) v (exiting s)
            (outbox s) (journal s).

Definition isAuthenticated (s : SMTPServerSession) : bool :=
  match user s with Some _ => true | None => false end.

(** one HTTP exchange as [doRequest] sets it up: a POST of [req_body] to
    [req_url] with content type application/x-protobuf and a client
    timeout of [req_timeout] seconds *)
Record Request : Type := mkRequest {
  req_url : string;
  req_timeout : Z;
  req_body : list Byte.byte
}.

Record Response : Type := mkResponse {
  StatusCode : Z;
  Status : string;                           (* e.g. 404 Not Found *)
  ReadAll : list Byte.byte * option error    (* ioutil.ReadAll(r.Body) *)
}.

(** Everything outside the session that a hook run touches. *)
Record World : Type := mkWorld {
  sent : list Request;       (* exchanges made by the hook's own goroutine *)
  spawned : list Request;    (* calls started with the go statement *)
  files : list (string * list Byte.byte);    (* temporary files present *)
  applog : list LogEntry     (* the package logger Log *)
}.

Definition set_sent (v : list Request) (w : World) : World :=
  mkWorld v (spawned w) (files w) (applog w).
Definition set_spawned (v : list Request) (w : World) : World :=
  mkWorld (sent w) v (files w) (applog w).
Definition set_files (v : list (string * list Byte.byte)) (w : World) :=
  mkWorld (sent w) (spawned w) v (applog w).
Definition Log_Info (text : string) (w : World) : World :=
  mkWorld (sent w) (spawned w) (files w) (applog w ++ [Info text]).
Definition Log_Error (text : string) (err : error) (w : World) : World :=
  mkWorld (sent w) (spawned w) (files w) (applog w ++ [Error text err]).

(** the file [ioutil.TempFile] creates: new and empty *)
Definition createFile (name : string) (w : World) : World :=
  set_files (files w ++ [(name, [])]) w.

(** a successful [f.Write(data)] on the file at [name] *)
Definition writeFile (name : string) (data : list Byte.byte) (w : World)
  : World :=
  set_files (map (fun f => if String.eqb (fst f) name
                           then (name, (snd f ++ data)%list) else f)
                 (files w)) w.

(** [os.Remove(name)], its error dropped *)
Definition os_Remove (name : string) (w : World) : World :=
  set_files (filter (fun f => negb (String.eqb (fst f) name)) (files w)) w.

Definition fileExists (name : string) (w : World) : bool :=
  existsb (fun f => String.eqb (fst f) name) (files w).

(** Modelled from the spec: the configuration provider [Cfg] is declared in
    another file of the package; it gives the ordered endpoint references
    of a hook name, the temporary directory and the address, port and TLS
    flag of the REST server. *)
Record Config : Type := mkConfig {
  GetMicroservicesUri : string -> list string;
  GetTempDir : string;
  GetRestServerIp : string;
  GetRestServerPort : Z;
  GetRestServerIsTls : bool
}.

(** Modelled from the spec: [delivery] and [Route] are declared in other
    files of the package; a route record has a remote host and an optional
    local address, port and priority. *)
Record delivery : Type := mkDelivery {
  id : string;
  MailFrom : string;
  RcptTo : string;
  AuthUser : string
}.

Record Route : Type := mkRoute {
  RemoteHost : string;
  LocalIp : option string;       (* sql.NullString *)
  RemotePort : option Z;         (* sql.NullInt64 *)
  Priority : option Z            (* sql.NullInt64 *)
}.

(* ================================================================== *)
(** * Control flow *)

(** How one pass through a loop body ends: at the bottom or at a
    [continue] with the new state, at a [return], or in a run-time panic. *)
Inductive Flow (S R : Type) : Type :=
| Next (st : S)
| Return (r : R)
| Panic.
Arguments Next {S R} st.
Arguments Return {S R} r.
Arguments Panic {S R}.

(** How a function call ends. *)
Inductive Outcome (R : Type) : Type :=
| Returned (r : R)
| Panicked.
Arguments Returned {R} r.
Arguments Panicked {R}.

(** [for _, uri := range uris { body }] *)
Fixpoint forEach {S R : Type} (body : string -> S -> Flow S R)
         (uris : list string) (st : S) : Flow S R :=
  match uris with
  | [] => Next st
  | uri :: rest =>
      match body uri st with
      | Next st' => forEach body rest st'
      | Return r => Return r
      | Panic => Panic
      end
  end.

(* ================================================================== *)
(** * Concrete collaborators

    Fixed configurations, sessions, networks, codecs and file systems, on
    which the hooks are run further down. *)

Module Scenario.

(** a configuration with endpoints for one hook name only *)
Definition endpoints (hook : string) (uris : list string) : Config :=
  mkConfig (fun name => if String.eqb name hook then uris else [])
           "/tmp" "127.0.0.1" 8080 false.

(** a configuration with the same endpoints for every hook name *)
Definition everywhere (uris : list string) : Config :=
  mkConfig (fun _ => uris) "/tmp" "127.0.0.1" 8080 false.

(** a fresh session, and the same session after authentication *)
Definition guest : SMTPServerSession :=
  mkSession "sid" "192.0.2.1:40000" None false false [] [].
Definition member : SMTPServerSession :=
  mkSession "sid" "192.0.2.1:40000" (Some "alice") false false [] [].

Definition quiet : World := mkWorld [] [] [] [].

Definition someDelivery : delivery :=
  mkDelivery "d1" "a@example.org" "b@example.net" "".

(** a network on which every connection is refused *)
Definition refused : list Request -> Request -> error + Response :=
  fun _ _ => inl (foreignError "connection refused").

(** a network on which every request gets the same answer *)
Definition answers (code : Z) (status : string) (body : list Byte.byte)
  : list Request -> Request -> error + Response :=
  fun _ _ => inr (mkResponse code status (body, None)).

(** a codec that serializes a query as its fields, separated by bars *)
Definition marshal : Query -> error + list Byte.byte :=
  fun q =>
    inr (list_byte_of_string
           match q with
           | SmtpdNewClientQuery a b => a ++ "|" ++ b
           | SmtpdRcptToQuery a b => a ++ "|" ++ b
           | SmtpdDataQuery a b => a ++ "|" ++ b
           | DeliverdGetRoutesQuery a b c d =>
               a ++ "|" ++ b ++ "|" ++ c ++ "|" ++ d
           end).

(** a codec that decodes every body to [r], and one that rejects all *)
Definition decodes {A : Type} (r : A) : list Byte.byte -> error + A :=
  fun _ => inr r.
Definition garbled {A : Type} : list Byte.byte -> error + A :=
  fun _ => inl (foreignError "proto: cannot parse").

Definition tempFile
  : list (string * list Byte.byte) -> string -> error + string :=
  fun _ dir => inr (dir ++ "/ms0001").
Definition writeOk : string -> list Byte.byte -> option error :=
  fun _ _ => None.
Definition diskFull : string -> list Byte.byte -> option error :=
  fun _ _ => Some (foreignError "no space left on device").

End Scenario.

(* ================================================================== *)
(** * Transport, failure policy and the hooks *)

Section Hooks.

(** the package configuration *)
Variable Cfg : Config.

(** [http.Client.Do]: the answer of the network to a request, given the
    exchanges made before it *)
Variable client_Do : list Request -> Request -> error + Response.

(** [proto.Marshal] and [proto.Unmarshal] at each response type *)
Variable proto_Marshal : Query -> error + list Byte.byte.
Variable Unmarshal_NewClient :
  list Byte.byte -> error + SmtpdNewClientResponse.
Variable Unmarshal_RcptTo : list Byte.byte -> error + SmtpdRcptToResponse.
Variable Unmarshal_Data : list Byte.byte -> error + SmtpdDataResponse.
Variable Unmarshal_GetRoutes :
  list Byte.byte -> error + DeliverdGetRoutesResponse.

(** [ioutil.TempFile] with an empty name pattern: the path of the file it
    creates in the directory, given the files present; and [f.Write(b)] on
    the file at a path *)
Variable ioutil_TempFile :
  list (string * list Byte.byte) -> string -> error + string.
Variable file_Write : string -> list Byte.byte -> option error.

(** doRequest do request on microservices endpoint *)
Definition doRequest (ms : microservice) (data : list Byte.byte) (w : World)
  : (error + Response) * World :=
  let req := mkRequest (url ms) (timeout ms) data in
  (client_Do (sent w) req, set_sent (sent w ++ [req]) w).

(** call will call microservice *)
Definition call (ms : microservice) (data : list Byte.byte) (w : World)
  : (option (list Byte.byte) * option error) * World :=
  let '(r, w) := doRequest ms data w in
  match r with
  | inl err => ((None, Some err), w)
  | inr r =>
      (* always get returned data *)
      match ReadAll r with
      | (_, Some err) => ((None, Some err), w)
      | (rawBody, None) =>
          (* HTTP error handling *)
          if StatusCode r >? 399
          then ((None,
                 Some (errors_New (Status r ++ " - "
                                   ++ string_of_bytes rawBody))), w)
          else ((Some rawBody, None), w)
      end
  end.

(** [go ms.call(&msg)]: the call is started and nothing of it comes back *)
Definition go_call (ms : microservice) (data : list Byte.byte) (w : World)
  : World :=
  set_spawned (spawned w ++ [mkRequest (url ms) (timeout ms) data]) w.

(** handleSMTPError handle error for smtpd microservice; it returns true
    if tmail must stop processing other ms *)
Definition handleSMTPError (ms : microservice) (err : option error)
           (s : SMTPServerSession) : bool * SMTPServerSession :=
  match err with
  | None => (false, s)
  | Some err =>
      let s := logError ("microservice " ++ url ms ++ " failed. ") err s in
      match onFailure ms with
      | PERMFAIL => (true, out "550 sorry something wrong happened" s)
      | TEMPFAIL => (true, out "450 sorry something wrong happened" s)
      | _ => (false, s)
      end
  end.

(** handleSmtpResponse common handling of msproto.SmtpdResponse *)
Definition handleSMTPResponse (smtpResponse : option SmtpResponse)
           (s : SMTPServerSession) : bool * SMTPServerSession :=
  match smtpResponse with
  | None => (false, s)
  | Some r =>
      if negb (GetCode r =? 0) && negb (String.eqb (GetMsg r) "") then
        let reply := fmt_d (GetCode r) ++ " " ++ GetMsg r in
        let s := out reply s in
        let s :=
          log ("smtp response from microservice sent to client: " ++ reply)
              s in
        (* if reply is sent we do not continue processing this command *)
        (true, s)
      else (false, s)
  end.

(** ** msSmtpdNewClient *)

(** the local state of a session hook: [stop], the session, the world *)
Definition Frame : Type := (bool * SMTPServerSession * World)%type.

Definition newClientBody (msg : list Byte.byte) (uri : string) (st : Frame)
  : Flow Frame Frame :=
  let '(_, s, w) := st in
  let stop := false in
  match newMicroservice uri with
  | (_, Some err) =>
      Next (stop,
            logError ("unable to parse microservice url " ++ uri ++ ". ")
                     err s, w)
  | (None, None) => Panic
  | (Some ms, None) =>
      if isAuthenticated s && skipAuthentifiedUser ms then Next (stop, s, w)
      else
        (* call ms *)
        let s := log ("calling " ++ url ms) s in
        if fireAndForget ms then Next (stop, s, go_call ms msg w)
        else
          let '(result, w) := call ms msg w in
          let failed (err : error) : Flow Frame Frame :=
            let s :=
              logError ("microservice " ++ url ms ++ " failed. ") err s in
            if stopOnError ms then Return (stop, s, w)
            else Next (stop, s, w) in
          match result with
          | (_, Some err) => failed err
          | (None, None) => Panic
          | (Some response, None) =>
              (* parse resp *)
              match Unmarshal_NewClient response with
              | inl err => failed err
              | inr msResponse =>
                  (* send reply (or not) *)
                  let '(stop, s) :=
                    handleSMTPResponse (nc_SmtpResponse msResponse) s in
                  (* drop ? *)
                  let '(stop, s) :=
                    if nc_DropConnection msResponse
                    then (true, exitAsap s) else (stop, s) in
                  if stop then Return (true, s, w) else Next (stop, s, w)
              end
          end
  end.

(** how the loop of msSmtpdNewClient and msSmtpdRcptTo ends the
    function: a return inside the loop returns its frame, and past the
    loop the final return gives back the named result [stop] *)
Definition finish (f : Flow Frame Frame) : Outcome Frame :=
  match f with
  | Next st => Returned st
  | Return r => Returned r
  | Panic => Panicked
  end.

(** msSmtpdNewClient execute microservices for smtpdnewclient hook.
    Warning: error are not returned to client *)
Definition msSmtpdNewClient (s : SMTPServerSession) (w : World)
  : Outcome Frame :=
  if (List.length (GetMicroservicesUri Cfg "smtpdnewclient") =? 0)%nat
  then Returned (false, s, w)
  else
    (* serialize message to send *)
    match proto_Marshal (SmtpdNewClientQuery (uuid s) (remoteAddr s)) with
    | inl err =>
        Returned (false,
                  logError "unable to serialize data as SmtpdNewClientMsg. "
                           err s, w)
    | inr msg =>
        finish (forEach (newClientBody msg)
                        (GetMicroservicesUri Cfg "smtpdnewclient")
                        (false, s, w))
    end.

(** ** msSmtpdRcptTo *)

Definition rcptToBody (msg : list Byte.byte) (uri : string) (st : Frame)
  : Flow Frame Frame :=
  let '(_, s, w) := st in
  let stop := false in
  match newMicroservice uri with
  | (_, Some err) =>
      Next (stop,
            logError ("unable to parse microservice url " ++ uri ++ ". ")
                     err s, w)
  | (None, None) => Panic
  | (Some ms, None) =>
      if isAuthenticated s && skipAuthentifiedUser ms then Next (stop, s, w)
      else
        (* call ms *)
        let s := log ("calling " ++ url ms) s in
        if fireAndForget ms then Next (stop, s, go_call ms msg w)
        else
          let '(result, w) := call ms msg w in
          let failed (err : error) : Flow Frame Frame :=
            let '(halt, s) := handleSMTPError ms (Some err) s in
            if halt then Return (true, s, w) else Next (stop, s, w) in
          match result with
          | (_, Some err) => failed err
          | (None, None) => Panic
          | (Some response, None) =>
              (* parse resp *)
              match Unmarshal_RcptTo response with
              | inl err => failed err
              | inr msResponse =>
                  (* Relay granted *)
                  let s := set_relayGranted (rt_RelayGranted msResponse) s in
                  (* send reply (or not) *)
                  let '(stop, s) :=
                    handleSMTPResponse (rt_SmtpResponse msResponse) s in
                  (* drop ? *)
                  let '(stop, s) :=
                    if rt_DropConnection msResponse
                    then (true, exitAsap s) else (stop, s) in
                  if stop then Return (true, s, w) else Next (stop, s, w)
              end
          end
  end.

(** msSmtpdRcptTo check if relay is granted by using rcpt to *)
Definition msSmtpdRcptTo (s : SMTPServerSession) (rcptTo : string)
           (w : World) : Outcome Frame :=
  if (List.length (GetMicroservicesUri Cfg "smtpdrcptto") =? 0)%nat
  then Returned (false, s, w)
  else
    match proto_Marshal (SmtpdRcptToQuery (uuid s) rcptTo) with
    | inl err =>
        Returned (false,
                  logError "unable to serialize data as SmtpdRcptToQuery. "
                           err s, w)
    | inr msg =>
        finish (forEach (rcptToBody msg)
                        (GetMicroservicesUri Cfg "smtpdrcptto")
                        (false, s, w))
    end.

(** ** smtpdData *)

(** the local state of the data hook: [stop], [*extraHeaders], the
    session, the world *)
Definition DataFrame : Type :=
  (bool * list string * SMTPServerSession * World)%type.

Definition dataBody (msg : list Byte.byte) (uri : string) (st : DataFrame)
  : Flow DataFrame DataFrame :=
  let '(stop, extraHeaders, s, w) := st in
  (* parse uri *)
  match newMicroservice uri with
  | (_, Some err) =>
      Next (stop, extraHeaders,
            logError ("unable to parse microservice url " ++ uri ++ ". ")
                     err s, w)
  | (None, None) => Panic
  | (Some ms, None) =>
      if isAuthenticated s && skipAuthentifiedUser ms
      then Next (stop, extraHeaders, s, w)
      else
        let s := log ("calling " ++ url ms) s in
        let '(result, w) := call ms msg w in
        let failed (err : error) : Flow DataFrame DataFrame :=
          let '(halt, s) := handleSMTPError ms (Some err) s in
          if halt then Return (true, extraHeaders, s, w)
          else Next (stop, extraHeaders, s, w) in
        match result with
        | (_, Some err) => failed err
        | (None, None) => Panic
        | (Some response, None) =>
            (* parse resp *)
            match Unmarshal_Data response with
            | inl err => failed err
            | inr msResponse =>
                let extraHeaders :=
                  (extraHeaders ++ da_ExtraHeaders msResponse)%list in
                (* send reply (or not) *)
                let '(stop, s) :=
                  handleSMTPResponse (da_SmtpResponse msResponse) s in
                (* drop ? *)
                let '(stop, s) :=
                  if da_DropConnection msResponse
                  then (true, exitAsap s) else (stop, s) in
                if stop then Return (true, extraHeaders, s, w)
                else Next (stop, extraHeaders, s, w)
            end
        end
  end.

(** the locator of the saved message body given to the endpoints *)
Definition dataLink (name : string) : string :=
  let t := strings_Split name "/" in
  let link :=
    GetRestServerIp Cfg ++ ":" ++ fmt_d (GetRestServerPort Cfg)
    ++ "/msdata/" ++ last t "" in
  (* TLS *)
  if GetRestServerIsTls Cfg then "https://" ++ link else "http://" ++ link.

(** the deferred [os.Remove(f.Name())] at a return: the frame returned,
    with the file removed from the world *)
Definition cleaned (name : string) (r : DataFrame) : DataFrame :=
  let '(stop, extraHeaders, s, w) := r in
  (stop, extraHeaders, s, os_Remove name w).

(** how the loop of smtpdData ends the function: every return runs the
    deferred removal, and the return past the loop gives [false] *)
Definition finishData (name : string) (f : Flow DataFrame DataFrame)
  : Outcome DataFrame :=
  match f with
  | Next (_, extraHeaders, s, w) =>
      Returned (cleaned name (false, extraHeaders, s, w))
  | Return r => Returned (cleaned name r)
  | Panic => Panicked
  end.

(** smtpdData executes microservices for the smtpdData hook *)
Definition smtpdData (s : SMTPServerSession) (rawMail : list Byte.byte)
           (w : World) : Outcome DataFrame :=
  let extraHeaders : list string := [] in
  if (List.length (GetMicroservicesUri Cfg "smtpddata") =? 0)%nat
  then Returned (false, extraHeaders, s, w)
  else
    (* save data to server throught HTTP *)
    match ioutil_TempFile (files w) (GetTempDir Cfg) with
    | inl err =>
        Returned (false, extraHeaders,
                  logError "ms - unable to save rawmail in tempfile. " err s,
                  w)
    | inr name =>
        let w := createFile name w in
        match file_Write name rawMail with
        | Some err =>
            Returned (false, extraHeaders,
                      logError "ms - unable to save rawmail in tempfile. "
                               err s, w)
        | None =>
            let w := writeFile name rawMail w in
            (* defer os.Remove(f.Name()) *)
            let deferred := cleaned name in
            (* HTTP link *)
            let link := dataLink name in
            (* serialize data *)
            match proto_Marshal (SmtpdDataQuery (uuid s) link) with
            | inl err =>
                Returned
                  (deferred
                     (false, extraHeaders,
                      logError "unable to serialize data as SmtpdDataQuery. "
                               err s, w))
            | inr msg =>
                finishData name
                  (forEach (dataBody msg)
                           (GetMicroservicesUri Cfg "smtpddata")
                           (false, extraHeaders, s, w))
            end
        end
    end.

(** ** msGetRoutes *)

(** [ms.stopOnError()] through a pointer: the method reads [ms.onFailure],
    which panics on a nil receiver *)
Definition stopOnError_ptr (ms : option microservice) : Outcome bool :=
  match ms with
  | Some ms => Returned (stopOnError ms)
  | None => Panicked
  end.

Definition routeOf (route : RouteMsg) : Route :=
  mkRoute (GetRemoteHost route)
          (if negb (String.eqb (GetLocalIp route) "")
           then Some (GetLocalIp route) else None)
          (if negb (GetRemotePort route =? 0)
           then Some (GetRemotePort route) else None)
          (if negb (GetPriority route =? 0)
           then Some (GetPriority route) else None).

(** msGetRoutes returns routes from microservices: the routes (a pointer,
    possibly nil), [stop], and the world *)
Definition msGetRoutes (d : delivery) (w : World)
  : Outcome (option (list Route) * bool * World) :=
  let routes : list Route := [] in
  match GetMicroservicesUri Cfg "deliverdgetroutes" with
  | [] => Returned (Some routes, false, w)
  | uri0 :: _ =>
      (* serialize data; the error is overwritten by the next statement *)
      let msg :=
        match proto_Marshal
                (DeliverdGetRoutesQuery (id d) (MailFrom d) (RcptTo d)
                                        (AuthUser d)) with
        | inl _ => []
        | inr m => m
        end in
      (* There should be only one URI for getroutes so we take msURI[0] *)
      match newMicroservice uri0 with
      | (ms, Some err) =>
          let w :=
            Log_Error ("deliverd-remote " ++ id d
                       ++ " - msGetRoutes - unable to init new ms: ") err w in
          match stopOnError_ptr ms with
          | Returned stop => Returned (None, stop, w)
          | Panicked => Panicked
          end
      | (None, None) => Panicked
      | (Some ms, None) =>
          let w :=
            Log_Info ("deliverd-remote " ++ id d
                      ++ " - msGetRoutes - call ms: " ++ url ms) w in
          let '(result, w) := call ms msg w in
          match result with
          | (_, Some err) =>
              let w :=
                Log_Error ("deliverd-remote " ++ id d
                           ++ " - msGetRoutes - unable to call ms: ") err w in
              Returned (None, stopOnError ms, w)
          | (None, None) => Panicked
          | (Some response, None) =>
              (* parse resp *)
              match Unmarshal_GetRoutes response with
              | inl err =>
                  let w :=
                    Log_Error
                      ("deliverd-remote " ++ id d
                       ++ " - msGetRoutes - unable to unmarshall response: ")
                      err w in
                  Returned (Some routes, stopOnError ms, w)
              | inr msResponse =>
                  (* no routes found *)
                  if (List.length (GetRoutes msResponse) =? 0)%nat
                  then Returned (None, false, w)
                  else
                    Returned
                      (Some (routes
                             ++ map routeOf (GetRoutes msResponse))%list,
                       false, w)
              end
          end
      end
  end.

(** ** Vocabulary of the properties *)

(** the failure a synchronous call to [ms] ends in, if it does: the error
    of the transport, or else the error of decoding the body received *)
Definition syncFailure {A : Type} (unmarshal : list Byte.byte -> error + A)
           (ms : microservice) (msg : list Byte.byte) (w : World)
  : option error :=
  match fst (call ms msg w) with
  | (_, Some err) => Some err
  | (Some response, None) =>
      match unmarshal response with
      | inl err => Some err
      | inr _ => None
      end
  | (None, None) => None
  end.

(** the outcome a synchronous call to [ms] decodes to, if it does *)
Definition syncOutcome {A : Type} (unmarshal : list Byte.byte -> error + A)
           (ms : microservice) (msg : list Byte.byte) (w : World)
  : option A :=
  match fst (call ms msg w) with
  | (Some response, None) =>
      match unmarshal response with
      | inl _ => None
      | inr r => Some r
      end
  | _ => None
  end.

(** the reply line the failure policy of [ms] asks for *)
Definition policyReply (ms : microservice) : string :=
  match onFailure ms with
  | PERMFAIL => "550 sorry something wrong happened"
  | TEMPFAIL => "450 sorry something wrong happened"
  | CONTINUE => ""
  end.

(** a reply with a nonzero code and a nonempty message *)
Definition hasReplyText (r : option SmtpResponse) : bool :=
  match r with
  | Some r => negb (GetCode r =? 0) && negb (String.eqb (GetMsg r) "")
  | None => false
  end.

(** no reply text: the reply is absent, or its code is zero, or its
    message is empty *)
Definition noReplyText (r : option SmtpResponse) : Prop :=
  match r with
  | None => True
  | Some r => GetCode r = 0 \/ GetMsg r = ""
  end.

(** the session after the line [calling <url>] is logged *)
Definition announced (ms : microservice) (s : SMTPServerSession)
  : SMTPServerSession := log ("calling " ++ url ms) s.

(** the session after the bridge and the drop directive are applied *)
Definition bridged (reply : option SmtpResponse) (drop : bool)
           (s : SMTPServerSession) : SMTPServerSession :=
  let s := snd (handleSMTPResponse reply s) in
  if drop then exitAsap s else s.

(** [s'] differs from [s] in nothing a client or the protocol engine
    sees: no reply written, same user, no termination requested *)
Definition quietly (s s' : SMTPServerSession) : Prop :=
  outbox s' = outbox s /\ user s' = user s /\ exiting s' = exiting s.

(** A run of the hook on session [s0] in world [w0] serializes its query
    to [msg], falls through the endpoints [pre], and stands before the
    endpoint [uri] with the session [s] and the world [w]. *)
Definition newClientAt (pre : list string) (uri : string)
           (post : list string) (msg : list Byte.byte)
           (s0 : SMTPServerSession) (w0 : World)
           (s : SMTPServerSession) (w : World) : Prop :=
  GetMicroservicesUri Cfg "smtpdnewclient" = (pre ++ uri :: post)%list
  /\ proto_Marshal (SmtpdNewClientQuery (uuid s0) (remoteAddr s0)) = inr msg
  /\ forEach (newClientBody msg) pre (false, s0, w0) = Next (false, s, w).

Definition rcptToAt (rcptTo : string) (pre : list string) (uri : string)
           (post : list string) (msg : list Byte.byte)
           (s0 : SMTPServerSession) (w0 : World)
           (s : SMTPServerSession) (w : World) : Prop :=
  GetMicroservicesUri Cfg "smtpdrcptto" = (pre ++ uri :: post)%list
  /\ proto_Marshal (SmtpdRcptToQuery (uuid s0) rcptTo) = inr msg
  /\ forEach (rcptToBody msg) pre (false, s0, w0) = Next (false, s, w).

(** For the data hook the run has also saved the message body in the
    temporary file [name], and has gathered the headers [h]. *)
Definition dataAt (rawMail : list Byte.byte) (name : string)
           (pre : list string) (uri : string)
           (post : list string) (msg : list Byte.byte)
           (s0 : SMTPServerSession) (w0 : World)
           (h : list string) (s : SMTPServerSession) (w : World) : Prop :=
  GetMicroservicesUri Cfg "smtpddata" = (pre ++ uri :: post)%list
  /\ ioutil_TempFile (files w0) (GetTempDir Cfg) = inr name
  /\ file_Write name rawMail = None
  /\ proto_Marshal (SmtpdDataQuery (uuid s0) (dataLink name)) = inr msg
  /\ exists b,
       forEach (dataBody msg) pre
               (false, [], s0, writeFile name rawMail (createFile name w0))
       = Next (b, h, s, w).

(** the request [doRequest] makes for [ms] *)
Definition requestOf (ms : microservice) (msg : list Byte.byte) : Request :=
  mkRequest (url ms) (timeout ms) msg.

(** the world after one more exchange *)
Definition afterCall (ms : microservice) (msg : list Byte.byte) (w : World)
  : World := set_sent (sent w ++ [requestOf ms msg]) w.

(** the session after a failure of [ms] is logged *)
Definition blamed (ms : microservice) (err : error) (s : SMTPServerSession)
  : SMTPServerSession :=
  logError ("microservice " ++ url ms ++ " failed. ") err s.

(** the query [q] has no pair for [key] *)
Definition absent (key : string) (q : net_url.Values) : Prop :=
  forall v, ~ In (key, v) q.

(** ** Vocabulary of the further properties *)

(** the exchange that the loop of msSmtpdNewClient and of msSmtpdRcptTo
    makes on its own goroutine at the reference [uri], for a session that
    is authenticated or not: none when the reference does not parse, when
    the endpoint is skipped, or when it is fire-and-forget *)
Definition syncReq (auth : bool) (msg : list Byte.byte) (uri : string)
  : list Request :=
  match newMicroservice uri with
  | (Some ms, None) =>
      if auth && skipAuthentifiedUser ms then []
      else if fireAndForget ms then [] else [requestOf ms msg]
  | _ => []
  end.

(** the call that the same loop starts with [go] at [uri] *)
Definition goReq (auth : bool) (msg : list Byte.byte) (uri : string)
  : list Request :=
  match newMicroservice uri with
  | (Some ms, None) =>
      if auth && skipAuthentifiedUser ms then []
      else if fireAndForget ms then [requestOf ms msg] else []
  | _ => []
  end.

(** the exchange that the loop of smtpdData makes at [uri] *)
Definition dataReq (auth : bool) (msg : list Byte.byte) (uri : string)
  : list Request :=
  match newMicroservice uri with
  | (Some ms, None) =>
      if auth && skipAuthentifiedUser ms then [] else [requestOf ms msg]
  | _ => []
  end.

(** [s'] is [s] but for what the hooks may write: replies, log lines, the
    relay grant and the request to terminate *)
Definition sameIdentity (s s' : SMTPServerSession) : Prop :=
  uuid s' = uuid s /\ remoteAddr s' = remoteAddr s /\ user s' = user s.

(** [w'] is [w] but for the exchanges made and the calls started *)
Definition sameStore (w w' : World) : Prop :=
  files w' = files w /\ applog w' = applog w.

(** the frame a pass through a loop body, or a whole loop, ends with,
    whether at its bottom or at a [return] *)
Definition landing {S : Type} (f : Flow S S) : option S :=
  match f with
  | Next st => Some st
  | Return st => Some st
  | Panic => None
  end.

(** the reply line the bridge writes for a reply with text *)
Definition replyLine (r : SmtpResponse) : string :=
  fmt_d (GetCode r) ++ " " ++ GetMsg r.

(** between [s] and [s'] the hook has answered the command: it has written
    one reply, or it has written none and asked to terminate the session *)
Definition answered (s s' : SMTPServerSession) : Prop :=
  (exists line, outbox s' = (outbox s ++ [line])%list)
  \/ (outbox s' = outbox s /\ exiting s' = true).

(** the body msGetRoutes sends: the serialized query, or nothing when the
    serialization failed, its error being overwritten unread *)
Definition routesQuery (d : delivery) : list Byte.byte :=
  match proto_Marshal
          (DeliverdGetRoutesQuery (id d) (MailFrom d) (RcptTo d) (AuthUser d))
  with
  | inl _ => []
  | inr m => m
  end.

(** from [s] to [s'] the replies and the log have only been added to, and
    a request to terminate has not been taken back *)
Definition grows (s s' : SMTPServerSession) : Prop :=
  (exists lines, outbox s' = (outbox s ++ lines)%list)
  /\ (exists entries, journal s' = (journal s ++ entries)%list)
  /\ (exiting s = true -> exiting s' = true).

(* ================================================================ *)
(** ** The endpoint parser *)

Lemma Get_absent (key : string) (q : net_url.Values) :
  absent key q -> net_url.Get q key = "".
Proof using.
  unfold absent. induction q as [|[k x] q IH]; intro H; simpl.
  - reflexivity.
  - destruct (String.eqb_spec k key) as [->|Hk].
    + exfalso. apply (H x). now left.
    + apply IH. intros v Hin. apply (H v). now right.
Qed.

(** [url.Parse] returns a URL or an error, never neither. *)
Lemma Parse_total (uri : string) :
  (exists err, net_url.Parse uri = (None, Some err))
  \/ (exists parsed, net_url.Parse uri = (Some parsed, None)).
Proof using.
  unfold net_url.Parse.
  destruct (strings_Cut uri "#") as [[u frag] found].
  destruct (net_url.parse u) as [e|parsed]; [left; now eexists|].
  destruct (String.eqb frag ""); [right; now eexists|].
  destruct (net_url.unescape frag net_url.encodeFragment);
    [left|right]; now eexists.
Qed.

(** newMicroservice returns a descriptor or an error, never neither, and
    with an error the descriptor is nil. *)
Lemma newMicroservice_total (uri : string) :
  (exists err, newMicroservice uri = (None, Some err))
  \/ (exists ms, newMicroservice uri = (Some ms, None)).
Proof using.
  unfold newMicroservice.
  destruct (Parse_total uri) as [[err ->]|[parsed ->]];
    [left; now eexists|].
  destruct (negb (String.eqb (net_url.Get (net_url.Query parsed) "timeout")
                             "")).
  - destruct (strconv.ParseUint _) as [n [err|]];
      [left|right]; now eexists.
  - right; now eexists.
Qed.

Lemma newMicroservice_error_nil (uri : string) (ms : option microservice)
      (err : error) :
  newMicroservice uri = (ms, Some err) -> ms = None.
Proof using.
  destruct (newMicroservice_total uri) as [[e ->]|[m ->]]; congruence.
Qed.

(** C6.  The reference http://h/x?timeout=5&onfailure=permfail parses to
    the descriptor with timeout 5, policy PermFail and both flags false.
    In general: a reference that is not a well-formed locator, or whose
    timeout value does not parse as an unsigned number, gives an error
    and no descriptor; otherwise the descriptor has the address before
    the first question mark, skipAuthentifiedUser and fireAndForget set
    exactly when skipauthentifieduser=true and fireandforget=true are
    given, the timeout given (30 when there is none), and the policy
    TempFail for onfailure=tempfail, PermFail for onfailure=permfail and
    Continue for every other value or none; so every parameter that is
    absent keeps its default. *)
Theorem newMicroservice_parses :
  newMicroservice "http://h/x?timeout=5&onfailure=permfail"
  = (Some (mkMicroservice "http://h/x" false false 5 PERMFAIL), None)
  /\ (forall uri err,
         net_url.Parse uri = (None, Some err) ->
         newMicroservice uri = (None, Some err))
  /\ (forall uri parsed,
         net_url.Parse uri = (Some parsed, None) ->
         let q := net_url.Query parsed in
         let param := net_url.Get q in
         (forall n err,
             param "timeout" <> "" ->
             strconv.ParseUint (param "timeout") = (n, Some err) ->
             newMicroservice uri = (None, Some err))
         /\ (forall n,
                param "timeout" = ""
                \/ strconv.ParseUint (param "timeout") = (n, None) ->
                newMicroservice uri
                = (Some (mkMicroservice
                           (nth 0 (strings_Split uri "?") "")
                           (String.eqb (param "skipauthentifieduser") "true")
                           (String.eqb (param "fireandforget") "true")
                           (if String.eqb (param "timeout") "" then 30 else n)
                           (if String.eqb (param "onfailure") "tempfail"
                            then TEMPFAIL
                            else if String.eqb (param "onfailure") "permfail"
                                 then PERMFAIL else CONTINUE)),
                   None))
         /\ (forall ms,
                newMicroservice uri = (Some ms, None) ->
                (absent "skipauthentifieduser" q ->
                 skipAuthentifiedUser ms = false)
                /\ (absent "fireandforget" q -> fireAndForget ms = false)
                /\ (absent "timeout" q -> timeout ms = 30)
                /\ (absent "onfailure" q -> onFailure ms = CONTINUE))).
Proof using.
  split; [reflexivity|]. split.
  { intros uri err H. unfold newMicroservice. rewrite H. reflexivity. }
  intros uri parsed Hparse q param.
  assert (Hdescr : forall n,
             param "timeout" = ""
             \/ strconv.ParseUint (param "timeout") = (n, None) ->
             newMicroservice uri
             = (Some (mkMicroservice
                        (nth 0 (strings_Split uri "?") "")
                        (String.eqb (param "skipauthentifieduser") "true")
                        (String.eqb (param "fireandforget") "true")
                        (if String.eqb (param "timeout") "" then 30 else n)
                        (if String.eqb (param "onfailure") "tempfail"
                         then TEMPFAIL
                         else if String.eqb (param "onfailure") "permfail"
                              then PERMFAIL else CONTINUE)),
                None)).
  { intros n Htimeout. unfold newMicroservice.
    rewrite Hparse. fold q. fold param.
    assert (Hnum : String.eqb (param "timeout") "" = false ->
                   strconv.ParseUint (param "timeout") = (n, None)).
    { intro E. apply String.eqb_neq in E.
      destruct Htimeout as [H|H]; [contradiction|exact H]. }
    destruct (String.eqb (param "timeout") ""); cbn [negb];
      [|rewrite (Hnum eq_refl)];
      destruct (String.eqb_spec (param "onfailure") "") as [->|_];
      cbn [negb String.eqb Ascii.eqb];
      destruct (String.eqb (param "skipauthentifieduser") "true");
      destruct (String.eqb (param "fireandforget") "true");
      try reflexivity;
      destruct (String.eqb (param "onfailure") "tempfail");
      try reflexivity;
      destruct (String.eqb (param "onfailure") "permfail"); reflexivity. }
  split; [|split].
  - intros n err Hne Hnum. unfold newMicroservice.
    rewrite Hparse. fold q. fold param.
    destruct (String.eqb_spec (param "timeout") "") as [E|_];
      [contradiction|].
    cbn [negb]. rewrite Hnum. reflexivity.
  - exact Hdescr.
  - intros ms Hms.
    assert (Hgiven : param "timeout" = ""
                     \/ strconv.ParseUint (param "timeout")
                        = (timeout ms, None)).
    { destruct (String.eqb_spec (param "timeout") "") as [E|E];
        [now left|right].
      revert Hms. unfold newMicroservice.
      rewrite Hparse. fold q. fold param.
      apply String.eqb_neq in E. rewrite E. cbn [negb].
      destruct (strconv.ParseUint (param "timeout")) as [n [err|]];
        [discriminate|].
      intro H. injection H as <-.
      destruct (negb (String.eqb (param "onfailure") ""));
        [destruct (String.eqb (param "onfailure") "tempfail");
         [|destruct (String.eqb (param "onfailure") "permfail")]|];
        reflexivity. }
    rewrite (Hdescr _ Hgiven) in Hms. injection Hms as <-.
    repeat split; intro Ha; apply Get_absent in Ha;
      fold q in Ha; fold param in Ha; cbn [skipAuthentifiedUser
      fireAndForget timeout onFailure]; rewrite Ha; reflexivity.
Qed.

(* ================================================================ *)
(** ** The range loop *)

Lemma forEach_app {S R : Type} (body : string -> S -> Flow S R)
      (pre rest : list string) (st : S) :
  forEach body (pre ++ rest) st =
  match forEach body pre st with
  | Next st' => forEach body rest st'
  | Return r => Return r
  | Panic => Panic
  end.
Proof.
  revert st; induction pre as [|u pre IH]; intro st; simpl.
  - reflexivity.
  - destruct (body u st); auto.
Qed.

(** The loop over [pre ++ uri :: post] that gets through [pre] runs the
    body at [uri], and goes on to [post] only when the body falls
    through. *)
Lemma forEach_reach {S R : Type} (body : string -> S -> Flow S R)
      (pre post : list string) (uri : string) (st0 st : S) :
  forEach body pre st0 = Next st ->
  forEach body (pre ++ uri :: post) st0 =
  match body uri st with
  | Next st' => forEach body post st'
  | Return r => Return r
  | Panic => Panic
  end.
Proof. intro H. rewrite forEach_app, H. reflexivity. Qed.

Lemma nonempty_length {A : Type} (pre post : list A) (x : A) :
  (List.length (pre ++ x :: post) =? 0)%nat = false.
Proof. rewrite length_app; simpl. apply Nat.eqb_neq. lia. Qed.

(* ================================================================ *)
(** ** The transport call *)

Lemma call_world (ms : microservice) (data : list Byte.byte) (w : World) :
  snd (call ms data w)
  = set_sent (sent w ++ [mkRequest (url ms) (timeout ms) data]) w.
Proof.
  unfold call, doRequest; cbv iota beta.
  destruct (client_Do _ _) as [err|r]; [reflexivity|].
  destruct (ReadAll r) as [rawBody [err|]]; [reflexivity|].
  destruct (StatusCode r >? 399); reflexivity.
Qed.

(** [call] returns a body or an error, never neither. *)
Lemma call_total (ms : microservice) (data : list Byte.byte) (w : World) :
  (exists err, fst (call ms data w) = (None, Some err))
  \/ (exists body, fst (call ms data w) = (Some body, None)).
Proof.
  unfold call, doRequest; cbv iota beta.
  destruct (client_Do _ _) as [err|r]; [left; now eexists|].
  destruct (ReadAll r) as [rawBody [err|]]; [left; now eexists|].
  destruct (StatusCode r >? 399); [left|right]; now eexists.
Qed.

Lemma call_pair (ms : microservice) (data : list Byte.byte) (w : World) :
  call ms data w = (fst (call ms data w), snd (call ms data w)).
Proof. destruct (call ms data w); reflexivity. Qed.

(* ================================================================ *)
(** ** The two handlers *)

Lemma handleSMTPError_halting (ms : microservice) (err : error)
      (s : SMTPServerSession) :
  onFailure ms = TEMPFAIL \/ onFailure ms = PERMFAIL ->
  handleSMTPError ms (Some err) s
  = (true, out (policyReply ms)
               (logError ("microservice " ++ url ms ++ " failed. ") err s)).
Proof.
  unfold handleSMTPError, policyReply.
  intros [H|H]; rewrite H; reflexivity.
Qed.

Lemma handleSMTPError_continue (ms : microservice) (err : error)
      (s : SMTPServerSession) :
  onFailure ms = CONTINUE ->
  handleSMTPError ms (Some err) s
  = (false, logError ("microservice " ++ url ms ++ " failed. ") err s).
Proof. unfold handleSMTPError. intros ->. reflexivity. Qed.

Lemma handleSMTPResponse_silent (r : option SmtpResponse)
      (s : SMTPServerSession) :
  hasReplyText r = false -> handleSMTPResponse r s = (false, s).
Proof.
  unfold hasReplyText, handleSMTPResponse.
  destruct r as [r|]; [|reflexivity]. intros ->. reflexivity.
Qed.

Lemma handleSMTPResponse_reply (r : SmtpResponse) (s : SMTPServerSession) :
  hasReplyText (Some r) = true ->
  handleSMTPResponse (Some r) s
  = (true,
     log ("smtp response from microservice sent to client: "
          ++ fmt_d (GetCode r) ++ " " ++ GetMsg r)
         (out (fmt_d (GetCode r) ++ " " ++ GetMsg r) s)).
Proof. unfold hasReplyText, handleSMTPResponse. intros ->. reflexivity. Qed.

(** Whatever the bridge returns with [stop = false], it left the session
    as it was. *)
Lemma handleSMTPResponse_false (r : option SmtpResponse)
      (s s' : SMTPServerSession) :
  handleSMTPResponse r s = (false, s') -> s' = s.
Proof.
  unfold handleSMTPResponse. destruct r as [r|]; [|congruence].
  destruct (negb (GetCode r =? 0) && negb (String.eqb (GetMsg r) ""));
    congruence.
Qed.

(* ================================================================ *)
(** ** One endpoint at a time: what each loop body does *)

(** the proof steps shared by the body lemmas: enter the body at an
    endpoint that parses, and split on the result of its call *)
Ltac enter_body Hnew :=
  unfold newClientBody, rcptToBody, dataBody; rewrite Hnew.

Ltac split_call ms msg w :=
  unfold syncFailure, syncOutcome;
  let r := fresh "result" in
  let e := fresh "e" in
  let w1 := fresh "w1" in
  destruct (call ms msg w) as [[r e] w1]; cbn [fst snd];
  destruct r as [r|]; destruct e as [e|]; cbv beta iota.

(** *** A reference that does not parse *)

Lemma newClientBody_unparsable (msg : list Byte.byte) (uri : string)
      (ms : option microservice) (err : error) (b : bool)
      (s : SMTPServerSession) (w : World) :
  newMicroservice uri = (ms, Some err) ->
  newClientBody msg uri (b, s, w)
  = Next (false,
          logError ("unable to parse microservice url " ++ uri ++ ". ")
                   err s, w).
Proof. intro Hnew. enter_body Hnew. destruct ms; reflexivity. Qed.

Lemma rcptToBody_unparsable (msg : list Byte.byte) (uri : string)
      (ms : option microservice) (err : error) (b : bool)
      (s : SMTPServerSession) (w : World) :
  newMicroservice uri = (ms, Some err) ->
  rcptToBody msg uri (b, s, w)
  = Next (false,
          logError ("unable to parse microservice url " ++ uri ++ ". ")
                   err s, w).
Proof. intro Hnew. enter_body Hnew. destruct ms; reflexivity. Qed.

Lemma dataBody_unparsable (msg : list Byte.byte) (uri : string)
      (ms : option microservice) (err : error) (b : bool)
      (h : list string) (s : SMTPServerSession) (w : World) :
  newMicroservice uri = (ms, Some err) ->
  dataBody msg uri (b, h, s, w)
  = Next (b, h,
          logError ("unable to parse microservice url " ++ uri ++ ". ")
                   err s, w).
Proof. intro Hnew. enter_body Hnew. destruct ms; reflexivity. Qed.

(** *** An endpoint skipped for an authenticated session *)

Lemma newClientBody_skip (msg : list Byte.byte) (uri : string)
      (ms : microservice) (b : bool) (s : SMTPServerSession) (w : World) :
  newMicroservice uri = (Some ms, None) ->
  isAuthenticated s = true -> skipAuthentifiedUser ms = true ->
  newClientBody msg uri (b, s, w) = Next (false, s, w).
Proof. intros Hnew Ha Hs. enter_body Hnew. rewrite Ha, Hs. reflexivity. Qed.

Lemma rcptToBody_skip (msg : list Byte.byte) (uri : string)
      (ms : microservice) (b : bool) (s : SMTPServerSession) (w : World) :
  newMicroservice uri = (Some ms, None) ->
  isAuthenticated s = true -> skipAuthentifiedUser ms = true ->
  rcptToBody msg uri (b, s, w) = Next (false, s, w).
Proof. intros Hnew Ha Hs. enter_body Hnew. rewrite Ha, Hs. reflexivity. Qed.

Lemma dataBody_skip (msg : list Byte.byte) (uri : string)
      (ms : microservice) (b : bool) (h : list string)
      (s : SMTPServerSession) (w : World) :
  newMicroservice uri = (Some ms, None) ->
  isAuthenticated s = true -> skipAuthentifiedUser ms = true ->
  dataBody msg uri (b, h, s, w) = Next (b, h, s, w).
Proof. intros Hnew Ha Hs. enter_body Hnew. rewrite Ha, Hs. reflexivity. Qed.

(** *** A fire-and-forget endpoint (NewClient and RcptTo) *)

Lemma newClientBody_detached (msg : list Byte.byte) (uri : string)
      (ms : microservice) (b : bool) (s : SMTPServerSession) (w : World) :
  newMicroservice uri = (Some ms, None) ->
  isAuthenticated s && skipAuthentifiedUser ms = false ->
  fireAndForget ms = true ->
  newClientBody msg uri (b, s, w)
  = Next (false, announced ms s, go_call ms msg w).
Proof. intros Hnew Hs Hf. enter_body Hnew. rewrite Hs, Hf. reflexivity. Qed.

Lemma rcptToBody_detached (msg : list Byte.byte) (uri : string)
      (ms : microservice) (b : bool) (s : SMTPServerSession) (w : World) :
  newMicroservice uri = (Some ms, None) ->
  isAuthenticated s && skipAuthentifiedUser ms = false ->
  fireAndForget ms = true ->
  rcptToBody msg uri (b, s, w)
  = Next (false, announced ms s, go_call ms msg w).
Proof. intros Hnew Hs Hf. enter_body Hnew. rewrite Hs, Hf. reflexivity. Qed.

(** *** A synchronous call that fails *)

Lemma newClientBody_failure (msg : list Byte.byte) (uri : string)
      (ms : microservice) (err : error) (b : bool)
      (s : SMTPServerSession) (w : World) :
  newMicroservice uri = (Some ms, None) ->
  isAuthenticated s && skipAuthentifiedUser ms = false ->
  fireAndForget ms = false ->
  syncFailure Unmarshal_NewClient ms msg w = Some err ->
  newClientBody msg uri (b, s, w)
  = let s' := logError ("microservice " ++ url ms ++ " failed. ") err
                       (announced ms s) in
    if stopOnError ms then Return (false, s', snd (call ms msg w))
    else Next (false, s', snd (call ms msg w)).
Proof.
  intros Hnew Hs Hf. enter_body Hnew. rewrite Hs, Hf.
  split_call ms msg w; intro H;
    try discriminate; try (injection H as ->; reflexivity).
  destruct (Unmarshal_NewClient _); [injection H as ->|discriminate].
  reflexivity.
Qed.

Lemma rcptToBody_failure (msg : list Byte.byte) (uri : string)
      (ms : microservice) (err : error) (b : bool)
      (s : SMTPServerSession) (w : World) :
  newMicroservice uri = (Some ms, None) ->
  isAuthenticated s && skipAuthentifiedUser ms = false ->
  fireAndForget ms = false ->
  syncFailure Unmarshal_RcptTo ms msg w = Some err ->
  rcptToBody msg uri (b, s, w)
  = let '(halt, s') := handleSMTPError ms (Some err) (announced ms s) in
    if halt then Return (true, s', snd (call ms msg w))
    else Next (false, s', snd (call ms msg w)).
Proof.
  intros Hnew Hs Hf. enter_body Hnew. rewrite Hs, Hf.
  split_call ms msg w; intro H;
    try discriminate; try (injection H as ->; reflexivity).
  destruct (Unmarshal_RcptTo _); [injection H as ->|discriminate].
  reflexivity.
Qed.

Lemma dataBody_failure (msg : list Byte.byte) (uri : string)
      (ms : microservice) (err : error) (b : bool) (h : list string)
      (s : SMTPServerSession) (w : World) :
  newMicroservice uri = (Some ms, None) ->
  isAuthenticated s && skipAuthentifiedUser ms = false ->
  syncFailure Unmarshal_Data ms msg w = Some err ->
  dataBody msg uri (b, h, s, w)
  = let '(halt, s') := handleSMTPError ms (Some err) (announced ms s) in
    if halt then Return (true, h, s', snd (call ms msg w))
    else Next (b, h, s', snd (call ms msg w)).
Proof.
  intros Hnew Hs. enter_body Hnew. rewrite Hs.
  split_call ms msg w; intro H;
    try discriminate; try (injection H as ->; reflexivity).
  destruct (Unmarshal_Data _); [injection H as ->|discriminate].
  reflexivity.
Qed.

(** *** A synchronous call whose answer decodes *)

Lemma newClientBody_outcome (msg : list Byte.byte) (uri : string)
      (ms : microservice) (resp : SmtpdNewClientResponse) (b : bool)
      (s : SMTPServerSession) (w : World) :
  newMicroservice uri = (Some ms, None) ->
  isAuthenticated s && skipAuthentifiedUser ms = false ->
  fireAndForget ms = false ->
  syncOutcome Unmarshal_NewClient ms msg w = Some resp ->
  newClientBody msg uri (b, s, w)
  = let s' := bridged (nc_SmtpResponse resp) (nc_DropConnection resp)
                      (announced ms s) in
    if hasReplyText (nc_SmtpResponse resp) || nc_DropConnection resp
    then Return (true, s', snd (call ms msg w))
    else Next (false, s', snd (call ms msg w)).
Proof.
  intros Hnew Hs Hf. enter_body Hnew. rewrite Hs, Hf.
  split_call ms msg w; intro H; try discriminate.
  destruct (Unmarshal_NewClient _) as [|r']; [discriminate|].
  injection H as ->. unfold bridged, announced.
  destruct (hasReplyText (nc_SmtpResponse resp)) eqn:Hr.
  - destruct (nc_SmtpResponse resp) as [r0|]; [|discriminate].
    rewrite (handleSMTPResponse_reply _ _ Hr).
    destruct (nc_DropConnection resp); reflexivity.
  - rewrite (handleSMTPResponse_silent _ _ Hr).
    destruct (nc_DropConnection resp); reflexivity.
Qed.

Lemma rcptToBody_outcome (msg : list Byte.byte) (uri : string)
      (ms : microservice) (resp : SmtpdRcptToResponse) (b : bool)
      (s : SMTPServerSession) (w : World) :
  newMicroservice uri = (Some ms, None) ->
  isAuthenticated s && skipAuthentifiedUser ms = false ->
  fireAndForget ms = false ->
  syncOutcome Unmarshal_RcptTo ms msg w = Some resp ->
  rcptToBody msg uri (b, s, w)
  = let s' := bridged (rt_SmtpResponse resp) (rt_DropConnection resp)
                      (set_relayGranted (rt_RelayGranted resp)
                                        (announced ms s)) in
    if hasReplyText (rt_SmtpResponse resp) || rt_DropConnection resp
    then Return (true, s', snd (call ms msg w))
    else Next (false, s', snd (call ms msg w)).
Proof.
  intros Hnew Hs Hf. enter_body Hnew. rewrite Hs, Hf.
  split_call ms msg w; intro H; try discriminate.
  destruct (Unmarshal_RcptTo _) as [|r']; [discriminate|].
  injection H as ->. unfold bridged, announced.
  destruct (hasReplyText (rt_SmtpResponse resp)) eqn:Hr.
  - destruct (rt_SmtpResponse resp) as [r0|]; [|discriminate].
    rewrite (handleSMTPResponse_reply _ _ Hr).
    destruct (rt_DropConnection resp); reflexivity.
  - rewrite (handleSMTPResponse_silent _ _ Hr).
    destruct (rt_DropConnection resp); reflexivity.
Qed.

Lemma dataBody_outcome (msg : list Byte.byte) (uri : string)
      (ms : microservice) (resp : SmtpdDataResponse) (b : bool)
      (h : list string) (s : SMTPServerSession) (w : World) :
  newMicroservice uri = (Some ms, None) ->
  isAuthenticated s && skipAuthentifiedUser ms = false ->
  syncOutcome Unmarshal_Data ms msg w = Some resp ->
  dataBody msg uri (b, h, s, w)
  = let s' := bridged (da_SmtpResponse resp) (da_DropConnection resp)
                      (announced ms s) in
    let h' := (h ++ da_ExtraHeaders resp)%list in
    if hasReplyText (da_SmtpResponse resp) || da_DropConnection resp
    then Return (true, h', s', snd (call ms msg w))
    else Next (false, h', s', snd (call ms msg w)).
Proof.
  intros Hnew Hs. enter_body Hnew. rewrite Hs.
  split_call ms msg w; intro H; try discriminate.
  destruct (Unmarshal_Data _) as [|r']; [discriminate|].
  injection H as ->. unfold bridged, announced.
  destruct (hasReplyText (da_SmtpResponse resp)) eqn:Hr.
  - destruct (da_SmtpResponse resp) as [r0|]; [|discriminate].
    rewrite (handleSMTPResponse_reply _ _ Hr).
    destruct (da_DropConnection resp); reflexivity.
  - rewrite (handleSMTPResponse_silent _ _ Hr).
    destruct (da_DropConnection resp); reflexivity.
Qed.

(** A synchronous call fails or decodes, one of the two. *)
Lemma sync_cases {A : Type} (unmarshal : list Byte.byte -> error + A)
      (ms : microservice) (msg : list Byte.byte) (w : World) :
  (exists err, syncFailure unmarshal ms msg w = Some err)
  \/ (exists resp, syncOutcome unmarshal ms msg w = Some resp).
Proof.
  unfold syncFailure, syncOutcome.
  destruct (call_total ms msg w) as [[err ->]|[body ->]].
  - left; now eexists.
  - destruct (unmarshal body); [left|right]; now eexists.
Qed.

(* ================================================================ *)
(** ** What a run keeps while it goes on

    As long as a session hook falls through from endpoint to endpoint it
    writes no reply, does not change who is authenticated, and does not
    request termination ([quietly]). *)

Lemma quietly_refl (s : SMTPServerSession) : quietly s s.
Proof. repeat split. Qed.

Lemma quietly_trans (s1 s2 s3 : SMTPServerSession) :
  quietly s1 s2 -> quietly s2 s3 -> quietly s1 s3.
Proof. unfold quietly. intuition congruence. Qed.

Lemma bridged_silent (reply : option SmtpResponse) (s : SMTPServerSession) :
  hasReplyText reply = false -> bridged reply false s = s.
Proof.
  intro H. unfold bridged. rewrite (handleSMTPResponse_silent _ _ H).
  reflexivity.
Qed.

Lemma newClientBody_next (msg : list Byte.byte) (uri : string) (b b' : bool)
      (s s' : SMTPServerSession) (w w' : World) :
  newClientBody msg uri (b, s, w) = Next (b', s', w') ->
  b' = false /\ quietly s s'.
Proof.
  destruct (newMicroservice uri) as [[ms|] [err|]] eqn:Hnew.
  - rewrite (newClientBody_unparsable _ _ _ _ _ _ _ Hnew).
    intro H; injection H as <- <- <-. repeat split.
  - destruct (isAuthenticated s && skipAuthentifiedUser ms) eqn:Hs.
    { apply andb_prop in Hs as [Ha Hk].
      rewrite (newClientBody_skip _ _ _ _ _ _ Hnew Ha Hk).
      intro H; injection H as <- <- <-. repeat split. }
    destruct (fireAndForget ms) eqn:Hf.
    { rewrite (newClientBody_detached _ _ _ _ _ _ Hnew Hs Hf).
      intro H; injection H as <- <- <-. repeat split. }
    destruct (sync_cases Unmarshal_NewClient ms msg w) as [[err He]|[r Hr]].
    + rewrite (newClientBody_failure _ _ _ _ _ _ _ Hnew Hs Hf He).
      cbv zeta. destruct (stopOnError ms); [discriminate|].
      intro H; injection H as <- <- <-. repeat split.
    + rewrite (newClientBody_outcome _ _ _ _ _ _ _ Hnew Hs Hf Hr).
      cbv zeta.
      destruct (hasReplyText (nc_SmtpResponse r)) eqn:Ht; [discriminate|].
      destruct (nc_DropConnection r); [discriminate|].
      cbn [orb]. rewrite (bridged_silent _ _ Ht).
      intro H; injection H as <- <- <-. repeat split.
  - rewrite (newClientBody_unparsable _ _ _ _ _ _ _ Hnew).
    intro H; injection H as <- <- <-. repeat split.
  - unfold newClientBody. rewrite Hnew. discriminate.
Qed.

Lemma rcptToBody_next (msg : list Byte.byte) (uri : string) (b b' : bool)
      (s s' : SMTPServerSession) (w w' : World) :
  rcptToBody msg uri (b, s, w) = Next (b', s', w') ->
  b' = false /\ quietly s s'.
Proof.
  destruct (newMicroservice uri) as [[ms|] [err|]] eqn:Hnew.
  - rewrite (rcptToBody_unparsable _ _ _ _ _ _ _ Hnew).
    intro H; injection H as <- <- <-. repeat split.
  - destruct (isAuthenticated s && skipAuthentifiedUser ms) eqn:Hs.
    { apply andb_prop in Hs as [Ha Hk].
      rewrite (rcptToBody_skip _ _ _ _ _ _ Hnew Ha Hk).
      intro H; injection H as <- <- <-. repeat split. }
    destruct (fireAndForget ms) eqn:Hf.
    { rewrite (rcptToBody_detached _ _ _ _ _ _ Hnew Hs Hf).
      intro H; injection H as <- <- <-. repeat split. }
    destruct (sync_cases Unmarshal_RcptTo ms msg w) as [[err He]|[r Hr]].
    + rewrite (rcptToBody_failure _ _ _ _ _ _ _ Hnew Hs Hf He).
      unfold handleSMTPError.
      destruct (onFailure ms); try discriminate.
      intro H; injection H as <- <- <-. repeat split.
    + rewrite (rcptToBody_outcome _ _ _ _ _ _ _ Hnew Hs Hf Hr).
      cbv zeta.
      destruct (hasReplyText (rt_SmtpResponse r)) eqn:Ht; [discriminate|].
      destruct (rt_DropConnection r); [discriminate|].
      cbn [orb]. rewrite (bridged_silent _ _ Ht).
      intro H; injection H as <- <- <-. repeat split.
  - rewrite (rcptToBody_unparsable _ _ _ _ _ _ _ Hnew).
    intro H; injection H as <- <- <-. repeat split.
  - unfold rcptToBody. rewrite Hnew. discriminate.
Qed.

Lemma dataBody_next (msg : list Byte.byte) (uri : string) (b b' : bool)
      (h h' : list string) (s s' : SMTPServerSession) (w w' : World) :
  dataBody msg uri (b, h, s, w) = Next (b', h', s', w') ->
  quietly s s'.
Proof.
  destruct (newMicroservice uri) as [[ms|] [err|]] eqn:Hnew.
  - rewrite (dataBody_unparsable _ _ _ _ _ _ _ _ Hnew).
    intro H; injection H as <- <- <- <-. repeat split.
  - destruct (isAuthenticated s && skipAuthentifiedUser ms) eqn:Hs.
    { apply andb_prop in Hs as [Ha Hk].
      rewrite (dataBody_skip _ _ _ _ _ _ _ Hnew Ha Hk).
      intro H; injection H as <- <- <- <-. repeat split. }
    destruct (sync_cases Unmarshal_Data ms msg w) as [[err He]|[r Hr]].
    + rewrite (dataBody_failure _ _ _ _ _ _ _ _ Hnew Hs He).
      unfold handleSMTPError.
      destruct (onFailure ms); try discriminate.
      intro H; injection H as <- <- <- <-. repeat split.
    + rewrite (dataBody_outcome _ _ _ _ _ _ _ _ Hnew Hs Hr).
      cbv zeta.
      destruct (hasReplyText (da_SmtpResponse r)) eqn:Ht; [discriminate|].
      destruct (da_DropConnection r); [discriminate|].
      cbn [orb]. rewrite (bridged_silent _ _ Ht).
      intro H; injection H as <- <- <- <-. repeat split.
  - rewrite (dataBody_unparsable _ _ _ _ _ _ _ _ Hnew).
    intro H; injection H as <- <- <- <-. repeat split.
  - unfold dataBody. rewrite Hnew. discriminate.
Qed.

Lemma newClient_loop_next (msg : list Byte.byte) (pre : list string)
      (b : bool) (s0 s : SMTPServerSession) (w0 w : World) :
  forEach (newClientBody msg) pre (false, s0, w0) = Next (b, s, w) ->
  b = false /\ quietly s0 s.
Proof.
  revert s0 w0. induction pre as [|u pre IH]; intros s0 w0; cbn [forEach].
  - intro H; injection H as <- <- <-. split; [reflexivity|apply quietly_refl].
  - destruct (newClientBody msg u (false, s0, w0)) as [[[b1 s1] w1]| |] eqn:Hb;
      try discriminate.
    apply newClientBody_next in Hb as [-> Hq]. intro H.
    apply IH in H as [-> Hq']. split; [reflexivity|].
    eapply quietly_trans; eassumption.
Qed.

Lemma rcptTo_loop_next (msg : list Byte.byte) (pre : list string)
      (b : bool) (s0 s : SMTPServerSession) (w0 w : World) :
  forEach (rcptToBody msg) pre (false, s0, w0) = Next (b, s, w) ->
  b = false /\ quietly s0 s.
Proof.
  revert s0 w0. induction pre as [|u pre IH]; intros s0 w0; cbn [forEach].
  - intro H; injection H as <- <- <-. split; [reflexivity|apply quietly_refl].
  - destruct (rcptToBody msg u (false, s0, w0)) as [[[b1 s1] w1]| |] eqn:Hb;
      try discriminate.
    apply rcptToBody_next in Hb as [-> Hq]. intro H.
    apply IH in H as [-> Hq']. split; [reflexivity|].
    eapply quietly_trans; eassumption.
Qed.

Lemma data_loop_next (msg : list Byte.byte) (pre : list string)
      (b0 b : bool) (h0 h : list string) (s0 s : SMTPServerSession)
      (w0 w : World) :
  forEach (dataBody msg) pre (b0, h0, s0, w0) = Next (b, h, s, w) ->
  quietly s0 s.
Proof.
  revert b0 h0 s0 w0.
  induction pre as [|u pre IH]; intros b0 h0 s0 w0; cbn [forEach].
  - intro H; injection H as <- <- <- <-. apply quietly_refl.
  - destruct (dataBody msg u (b0, h0, s0, w0)) as [[[[b1 h1] s1] w1]| |]
      eqn:Hb; try discriminate.
    apply dataBody_next in Hb. intro H. apply IH in H.
    eapply quietly_trans; eassumption.
Qed.

(* ================================================================ *)
(** ** From the body at one endpoint to the whole hook *)

Lemma newClient_at (pre post : list string) (uri : string)
      (msg : list Byte.byte) (s0 s : SMTPServerSession) (w0 w : World) :
  newClientAt pre uri post msg s0 w0 s w ->
  msSmtpdNewClient s0 w0
  = match newClientBody msg uri (false, s, w) with
    | Next st => finish (forEach (newClientBody msg) post st)
    | other => finish other
    end.
Proof.
  intros (Huris & Hmsg & Hpre). unfold msSmtpdNewClient.
  rewrite Huris, nonempty_length, Hmsg, (forEach_reach _ _ _ _ _ _ Hpre).
  destruct (newClientBody msg uri (false, s, w)); reflexivity.
Qed.

Lemma rcptTo_at (rcptTo : string) (pre post : list string) (uri : string)
      (msg : list Byte.byte) (s0 s : SMTPServerSession) (w0 w : World) :
  rcptToAt rcptTo pre uri post msg s0 w0 s w ->
  msSmtpdRcptTo s0 rcptTo w0
  = match rcptToBody msg uri (false, s, w) with
    | Next st => finish (forEach (rcptToBody msg) post st)
    | other => finish other
    end.
Proof.
  intros (Huris & Hmsg & Hpre). unfold msSmtpdRcptTo.
  rewrite Huris, nonempty_length, Hmsg, (forEach_reach _ _ _ _ _ _ Hpre).
  destruct (rcptToBody msg uri (false, s, w)); reflexivity.
Qed.

Lemma data_at (rawMail : list Byte.byte) (name : string)
      (pre post : list string) (uri : string) (msg : list Byte.byte)
      (h : list string) (s0 s : SMTPServerSession) (w0 w : World) :
  dataAt rawMail name pre uri post msg s0 w0 h s w ->
  exists b,
    smtpdData s0 rawMail w0
    = match dataBody msg uri (b, h, s, w) with
      | Next st => finishData name (forEach (dataBody msg) post st)
      | other => finishData name other
      end.
Proof.
  intros (Huris & Htmp & Hwr & Hmsg & b & Hpre). exists b.
  unfold smtpdData.
  rewrite Huris, nonempty_length, Htmp, Hwr, Hmsg,
    (forEach_reach _ _ _ _ _ _ Hpre).
  destruct (dataBody msg uri (b, h, s, w)) as [[[[? ?] ?] ?]|[[[? ?] ?] ?]|];
    reflexivity.
Qed.

(* ================================================================ *)
(** ** Failure under a halting policy *)

Lemma out_outbox (line : string) (s : SMTPServerSession) :
  outbox (out line s) = (outbox s ++ [line])%list.
Proof. reflexivity. Qed.

Lemma rcptTo_failure_halts (rcptTo uri : string) (ms : microservice)
      (pre post : list string) (msg : list Byte.byte) (err : error)
      (s0 s : SMTPServerSession) (w0 w : World) :
  newMicroservice uri = (Some ms, None) ->
  onFailure ms = TEMPFAIL \/ onFailure ms = PERMFAIL ->
  rcptToAt rcptTo pre uri post msg s0 w0 s w ->
  isAuthenticated s && skipAuthentifiedUser ms = false ->
  fireAndForget ms = false ->
  syncFailure Unmarshal_RcptTo ms msg w = Some err ->
  let s' := out (policyReply ms) (blamed ms err (announced ms s)) in
  msSmtpdRcptTo s0 rcptTo w0 = Returned (true, s', afterCall ms msg w)
  /\ outbox s' = (outbox s0 ++ [policyReply ms])%list.
Proof.
  intros Hnew Hpol Hat Hskip Hfaf Hfail. split.
  - rewrite (rcptTo_at _ _ _ _ _ _ _ _ _ Hat).
    rewrite (rcptToBody_failure _ _ _ _ _ _ _ Hnew Hskip Hfaf Hfail).
    rewrite (handleSMTPError_halting _ _ _ Hpol), call_world. reflexivity.
  - destruct Hat as (_ & _ & Hpre).
    apply rcptTo_loop_next in Hpre as [_ (Ho & _)].
    rewrite out_outbox. simpl. now rewrite Ho.
Qed.

Lemma data_failure_halts (rawMail : list Byte.byte) (name uri : string)
      (ms : microservice) (pre post : list string) (msg : list Byte.byte)
      (err : error) (h : list string) (s0 s : SMTPServerSession)
      (w0 w : World) :
  newMicroservice uri = (Some ms, None) ->
  onFailure ms = TEMPFAIL \/ onFailure ms = PERMFAIL ->
  dataAt rawMail name pre uri post msg s0 w0 h s w ->
  isAuthenticated s && skipAuthentifiedUser ms = false ->
  syncFailure Unmarshal_Data ms msg w = Some err ->
  let s' := out (policyReply ms) (blamed ms err (announced ms s)) in
  smtpdData s0 rawMail w0
  = Returned (true, h, s', os_Remove name (afterCall ms msg w))
  /\ outbox s' = (outbox s0 ++ [policyReply ms])%list.
Proof.
  intros Hnew Hpol Hat Hskip Hfail. split.
  - destruct (data_at _ _ _ _ _ _ _ _ _ _ _ Hat) as [b ->].
    rewrite (dataBody_failure _ _ _ _ _ _ _ _ Hnew Hskip Hfail).
    rewrite (handleSMTPError_halting _ _ _ Hpol), call_world. reflexivity.
  - destruct Hat as (_ & _ & _ & _ & b & Hpre).
    apply data_loop_next in Hpre as (Ho & _).
    rewrite out_outbox. simpl. now rewrite Ho.
Qed.

Lemma newClient_failure_ends (uri : string) (ms : microservice)
      (pre post : list string) (msg : list Byte.byte) (err : error)
      (s0 s : SMTPServerSession) (w0 w : World) :
  newMicroservice uri = (Some ms, None) ->
  onFailure ms = TEMPFAIL \/ onFailure ms = PERMFAIL ->
  newClientAt pre uri post msg s0 w0 s w ->
  isAuthenticated s && skipAuthentifiedUser ms = false ->
  fireAndForget ms = false ->
  syncFailure Unmarshal_NewClient ms msg w = Some err ->
  let s' := blamed ms err (announced ms s) in
  msSmtpdNewClient s0 w0 = Returned (false, s', afterCall ms msg w)
  /\ outbox s' = outbox s0.
Proof.
  intros Hnew Hpol Hat Hskip Hfaf Hfail. split.
  - rewrite (newClient_at _ _ _ _ _ _ _ _ Hat).
    rewrite (newClientBody_failure _ _ _ _ _ _ _ Hnew Hskip Hfaf Hfail).
    cbv zeta. unfold stopOnError.
    destruct Hpol as [-> | ->]; rewrite call_world; reflexivity.
  - destruct Hat as (_ & _ & Hpre).
    apply newClient_loop_next in Hpre as [_ (Ho & _)].
    simpl. exact Ho.
Qed.

(** C1 (as amended).  Take an endpoint whose policy is TempFail or
    PermFail and which a session hook calls synchronously, and let the
    call fail in the transport or in decoding.  Then the run returns at
    that endpoint, whatever endpoints follow, and the failing exchange is
    the last one it makes.  In the RcptTo and Data hooks the run returns
    [stop = true] and the session receives the 450 (TempFail) or 550
    (PermFail) line, the only reply of the run.  In the NewClient hook
    the failure is logged and no reply is written. *)
Theorem halting_policy_failure (uri : string) (ms : microservice) :
  newMicroservice uri = (Some ms, None) ->
  onFailure ms = TEMPFAIL \/ onFailure ms = PERMFAIL ->
  (forall rcptTo pre post msg err s0 w0 s w,
      rcptToAt rcptTo pre uri post msg s0 w0 s w ->
      isAuthenticated s && skipAuthentifiedUser ms = false ->
      fireAndForget ms = false ->
      syncFailure Unmarshal_RcptTo ms msg w = Some err ->
      let s' := out (policyReply ms) (blamed ms err (announced ms s)) in
      msSmtpdRcptTo s0 rcptTo w0 = Returned (true, s', afterCall ms msg w)
      /\ outbox s' = (outbox s0 ++ [policyReply ms])%list)
  /\ (forall rawMail name pre post msg err s0 w0 h s w,
      dataAt rawMail name pre uri post msg s0 w0 h s w ->
      isAuthenticated s && skipAuthentifiedUser ms = false ->
      syncFailure Unmarshal_Data ms msg w = Some err ->
      let s' := out (policyReply ms) (blamed ms err (announced ms s)) in
      smtpdData s0 rawMail w0
      = Returned (true, h, s', os_Remove name (afterCall ms msg w))
      /\ outbox s' = (outbox s0 ++ [policyReply ms])%list)
  /\ (forall pre post msg err s0 w0 s w,
      newClientAt pre uri post msg s0 w0 s w ->
      isAuthenticated s && skipAuthentifiedUser ms = false ->
      fireAndForget ms = false ->
      syncFailure Unmarshal_NewClient ms msg w = Some err ->
      let s' := blamed ms err (announced ms s) in
      (exists stop,
          msSmtpdNewClient s0 w0 = Returned (stop, s', afterCall ms msg w))
      /\ outbox s' = outbox s0).
Proof.
  intros Hnew Hpol. split; [|split].
  - intros. now apply (rcptTo_failure_halts rcptTo uri ms pre post).
  - intros. now apply (data_failure_halts rawMail name uri ms pre post).
  - intros pre post msg err s0 w0 s w Hat Hskip Hfaf Hfail.
    destruct (newClient_failure_ends _ _ _ _ _ _ _ _ _ _ Hnew Hpol Hat Hskip
                Hfaf Hfail) as [Hrun Hout].
    split; [exists false; exact Hrun | exact Hout].
Qed.

(** Under the Continue policy the same failure is logged and the run
    goes on with the next endpoint. *)
Lemma continue_policy_failure (uri : string) (ms : microservice)
      (msg : list Byte.byte) (err : error) (b : bool) (h : list string)
      (s : SMTPServerSession) (w : World) :
  newMicroservice uri = (Some ms, None) ->
  onFailure ms = CONTINUE ->
  isAuthenticated s && skipAuthentifiedUser ms = false ->
  (fireAndForget ms = false ->
   syncFailure Unmarshal_NewClient ms msg w = Some err ->
   newClientBody msg uri (b, s, w)
   = Next (false, blamed ms err (announced ms s), afterCall ms msg w))
  /\ (fireAndForget ms = false ->
      syncFailure Unmarshal_RcptTo ms msg w = Some err ->
      rcptToBody msg uri (b, s, w)
      = Next (false, blamed ms err (announced ms s), afterCall ms msg w))
  /\ (syncFailure Unmarshal_Data ms msg w = Some err ->
      dataBody msg uri (b, h, s, w)
      = Next (b, h, blamed ms err (announced ms s), afterCall ms msg w)).
Proof.
  intros Hnew Hpol Hskip. split; [|split].
  - intros Hfaf Hfail.
    rewrite (newClientBody_failure _ _ _ _ _ _ _ Hnew Hskip Hfaf Hfail).
    unfold stopOnError. rewrite Hpol, call_world. reflexivity.
  - intros Hfaf Hfail.
    rewrite (rcptToBody_failure _ _ _ _ _ _ _ Hnew Hskip Hfaf Hfail).
    rewrite (handleSMTPError_continue _ _ _ Hpol), call_world. reflexivity.
  - intros Hfail.
    rewrite (dataBody_failure _ _ _ _ _ _ _ _ Hnew Hskip Hfail).
    rewrite (handleSMTPError_continue _ _ _ Hpol), call_world. reflexivity.
Qed.

(* ================================================================ *)
(** ** The transport call and the status of the response *)

(** C3 (as amended).  When the exchange completes and the body is read,
    [call] returns an error made of the status line and the raw body
    text exactly when the status code is above 399, whatever the body
    holds; for every other status code, inside 2xx or not, it returns the
    raw body. *)
Theorem call_status_threshold (ms : microservice) (data : list Byte.byte)
        (w : World) (r : Response) (rawBody : list Byte.byte) :
  client_Do (sent w) (requestOf ms data) = inr r ->
  ReadAll r = (rawBody, None) ->
  (StatusCode r > 399 ->
   fst (call ms data w)
   = (None, Some (errors_New (Status r ++ " - " ++ string_of_bytes rawBody))))
  /\ (StatusCode r <= 399 -> fst (call ms data w) = (Some rawBody, None)).
Proof.
  intros Hdo Hread. unfold call, doRequest; cbv iota beta.
  unfold requestOf in Hdo. rewrite Hdo, Hread. split; intro Hcode.
  - rewrite Z.gtb_ltb. destruct (Z.ltb_spec 399 (StatusCode r)); [|lia].
    reflexivity.
  - rewrite Z.gtb_ltb. destruct (Z.ltb_spec 399 (StatusCode r)); [lia|].
    reflexivity.
Qed.

(** A failure of the exchange itself, or of reading the body, is returned
    as it is. *)
Lemma call_transport_error (ms : microservice) (data : list Byte.byte)
      (w : World) (err : error) :
  client_Do (sent w) (requestOf ms data) = inl err ->
  fst (call ms data w) = (None, Some err).
Proof.
  intro Hdo. unfold call, doRequest; cbv iota beta.
  unfold requestOf in Hdo. rewrite Hdo. reflexivity.
Qed.

(* ================================================================ *)
(** ** Endpoints skipped for an authenticated session *)

Lemma quietly_authenticated (s0 s : SMTPServerSession) :
  quietly s0 s -> isAuthenticated s = isAuthenticated s0.
Proof. intros (_ & Hu & _). unfold isAuthenticated. now rewrite Hu. Qed.

(** C8.  On a session that is already authenticated, an endpoint
    configured with skipauthentifieduser=true is passed over in the
    NewClient, RcptTo and Data hooks, whatever its failure policy and its
    fire-and-forget flag: the body of the loop leaves the session and the
    world as they are (nothing sent, nothing started with [go], nothing
    logged or replied), and the run goes on with the endpoints after it
    from that very state. *)
Theorem skipped_when_authenticated (uri : string) (ms : microservice) :
  newMicroservice uri = (Some ms, None) ->
  skipAuthentifiedUser ms = true ->
  (forall pre post msg s0 w0 s w,
      newClientAt pre uri post msg s0 w0 s w ->
      isAuthenticated s0 = true ->
      newClientBody msg uri (false, s, w) = Next (false, s, w)
      /\ msSmtpdNewClient s0 w0
         = finish (forEach (newClientBody msg) post (false, s, w)))
  /\ (forall rcptTo pre post msg s0 w0 s w,
      rcptToAt rcptTo pre uri post msg s0 w0 s w ->
      isAuthenticated s0 = true ->
      rcptToBody msg uri (false, s, w) = Next (false, s, w)
      /\ msSmtpdRcptTo s0 rcptTo w0
         = finish (forEach (rcptToBody msg) post (false, s, w)))
  /\ (forall rawMail name pre post msg s0 w0 h s w,
      dataAt rawMail name pre uri post msg s0 w0 h s w ->
      isAuthenticated s0 = true ->
      exists b,
        dataBody msg uri (b, h, s, w) = Next (b, h, s, w)
        /\ smtpdData s0 rawMail w0
           = finishData name (forEach (dataBody msg) post (b, h, s, w))).
Proof.
  intros Hnew Hskip. split; [|split].
  - intros pre post msg s0 w0 s w Hat Hauth.
    assert (Ha : isAuthenticated s = true).
    { destruct Hat as (_ & _ & Hpre).
      apply newClient_loop_next in Hpre as [_ Hq].
      now rewrite (quietly_authenticated _ _ Hq). }
    pose proof (newClientBody_skip msg _ _ false _ w Hnew Ha Hskip) as Hb.
    split; [exact Hb|].
    rewrite (newClient_at _ _ _ _ _ _ _ _ Hat), Hb. reflexivity.
  - intros rcptTo pre post msg s0 w0 s w Hat Hauth.
    assert (Ha : isAuthenticated s = true).
    { destruct Hat as (_ & _ & Hpre).
      apply rcptTo_loop_next in Hpre as [_ Hq].
      now rewrite (quietly_authenticated _ _ Hq). }
    pose proof (rcptToBody_skip msg _ _ false _ w Hnew Ha Hskip) as Hb.
    split; [exact Hb|].
    rewrite (rcptTo_at _ _ _ _ _ _ _ _ _ Hat), Hb. reflexivity.
  - intros rawMail name pre post msg s0 w0 h s w Hat Hauth.
    assert (Ha : isAuthenticated s = true).
    { destruct Hat as (_ & _ & _ & _ & b & Hpre).
      apply data_loop_next in Hpre.
      now rewrite (quietly_authenticated _ _ Hpre). }
    destruct (data_at _ _ _ _ _ _ _ _ _ _ _ Hat) as [b Hrun]. exists b.
    pose proof (dataBody_skip msg _ _ b h _ w Hnew Ha Hskip) as Hb.
    split; [exact Hb|].
    rewrite Hrun, Hb. reflexivity.
Qed.

(* ================================================================ *)
(** ** The response bridge and the drop directive *)

Lemma noReplyText_hasReplyText (r : option SmtpResponse) :
  noReplyText r <-> hasReplyText r = false.
Proof.
  unfold noReplyText, hasReplyText. destruct r as [r|]; [|tauto].
  destruct (Z.eqb_spec (GetCode r) 0) as [Hc|Hc];
    destruct (String.eqb_spec (GetMsg r) "") as [Hm|Hm]; simpl;
    intuition congruence.
Qed.

Lemma bridged_drop_only (reply : option SmtpResponse)
      (s : SMTPServerSession) :
  hasReplyText reply = false -> bridged reply true s = exitAsap s.
Proof.
  intro H. unfold bridged. rewrite (handleSMTPResponse_silent _ _ H).
  reflexivity.
Qed.

Lemma relayGranted_bridged (reply : option SmtpResponse) (drop : bool)
      (s : SMTPServerSession) :
  relayGranted (bridged reply drop s) = relayGranted s.
Proof.
  unfold bridged, handleSMTPResponse. destruct reply as [r|].
  - destruct (negb (GetCode r =? 0) && negb (String.eqb (GetMsg r) ""));
      destruct drop; reflexivity.
  - destruct drop; reflexivity.
Qed.

(** C9.  A decoded outcome that carries dropConnection=true and no reply
    text (the reply absent, or its code zero, or its message empty) ends
    the run of each session hook at that endpoint with [stop = true] and
    with termination of the session requested, and the run has written no
    reply to the session. *)
Theorem drop_without_reply (uri : string) (ms : microservice) :
  newMicroservice uri = (Some ms, None) ->
  (forall pre post msg resp s0 w0 s w,
      newClientAt pre uri post msg s0 w0 s w ->
      isAuthenticated s && skipAuthentifiedUser ms = false ->
      fireAndForget ms = false ->
      syncOutcome Unmarshal_NewClient ms msg w = Some resp ->
      nc_DropConnection resp = true ->
      noReplyText (nc_SmtpResponse resp) ->
      let s' := exitAsap (announced ms s) in
      msSmtpdNewClient s0 w0 = Returned (true, s', afterCall ms msg w)
      /\ exiting s' = true /\ outbox s' = outbox s0)
  /\ (forall rcptTo pre post msg resp s0 w0 s w,
      rcptToAt rcptTo pre uri post msg s0 w0 s w ->
      isAuthenticated s && skipAuthentifiedUser ms = false ->
      fireAndForget ms = false ->
      syncOutcome Unmarshal_RcptTo ms msg w = Some resp ->
      rt_DropConnection resp = true ->
      noReplyText (rt_SmtpResponse resp) ->
      let s' := exitAsap (set_relayGranted (rt_RelayGranted resp)
                                           (announced ms s)) in
      msSmtpdRcptTo s0 rcptTo w0 = Returned (true, s', afterCall ms msg w)
      /\ exiting s' = true /\ outbox s' = outbox s0)
  /\ (forall rawMail name pre post msg resp s0 w0 h s w,
      dataAt rawMail name pre uri post msg s0 w0 h s w ->
      isAuthenticated s && skipAuthentifiedUser ms = false ->
      syncOutcome Unmarshal_Data ms msg w = Some resp ->
      da_DropConnection resp = true ->
      noReplyText (da_SmtpResponse resp) ->
      let s' := exitAsap (announced ms s) in
      smtpdData s0 rawMail w0
      = Returned (true, (h ++ da_ExtraHeaders resp)%list, s',
                  os_Remove name (afterCall ms msg w))
      /\ exiting s' = true /\ outbox s' = outbox s0).
Proof.
  intros Hnew. split; [|split].
  - intros pre post msg resp s0 w0 s w Hat Hskip Hfaf Hout Hdrop Hno.
    apply noReplyText_hasReplyText in Hno. split; [|split].
    + rewrite (newClient_at _ _ _ _ _ _ _ _ Hat).
      rewrite (newClientBody_outcome _ _ _ _ _ _ _ Hnew Hskip Hfaf Hout).
      cbv zeta. rewrite Hdrop, Hno, (bridged_drop_only _ _ Hno), call_world.
      reflexivity.
    + reflexivity.
    + destruct Hat as (_ & _ & Hpre).
      apply newClient_loop_next in Hpre as [_ (Ho & _)]. exact Ho.
  - intros rcptTo pre post msg resp s0 w0 s w Hat Hskip Hfaf Hout Hdrop Hno.
    apply noReplyText_hasReplyText in Hno. split; [|split].
    + rewrite (rcptTo_at _ _ _ _ _ _ _ _ _ Hat).
      rewrite (rcptToBody_outcome _ _ _ _ _ _ _ Hnew Hskip Hfaf Hout).
      cbv zeta. rewrite Hdrop, Hno, (bridged_drop_only _ _ Hno), call_world.
      reflexivity.
    + reflexivity.
    + destruct Hat as (_ & _ & Hpre).
      apply rcptTo_loop_next in Hpre as [_ (Ho & _)]. exact Ho.
  - intros rawMail name pre post msg resp s0 w0 h s w Hat Hskip Hout Hdrop
           Hno.
    apply noReplyText_hasReplyText in Hno. split; [|split].
    + destruct (data_at _ _ _ _ _ _ _ _ _ _ _ Hat) as [b ->].
      rewrite (dataBody_outcome _ _ _ _ _ _ _ _ Hnew Hskip Hout).
      cbv zeta. rewrite Hdrop, Hno, (bridged_drop_only _ _ Hno), call_world.
      reflexivity.
    + reflexivity.
    + destruct Hat as (_ & _ & _ & _ & b & Hpre).
      apply data_loop_next in Hpre as (Ho & _). exact Ho.
Qed.

(** C10.  A reply whose code is zero or whose message is empty, in an
    outcome that does not ask to drop the connection, is discarded: the
    bridge writes nothing to the session and returns [stop = false], and
    each session hook goes on with the endpoints after it, no reply
    having been written. *)
Theorem textless_reply_discarded :
  (forall r s,
      GetCode r = 0 \/ GetMsg r = "" ->
      handleSMTPResponse (Some r) s = (false, s))
  /\ forall uri ms,
      newMicroservice uri = (Some ms, None) ->
      (forall pre post msg resp r s0 w0 s w,
          newClientAt pre uri post msg s0 w0 s w ->
          isAuthenticated s && skipAuthentifiedUser ms = false ->
          fireAndForget ms = false ->
          syncOutcome Unmarshal_NewClient ms msg w = Some resp ->
          nc_SmtpResponse resp = Some r ->
          GetCode r = 0 \/ GetMsg r = "" ->
          nc_DropConnection resp = false ->
          let s' := announced ms s in
          msSmtpdNewClient s0 w0
          = finish (forEach (newClientBody msg) post
                            (false, s', afterCall ms msg w))
          /\ outbox s' = outbox s0)
      /\ (forall rcptTo pre post msg resp r s0 w0 s w,
          rcptToAt rcptTo pre uri post msg s0 w0 s w ->
          isAuthenticated s && skipAuthentifiedUser ms = false ->
          fireAndForget ms = false ->
          syncOutcome Unmarshal_RcptTo ms msg w = Some resp ->
          rt_SmtpResponse resp = Some r ->
          GetCode r = 0 \/ GetMsg r = "" ->
          rt_DropConnection resp = false ->
          let s' := set_relayGranted (rt_RelayGranted resp)
                                     (announced ms s) in
          msSmtpdRcptTo s0 rcptTo w0
          = finish (forEach (rcptToBody msg) post
                            (false, s', afterCall ms msg w))
          /\ outbox s' = outbox s0)
      /\ (forall rawMail name pre post msg resp r s0 w0 h s w,
          dataAt rawMail name pre uri post msg s0 w0 h s w ->
          isAuthenticated s && skipAuthentifiedUser ms = false ->
          syncOutcome Unmarshal_Data ms msg w = Some resp ->
          da_SmtpResponse resp = Some r ->
          GetCode r = 0 \/ GetMsg r = "" ->
          da_DropConnection resp = false ->
          let s' := announced ms s in
          smtpdData s0 rawMail w0
          = finishData name
              (forEach (dataBody msg) post
                       (false, (h ++ da_ExtraHeaders resp)%list, s',
                        afterCall ms msg w))
          /\ outbox s' = outbox s0).
Proof.
  split.
  { intros r s Hr. apply handleSMTPResponse_silent.
    now apply (noReplyText_hasReplyText (Some r)). }
  intros uri ms Hnew. split; [|split].
  - intros pre post msg resp r s0 w0 s w Hat Hskip Hfaf Hout Hreply Hr Hdrop.
    assert (Hno : hasReplyText (nc_SmtpResponse resp) = false)
      by (rewrite Hreply; now apply (noReplyText_hasReplyText (Some r))).
    split.
    + rewrite (newClient_at _ _ _ _ _ _ _ _ Hat).
      rewrite (newClientBody_outcome _ _ _ _ _ _ _ Hnew Hskip Hfaf Hout).
      cbv zeta. rewrite Hdrop, Hno, (bridged_silent _ _ Hno), call_world.
      reflexivity.
    + destruct Hat as (_ & _ & Hpre).
      apply newClient_loop_next in Hpre as [_ (Ho & _)]. exact Ho.
  - intros rcptTo pre post msg resp r s0 w0 s w Hat Hskip Hfaf Hout Hreply Hr
           Hdrop.
    assert (Hno : hasReplyText (rt_SmtpResponse resp) = false)
      by (rewrite Hreply; now apply (noReplyText_hasReplyText (Some r))).
    split.
    + rewrite (rcptTo_at _ _ _ _ _ _ _ _ _ Hat).
      rewrite (rcptToBody_outcome _ _ _ _ _ _ _ Hnew Hskip Hfaf Hout).
      cbv zeta. rewrite Hdrop, Hno, (bridged_silent _ _ Hno), call_world.
      reflexivity.
    + destruct Hat as (_ & _ & Hpre).
      apply rcptTo_loop_next in Hpre as [_ (Ho & _)]. exact Ho.
  - intros rawMail name pre post msg resp r s0 w0 h s w Hat Hskip Hout Hreply
           Hr Hdrop.
    assert (Hno : hasReplyText (da_SmtpResponse resp) = false)
      by (rewrite Hreply; now apply (noReplyText_hasReplyText (Some r))).
    split.
    + destruct (data_at _ _ _ _ _ _ _ _ _ _ _ Hat) as [b ->].
      rewrite (dataBody_outcome _ _ _ _ _ _ _ _ Hnew Hskip Hout).
      cbv zeta. rewrite Hdrop, Hno, (bridged_silent _ _ Hno), call_world.
      reflexivity.
    + destruct Hat as (_ & _ & _ & _ & b & Hpre).
      apply data_loop_next in Hpre as (Ho & _). exact Ho.
Qed.

(* ================================================================ *)
(** ** Extension data *)

(** C7 (as amended).  The extension data of every outcome that decodes is
    folded before the reply and the drop directive are looked at: the
    RcptTo hook overwrites the relay grant of the session and the Data
    hook appends the extra headers, when the outcome halts the run (a
    reply with text, or dropConnection) as well as when it does not. *)
Theorem extension_data_always_folded (uri : string) (ms : microservice) :
  newMicroservice uri = (Some ms, None) ->
  (forall rcptTo pre post msg resp s0 w0 s w,
      rcptToAt rcptTo pre uri post msg s0 w0 s w ->
      isAuthenticated s && skipAuthentifiedUser ms = false ->
      fireAndForget ms = false ->
      syncOutcome Unmarshal_RcptTo ms msg w = Some resp ->
      let s' := bridged (rt_SmtpResponse resp) (rt_DropConnection resp)
                        (set_relayGranted (rt_RelayGranted resp)
                                          (announced ms s)) in
      relayGranted s' = rt_RelayGranted resp
      /\ msSmtpdRcptTo s0 rcptTo w0
         = if hasReplyText (rt_SmtpResponse resp) || rt_DropConnection resp
           then Returned (true, s', afterCall ms msg w)
           else finish (forEach (rcptToBody msg) post
                                (false, s', afterCall ms msg w)))
  /\ (forall rawMail name pre post msg resp s0 w0 h s w,
      dataAt rawMail name pre uri post msg s0 w0 h s w ->
      isAuthenticated s && skipAuthentifiedUser ms = false ->
      syncOutcome Unmarshal_Data ms msg w = Some resp ->
      let s' := bridged (da_SmtpResponse resp) (da_DropConnection resp)
                        (announced ms s) in
      let h' := (h ++ da_ExtraHeaders resp)%list in
      smtpdData s0 rawMail w0
      = if hasReplyText (da_SmtpResponse resp) || da_DropConnection resp
        then Returned (true, h', s', os_Remove name (afterCall ms msg w))
        else finishData name
               (forEach (dataBody msg) post
                        (false, h', s', afterCall ms msg w))).
Proof.
  intros Hnew. split.
  - intros rcptTo pre post msg resp s0 w0 s w Hat Hskip Hfaf Hout. split.
    + apply relayGranted_bridged.
    + rewrite (rcptTo_at _ _ _ _ _ _ _ _ _ Hat).
      rewrite (rcptToBody_outcome _ _ _ _ _ _ _ Hnew Hskip Hfaf Hout).
      cbv zeta. rewrite call_world.
      destruct (hasReplyText _ || rt_DropConnection resp); reflexivity.
  - intros rawMail name pre post msg resp s0 w0 h s w Hat Hskip Hout.
    destruct (data_at _ _ _ _ _ _ _ _ _ _ _ Hat) as [b ->].
    rewrite (dataBody_outcome _ _ _ _ _ _ _ _ Hnew Hskip Hout).
    cbv zeta. rewrite call_world.
    destruct (hasReplyText _ || da_DropConnection resp); reflexivity.
Qed.

(* ================================================================ *)
(** ** Fire-and-forget endpoints *)

(** X15.  In the NewClient and RcptTo hooks a fire-and-forget endpoint is
    started with [go] and the run goes on at once: nothing is exchanged
    on the hook's own goroutine, so no answer of the network to that call
    enters the run. *)
Lemma detached_call_goes_on (uri : string) (ms : microservice) :
  newMicroservice uri = (Some ms, None) ->
  fireAndForget ms = true ->
  (forall pre post msg s0 w0 s w,
      newClientAt pre uri post msg s0 w0 s w ->
      isAuthenticated s && skipAuthentifiedUser ms = false ->
      msSmtpdNewClient s0 w0
      = finish (forEach (newClientBody msg) post
                        (false, announced ms s, go_call ms msg w)))
  /\ (forall rcptTo pre post msg s0 w0 s w,
      rcptToAt rcptTo pre uri post msg s0 w0 s w ->
      isAuthenticated s && skipAuthentifiedUser ms = false ->
      msSmtpdRcptTo s0 rcptTo w0
      = finish (forEach (rcptToBody msg) post
                        (false, announced ms s, go_call ms msg w))).
Proof.
  intros Hnew Hfaf. split.
  - intros pre post msg s0 w0 s w Hat Hskip.
    rewrite (newClient_at _ _ _ _ _ _ _ _ Hat).
    rewrite (newClientBody_detached _ _ _ _ _ _ Hnew Hskip Hfaf).
    reflexivity.
  - intros rcptTo pre post msg s0 w0 s w Hat Hskip.
    rewrite (rcptTo_at _ _ _ _ _ _ _ _ _ Hat).
    rewrite (rcptToBody_detached _ _ _ _ _ _ Hnew Hskip Hfaf).
    reflexivity.
Qed.

Lemma go_call_world (ms : microservice) (msg : list Byte.byte) (w : World) :
  sent (go_call ms msg w) = sent w
  /\ spawned (go_call ms msg w) = (spawned w ++ [requestOf ms msg])%list
  /\ files (go_call ms msg w) = files w.
Proof. repeat split. Qed.

(** C4, in the Data hook.  The loop of smtpdData does not read the
    fire-and-forget flag: an endpoint configured with fireandforget=true
    is called on the hook's own goroutine, nothing is started with [go],
    and when the call fails under a TempFail or PermFail policy the run
    stops with [stop = true] and the 450 or 550 reply. *)
Theorem data_hook_calls_fireAndForget_synchronously
        (rawMail : list Byte.byte) (name uri : string) (ms : microservice)
        (pre post : list string) (msg : list Byte.byte) (err : error)
        (h : list string) (s0 s : SMTPServerSession) (w0 w : World) :
  newMicroservice uri = (Some ms, None) ->
  fireAndForget ms = true ->
  onFailure ms = TEMPFAIL \/ onFailure ms = PERMFAIL ->
  dataAt rawMail name pre uri post msg s0 w0 h s w ->
  isAuthenticated s && skipAuthentifiedUser ms = false ->
  syncFailure Unmarshal_Data ms msg w = Some err ->
  smtpdData s0 rawMail w0
  = Returned (true, h,
              out (policyReply ms) (blamed ms err (announced ms s)),
              os_Remove name (afterCall ms msg w))
  /\ spawned (afterCall ms msg w) = spawned w
  /\ sent (afterCall ms msg w) = (sent w ++ [requestOf ms msg])%list.
Proof.
  intros Hnew _ Hpol Hat Hskip Hfail.
  destruct (data_failure_halts _ _ _ _ _ _ _ _ _ _ _ _ _ Hnew Hpol Hat Hskip
              Hfail) as [Hrun _].
  repeat split. exact Hrun.
Qed.

(* ================================================================ *)
(** ** The temporary file of the Data hook *)

Lemma fileExists_os_Remove (name : string) (w : World) :
  fileExists name (os_Remove name w) = false.
Proof.
  unfold fileExists, os_Remove; simpl.
  induction (files w) as [|[n c] fs IH]; simpl; [reflexivity|].
  destruct (String.eqb n name) eqn:E; simpl; [exact IH|].
  rewrite E. exact IH.
Qed.

Lemma fileExists_createFile (name : string) (w : World) :
  fileExists name (createFile name w) = true.
Proof.
  unfold fileExists, createFile; simpl.
  rewrite existsb_app; simpl. rewrite String.eqb_refl.
  now rewrite orb_true_r.
Qed.

(** X16.  Once the body is written, every return of the Data hook has
    removed the temporary file, whether or not a file of that name was
    there before: the removal is deferred from there on. *)
Lemma data_file_removed (rawMail : list Byte.byte) (name : string)
      (s0 : SMTPServerSession) (w0 : World) (r : DataFrame) :
  GetMicroservicesUri Cfg "smtpddata" <> [] ->
  ioutil_TempFile (files w0) (GetTempDir Cfg) = inr name ->
  file_Write name rawMail = None ->
  smtpdData s0 rawMail w0 = Returned r ->
  fileExists name (snd r) = false.
Proof.
  intros Huris Htmp Hwr. unfold smtpdData.
  destruct (GetMicroservicesUri Cfg "smtpddata") as [|u us];
    [congruence|].
  cbn [List.length Nat.eqb]. rewrite Htmp, Hwr.
  destruct (proto_Marshal _) as [err|msg].
  - intro H; injection H as <-. apply fileExists_os_Remove.
  - destruct (forEach _ _ _) as [[[[b h] s] w]|[[[b h] s] w]|];
      cbn [finishData cleaned]; intro H;
      try discriminate; injection H as <-; apply fileExists_os_Remove.
Qed.

(** C5, on the path where writing the body fails.  The file that
    [ioutil.TempFile] created is still there when the run returns: the
    removal is deferred only after the write has succeeded. *)
Theorem data_write_failure_leaves_file
        (rawMail : list Byte.byte) (name : string) (err : error)
        (s0 : SMTPServerSession) (w0 : World) :
  GetMicroservicesUri Cfg "smtpddata" <> [] ->
  ioutil_TempFile (files w0) (GetTempDir Cfg) = inr name ->
  file_Write name rawMail = Some err ->
  smtpdData s0 rawMail w0
  = Returned (false, [],
              logError "ms - unable to save rawmail in tempfile. " err s0,
              createFile name w0)
  /\ fileExists name (createFile name w0) = true.
Proof.
  intros Huris Htmp Hwr. split; [|apply fileExists_createFile].
  unfold smtpdData.
  destruct (GetMicroservicesUri Cfg "smtpddata") as [|u us];
    [congruence|].
  cbn [List.length Nat.eqb]. rewrite Htmp, Hwr. reflexivity.
Qed.

(* ================================================================ *)
(** ** References that do not parse *)

(** X14.  In the three session hooks a reference that does not parse is
    logged and passed over, and the run goes on with the endpoints after
    it: nothing is sent and no reply is written for it. *)
Lemma unparsable_reference_skipped (uri : string)
      (ms : option microservice) (err : error) :
  newMicroservice uri = (ms, Some err) ->
  let complaint := "unable to parse microservice url " ++ uri ++ ". " in
  (forall pre post msg s0 w0 s w,
      newClientAt pre uri post msg s0 w0 s w ->
      msSmtpdNewClient s0 w0
      = finish (forEach (newClientBody msg) post
                        (false, logError complaint err s, w)))
  /\ (forall rcptTo pre post msg s0 w0 s w,
      rcptToAt rcptTo pre uri post msg s0 w0 s w ->
      msSmtpdRcptTo s0 rcptTo w0
      = finish (forEach (rcptToBody msg) post
                        (false, logError complaint err s, w)))
  /\ (forall rawMail name pre post msg s0 w0 h s w,
      dataAt rawMail name pre uri post msg s0 w0 h s w ->
      exists b,
        smtpdData s0 rawMail w0
        = finishData name
            (forEach (dataBody msg) post
                     (b, h, logError complaint err s, w))).
Proof.
  intros Hnew complaint. split; [|split].
  - intros pre post msg s0 w0 s w Hat.
    rewrite (newClient_at _ _ _ _ _ _ _ _ Hat).
    rewrite (newClientBody_unparsable _ _ _ _ _ _ _ Hnew). reflexivity.
  - intros rcptTo pre post msg s0 w0 s w Hat.
    rewrite (rcptTo_at _ _ _ _ _ _ _ _ _ Hat).
    rewrite (rcptToBody_unparsable _ _ _ _ _ _ _ Hnew). reflexivity.
  - intros rawMail name pre post msg s0 w0 h s w Hat.
    destruct (data_at _ _ _ _ _ _ _ _ _ _ _ Hat) as [b ->]. exists b.
    rewrite (dataBody_unparsable _ _ _ _ _ _ _ _ Hnew). reflexivity.
Qed.

(** C2, in the GetRoutes hook.  When the reference of the single
    endpoint does not parse, msGetRoutes logs the error and then calls
    [stopOnError] on the nil descriptor that newMicroservice returned:
    the run ends in a nil-pointer panic. *)
Theorem getRoutes_unparsable_panics (uri : string) (rest : list string)
        (ms : option microservice) (err : error) (d : delivery) (w : World) :
  GetMicroservicesUri Cfg "deliverdgetroutes" = uri :: rest ->
  newMicroservice uri = (ms, Some err) ->
  msGetRoutes d w = Panicked.
Proof.
  intros Huris Hnew.
  pose proof (newMicroservice_error_nil _ _ _ Hnew) as ->.
  unfold msGetRoutes. rewrite Huris, Hnew. reflexivity.
Qed.

(* ================================================================ *)
(** ** The session hooks do not panic *)

Lemma forEach_no_panic {S R : Type} (body : string -> S -> Flow S R)
      (uris : list string) (st : S) :
  (forall u st', body u st' <> Panic) -> forEach body uris st <> Panic.
Proof.
  intro Hbody. revert st.
  induction uris as [|u uris IH]; intro st; cbn [forEach]; [discriminate|].
  destruct (body u st) eqn:E; [apply IH|discriminate|].
  exfalso. exact (Hbody _ _ E).
Qed.

Lemma newClientBody_no_panic (msg : list Byte.byte) (uri : string)
      (st : Frame) : newClientBody msg uri st <> Panic.
Proof.
  destruct st as [[b s] w].
  destruct (newMicroservice_total uri) as [[err Hnew]|[ms Hnew]].
  { now rewrite (newClientBody_unparsable _ _ _ _ _ _ _ Hnew). }
  destruct (isAuthenticated s && skipAuthentifiedUser ms) eqn:Hs.
  { apply andb_prop in Hs as [Ha Hk].
    now rewrite (newClientBody_skip _ _ _ _ _ _ Hnew Ha Hk). }
  destruct (fireAndForget ms) eqn:Hf.
  { now rewrite (newClientBody_detached _ _ _ _ _ _ Hnew Hs Hf). }
  destruct (sync_cases Unmarshal_NewClient ms msg w) as [[err He]|[r Hr]].
  - rewrite (newClientBody_failure _ _ _ _ _ _ _ Hnew Hs Hf He).
    cbv zeta. now destruct (stopOnError ms).
  - rewrite (newClientBody_outcome _ _ _ _ _ _ _ Hnew Hs Hf Hr).
    cbv zeta. now destruct (hasReplyText _ || nc_DropConnection r).
Qed.

Lemma rcptToBody_no_panic (msg : list Byte.byte) (uri : string)
      (st : Frame) : rcptToBody msg uri st <> Panic.
Proof.
  destruct st as [[b s] w].
  destruct (newMicroservice_total uri) as [[err Hnew]|[ms Hnew]].
  { now rewrite (rcptToBody_unparsable _ _ _ _ _ _ _ Hnew). }
  destruct (isAuthenticated s && skipAuthentifiedUser ms) eqn:Hs.
  { apply andb_prop in Hs as [Ha Hk].
    now rewrite (rcptToBody_skip _ _ _ _ _ _ Hnew Ha Hk). }
  destruct (fireAndForget ms) eqn:Hf.
  { now rewrite (rcptToBody_detached _ _ _ _ _ _ Hnew Hs Hf). }
  destruct (sync_cases Unmarshal_RcptTo ms msg w) as [[err He]|[r Hr]].
  - rewrite (rcptToBody_failure _ _ _ _ _ _ _ Hnew Hs Hf He).
    now destruct (handleSMTPError ms (Some err) (announced ms s)) as [[|] ?].
  - rewrite (rcptToBody_outcome _ _ _ _ _ _ _ Hnew Hs Hf Hr).
    cbv zeta. now destruct (hasReplyText _ || rt_DropConnection r).
Qed.

Lemma dataBody_no_panic (msg : list Byte.byte) (uri : string)
      (st : DataFrame) : dataBody msg uri st <> Panic.
Proof.
  destruct st as [[[b h] s] w].
  destruct (newMicroservice_total uri) as [[err Hnew]|[ms Hnew]].
  { now rewrite (dataBody_unparsable _ _ _ _ _ _ _ _ Hnew). }
  destruct (isAuthenticated s && skipAuthentifiedUser ms) eqn:Hs.
  { apply andb_prop in Hs as [Ha Hk].
    now rewrite (dataBody_skip _ _ _ _ _ _ _ Hnew Ha Hk). }
  destruct (sync_cases Unmarshal_Data ms msg w) as [[err He]|[r Hr]].
  - rewrite (dataBody_failure _ _ _ _ _ _ _ _ Hnew Hs He).
    now destruct (handleSMTPError ms (Some err) (announced ms s)) as [[|] ?].
  - rewrite (dataBody_outcome _ _ _ _ _ _ _ _ Hnew Hs Hr).
    cbv zeta. now destruct (hasReplyText _ || da_DropConnection r).
Qed.

(** X13.  Whatever the configuration holds, and whatever the network,
    the codec and the file system answer, the three session hooks return:
    no run of them ends in a nil-pointer panic. *)
Lemma session_hooks_return (s : SMTPServerSession) (w : World)
      (rcptTo : string) (rawMail : list Byte.byte) :
  msSmtpdNewClient s w <> Panicked
  /\ msSmtpdRcptTo s rcptTo w <> Panicked
  /\ smtpdData s rawMail w <> Panicked.
Proof.
  split; [|split].
  - unfold msSmtpdNewClient.
    destruct (List.length _ =? 0)%nat; [discriminate|].
    destruct (proto_Marshal _) as [err|msg]; [discriminate|].
    pose proof (forEach_no_panic (newClientBody msg)
                  (GetMicroservicesUri Cfg "smtpdnewclient") (false, s, w)
                  (newClientBody_no_panic msg)) as H.
    destruct (forEach _ _ _); [discriminate|discriminate|congruence].
  - unfold msSmtpdRcptTo.
    destruct (List.length _ =? 0)%nat; [discriminate|].
    destruct (proto_Marshal _) as [err|msg]; [discriminate|].
    pose proof (forEach_no_panic (rcptToBody msg)
                  (GetMicroservicesUri Cfg "smtpdrcptto") (false, s, w)
                  (rcptToBody_no_panic msg)) as H.
    destruct (forEach _ _ _); [discriminate|discriminate|congruence].
  - unfold smtpdData.
    destruct (List.length _ =? 0)%nat; [discriminate|].
    destruct (ioutil_TempFile _ _) as [err|name]; [discriminate|].
    destruct (file_Write _ _) as [err|]; [discriminate|].
    destruct (proto_Marshal _) as [err|msg]; [discriminate|].
    pose proof (forEach_no_panic (dataBody msg)
                  (GetMicroservicesUri Cfg "smtpddata")
                  (false, [], s, writeFile name rawMail (createFile name w))
                  (dataBody_no_panic msg)) as H.
    destruct (forEach _ _ _) as [[[[? ?] ?] ?]| |];
      [discriminate|discriminate|congruence].
Qed.

(* ================================================================ *)
(** * Further properties of the hooks *)

(** ** Runs that contact no endpoint *)

(** X1.  A hook without configured endpoints returns at once: [stop] is
    false, the aggregate is empty, and the session and the world are
    untouched (nothing serialized, sent, started, saved or logged). *)
Theorem no_endpoints_no_effect (s : SMTPServerSession) (w : World)
        (rcptTo : string) (rawMail : list Byte.byte) (d : delivery) :
  (GetMicroservicesUri Cfg "smtpdnewclient" = [] ->
   msSmtpdNewClient s w = Returned (false, s, w))
  /\ (GetMicroservicesUri Cfg "smtpdrcptto" = [] ->
      msSmtpdRcptTo s rcptTo w = Returned (false, s, w))
  /\ (GetMicroservicesUri Cfg "smtpddata" = [] ->
      smtpdData s rawMail w = Returned (false, [], s, w))
  /\ (GetMicroservicesUri Cfg "deliverdgetroutes" = [] ->
      msGetRoutes d w = Returned (Some [], false, w)).
Proof.
  repeat split; intro H.
  - unfold msSmtpdNewClient. now rewrite H.
  - unfold msSmtpdRcptTo. now rewrite H.
  - unfold smtpdData. now rewrite H.
  - unfold msGetRoutes. now rewrite H.
Qed.

Lemma nonempty_length_neq {A : Type} (l : list A) :
  l <> [] -> (List.length l =? 0)%nat = false.
Proof. destruct l; [congruence|reflexivity]. Qed.

Lemma os_Remove_fresh (name : string) (data : list Byte.byte) (w : World) :
  fileExists name w = false ->
  files (os_Remove name (writeFile name data (createFile name w))) = files w.
Proof.
  unfold fileExists, os_Remove, writeFile, createFile; simpl.
  intro Hfresh. rewrite map_app, filter_app. simpl.
  rewrite String.eqb_refl. simpl. rewrite String.eqb_refl. simpl.
  rewrite app_nil_r.
  induction (files w) as [|[n c] fs IH]; simpl in *; [reflexivity|].
  apply orb_false_elim in Hfresh as [Hn Hfs].
  rewrite Hn. simpl. rewrite Hn. simpl. now rewrite (IH Hfs).
Qed.

(** X2.  When the query of a session hook cannot be serialized, the run
    logs the error and returns [stop = false] without contacting any
    endpoint.  The Data hook does the same when the temporary file cannot
    be created, and after a serialization failure it has removed the file
    it had written. *)
Theorem local_failure_contacts_nobody (s : SMTPServerSession) (w : World)
        (rcptTo : string) (rawMail : list Byte.byte) (err : error) :
  (GetMicroservicesUri Cfg "smtpdnewclient" <> [] ->
   proto_Marshal (SmtpdNewClientQuery (uuid s) (remoteAddr s)) = inl err ->
   msSmtpdNewClient s w
   = Returned (false,
               logError "unable to serialize data as SmtpdNewClientMsg. "
                        err s, w))
  /\ (GetMicroservicesUri Cfg "smtpdrcptto" <> [] ->
      proto_Marshal (SmtpdRcptToQuery (uuid s) rcptTo) = inl err ->
      msSmtpdRcptTo s rcptTo w
      = Returned (false,
                  logError "unable to serialize data as SmtpdRcptToQuery. "
                           err s, w))
  /\ (GetMicroservicesUri Cfg "smtpddata" <> [] ->
      ioutil_TempFile (files w) (GetTempDir Cfg) = inl err ->
      smtpdData s rawMail w
      = Returned (false, [],
                  logError "ms - unable to save rawmail in tempfile. " err s,
                  w))
  /\ (forall name,
         GetMicroservicesUri Cfg "smtpddata" <> [] ->
         ioutil_TempFile (files w) (GetTempDir Cfg) = inr name ->
         fileExists name w = false ->
         file_Write name rawMail = None ->
         proto_Marshal (SmtpdDataQuery (uuid s) (dataLink name)) = inl err ->
         exists w',
           smtpdData s rawMail w
           = Returned (false, [],
                       logError "unable to serialize data as SmtpdDataQuery. "
                                err s, w')
           /\ sent w' = sent w /\ spawned w' = spawned w
           /\ files w' = files w).
Proof.
  split; [|split; [|split]].
  - intros Hne Hm. unfold msSmtpdNewClient.
    now rewrite (nonempty_length_neq _ Hne), Hm.
  - intros Hne Hm. unfold msSmtpdRcptTo.
    now rewrite (nonempty_length_neq _ Hne), Hm.
  - intros Hne Ht. unfold smtpdData.
    now rewrite (nonempty_length_neq _ Hne), Ht.
  - intros name Hne Ht Hfresh Hw Hm. eexists. split.
    + unfold smtpdData.
      rewrite (nonempty_length_neq _ Hne), Ht, Hw, Hm. reflexivity.
    + repeat split. now apply os_Remove_fresh.
Qed.

(* ================================================================ *)
(** ** What one pass through a loop body changes *)

Lemma sameIdentity_refl (s : SMTPServerSession) : sameIdentity s s.
Proof. repeat split. Qed.

Lemma sameIdentity_trans (s1 s2 s3 : SMTPServerSession) :
  sameIdentity s1 s2 -> sameIdentity s2 s3 -> sameIdentity s1 s3.
Proof. unfold sameIdentity. intuition congruence. Qed.

Lemma sameStore_trans (w1 w2 w3 : World) :
  sameStore w1 w2 -> sameStore w2 w3 -> sameStore w1 w3.
Proof. unfold sameStore. intuition congruence. Qed.

Lemma sameIdentity_authenticated (s s' : SMTPServerSession) :
  sameIdentity s s' -> isAuthenticated s' = isAuthenticated s.
Proof. intros (_ & _ & Hu). unfold isAuthenticated. now rewrite Hu. Qed.

Lemma bridged_identity (reply : option SmtpResponse) (drop : bool)
      (s : SMTPServerSession) : sameIdentity s (bridged reply drop s).
Proof.
  unfold bridged, handleSMTPResponse. destruct reply as [r|].
  - destruct (negb (GetCode r =? 0) && negb (String.eqb (GetMsg r) ""));
      destruct drop; repeat split.
  - destruct drop; repeat split.
Qed.

Lemma bridged_outbox (reply : option SmtpResponse) (drop : bool)
      (s : SMTPServerSession) :
  outbox (bridged reply drop s)
  = (outbox s ++ match reply with
                 | Some r => if hasReplyText reply then [replyLine r] else []
                 | None => []
                 end)%list.
Proof.
  unfold bridged, handleSMTPResponse, hasReplyText, replyLine.
  destruct reply as [r|].
  - destruct (negb (GetCode r =? 0) && negb (String.eqb (GetMsg r) ""));
      destruct drop; simpl; now rewrite ?app_nil_r.
  - destruct drop; simpl; now rewrite app_nil_r.
Qed.

Lemma bridged_exiting (reply : option SmtpResponse) (drop : bool)
      (s : SMTPServerSession) :
  exiting (bridged reply drop s) = drop || exiting s.
Proof.
  unfold bridged, handleSMTPResponse. destruct reply as [r|].
  - destruct (negb (GetCode r =? 0) && negb (String.eqb (GetMsg r) ""));
      destruct drop; reflexivity.
  - destruct drop; reflexivity.
Qed.

Lemma handleSMTPError_identity (ms : microservice) (err : error)
      (s : SMTPServerSession) :
  sameIdentity s (snd (handleSMTPError ms (Some err) s)).
Proof. unfold handleSMTPError. destruct (onFailure ms); repeat split. Qed.

Lemma afterCall_store (ms : microservice) (msg : list Byte.byte) (w : World) :
  sameStore w (afterCall ms msg w)
  /\ spawned (afterCall ms msg w) = spawned w.
Proof. repeat split. Qed.

(** A pass through the body of msSmtpdNewClient that does not panic keeps
    the identity of the session and the files, and adds to the exchanges
    and to the calls started exactly what [syncReq] and [goReq] say. *)
Lemma newClientBody_trace (msg : list Byte.byte) (uri : string) (b b' : bool)
      (s s' : SMTPServerSession) (w w' : World) :
  landing (newClientBody msg uri (b, s, w)) = Some (b', s', w') ->
  sameIdentity s s' /\ sameStore w w'
  /\ sent w' = (sent w ++ syncReq (isAuthenticated s) msg uri)%list
  /\ spawned w' = (spawned w ++ goReq (isAuthenticated s) msg uri)%list.
Proof.
  unfold syncReq, goReq.
  destruct (newMicroservice uri) as [[ms|] [err|]] eqn:Hnew.
  - rewrite (newClientBody_unparsable _ _ _ _ _ _ _ Hnew).
    intro H; injection H as <- <- <-.
    repeat split; simpl; now rewrite app_nil_r.
  - destruct (isAuthenticated s && skipAuthentifiedUser ms) eqn:Hs.
    { pose proof Hs as Hs'. apply andb_prop in Hs' as [Ha Hk].
      rewrite (newClientBody_skip _ _ _ _ _ _ Hnew Ha Hk).
      intro H; injection H as <- <- <-.
      repeat split; simpl; now rewrite app_nil_r. }
    destruct (fireAndForget ms) eqn:Hf.
    { rewrite (newClientBody_detached _ _ _ _ _ _ Hnew Hs Hf).
      intro H; injection H as <- <- <-.
      repeat split; simpl; now rewrite app_nil_r. }
    destruct (sync_cases Unmarshal_NewClient ms msg w) as [[err He]|[r Hr]].
    + rewrite (newClientBody_failure _ _ _ _ _ _ _ Hnew Hs Hf He).
      cbv zeta. rewrite call_world.
      destruct (stopOnError ms); intro H; injection H as <- <- <-;
        repeat split; simpl; now rewrite app_nil_r.
    + rewrite (newClientBody_outcome _ _ _ _ _ _ _ Hnew Hs Hf Hr).
      cbv zeta. rewrite call_world.
      pose proof (bridged_identity (nc_SmtpResponse r) (nc_DropConnection r)
                    (announced ms s)) as Hid.
      destruct (hasReplyText _ || nc_DropConnection r);
        intro H; injection H as <- <- <-;
        (split; [exact Hid|]); repeat split; simpl; now rewrite app_nil_r.
  - rewrite (newClientBody_unparsable _ _ _ _ _ _ _ Hnew).
    intro H; injection H as <- <- <-.
    repeat split; simpl; now rewrite app_nil_r.
  - unfold newClientBody. rewrite Hnew. discriminate.
Qed.

Lemma rcptToBody_trace (msg : list Byte.byte) (uri : string) (b b' : bool)
      (s s' : SMTPServerSession) (w w' : World) :
  landing (rcptToBody msg uri (b, s, w)) = Some (b', s', w') ->
  sameIdentity s s' /\ sameStore w w'
  /\ sent w' = (sent w ++ syncReq (isAuthenticated s) msg uri)%list
  /\ spawned w' = (spawned w ++ goReq (isAuthenticated s) msg uri)%list.
Proof.
  unfold syncReq, goReq.
  destruct (newMicroservice uri) as [[ms|] [err|]] eqn:Hnew.
  - rewrite (rcptToBody_unparsable _ _ _ _ _ _ _ Hnew).
    intro H; injection H as <- <- <-.
    repeat split; simpl; now rewrite app_nil_r.
  - destruct (isAuthenticated s && skipAuthentifiedUser ms) eqn:Hs.
    { pose proof Hs as Hs'. apply andb_prop in Hs' as [Ha Hk].
      rewrite (rcptToBody_skip _ _ _ _ _ _ Hnew Ha Hk).
      intro H; injection H as <- <- <-.
      repeat split; simpl; now rewrite app_nil_r. }
    destruct (fireAndForget ms) eqn:Hf.
    { rewrite (rcptToBody_detached _ _ _ _ _ _ Hnew Hs Hf).
      intro H; injection H as <- <- <-.
      repeat split; simpl; now rewrite app_nil_r. }
    destruct (sync_cases Unmarshal_RcptTo ms msg w) as [[err He]|[r Hr]].
    + rewrite (rcptToBody_failure _ _ _ _ _ _ _ Hnew Hs Hf He).
      rewrite call_world.
      pose proof (handleSMTPError_identity ms err (announced ms s)) as Hid.
      destruct (handleSMTPError ms (Some err) (announced ms s)) as [[|] s1];
        simpl in Hid; intro H; injection H as <- <- <-;
        (split; [exact Hid|]); repeat split; simpl; now rewrite app_nil_r.
    + rewrite (rcptToBody_outcome _ _ _ _ _ _ _ Hnew Hs Hf Hr).
      cbv zeta. rewrite call_world.
      pose proof (bridged_identity (rt_SmtpResponse r) (rt_DropConnection r)
                    (set_relayGranted (rt_RelayGranted r) (announced ms s)))
        as Hid.
      destruct (hasReplyText _ || rt_DropConnection r);
        intro H; injection H as <- <- <-;
        (split; [exact Hid|]); repeat split; simpl; now rewrite app_nil_r.
  - rewrite (rcptToBody_unparsable _ _ _ _ _ _ _ Hnew).
    intro H; injection H as <- <- <-.
    repeat split; simpl; now rewrite app_nil_r.
  - unfold rcptToBody. rewrite Hnew. discriminate.
Qed.

Lemma dataBody_trace (msg : list Byte.byte) (uri : string) (b b' : bool)
      (h h' : list string) (s s' : SMTPServerSession) (w w' : World) :
  landing (dataBody msg uri (b, h, s, w)) = Some (b', h', s', w') ->
  sameIdentity s s' /\ sameStore w w'
  /\ sent w' = (sent w ++ dataReq (isAuthenticated s) msg uri)%list
  /\ spawned w' = spawned w
  /\ exists more, h' = (h ++ more)%list.
Proof.
  unfold dataReq.
  destruct (newMicroservice uri) as [[ms|] [err|]] eqn:Hnew.
  - rewrite (dataBody_unparsable _ _ _ _ _ _ _ _ Hnew).
    intro H; injection H as <- <- <- <-.
    repeat split; simpl; rewrite ?app_nil_r; try reflexivity.
    exists []; now rewrite app_nil_r.
  - destruct (isAuthenticated s && skipAuthentifiedUser ms) eqn:Hs.
    { pose proof Hs as Hs'. apply andb_prop in Hs' as [Ha Hk].
      rewrite (dataBody_skip _ _ _ _ _ _ _ Hnew Ha Hk).
      intro H; injection H as <- <- <- <-.
      repeat split; simpl; rewrite ?app_nil_r; try reflexivity.
      exists []; now rewrite app_nil_r. }
    destruct (sync_cases Unmarshal_Data ms msg w) as [[err He]|[r Hr]].
    + rewrite (dataBody_failure _ _ _ _ _ _ _ _ Hnew Hs He).
      rewrite call_world.
      pose proof (handleSMTPError_identity ms err (announced ms s)) as Hid.
      destruct (handleSMTPError ms (Some err) (announced ms s)) as [[|] s1];
        simpl in Hid; intro H; injection H as <- <- <- <-;
        (split; [exact Hid|]); repeat split; simpl; rewrite ?app_nil_r;
        try reflexivity; exists []; now rewrite app_nil_r.
    + rewrite (dataBody_outcome _ _ _ _ _ _ _ _ Hnew Hs Hr).
      cbv zeta. rewrite call_world.
      pose proof (bridged_identity (da_SmtpResponse r) (da_DropConnection r)
                    (announced ms s)) as Hid.
      destruct (hasReplyText _ || da_DropConnection r);
        intro H; injection H as <- <- <- <-;
        (split; [exact Hid|]); repeat split; simpl; rewrite ?app_nil_r;
        try reflexivity; now eexists.
  - rewrite (dataBody_unparsable _ _ _ _ _ _ _ _ Hnew).
    intro H; injection H as <- <- <- <-.
    repeat split; simpl; rewrite ?app_nil_r; try reflexivity.
    exists []; now rewrite app_nil_r.
  - unfold dataBody. rewrite Hnew. discriminate.
Qed.

(* ================================================================ *)
(** ** What a whole loop changes *)

(** The endpoints a loop has visited are a prefix of the configured ones,
    and what it has sent and started is the sum of what each visit adds. *)
Lemma frame_loop_trace (body : string -> Frame -> Flow Frame Frame)
      (msg : list Byte.byte) :
  (forall uri b s w b' s' w',
      landing (body uri (b, s, w)) = Some (b', s', w') ->
      sameIdentity s s' /\ sameStore w w'
      /\ sent w' = (sent w ++ syncReq (isAuthenticated s) msg uri)%list
      /\ spawned w' = (spawned w ++ goReq (isAuthenticated s) msg uri)%list) ->
  forall uris b s w b' s' w',
    landing (forEach body uris (b, s, w)) = Some (b', s', w') ->
    exists visited later,
      uris = (visited ++ later)%list
      /\ sameIdentity s s' /\ sameStore w w'
      /\ sent w'
         = (sent w ++ flat_map (syncReq (isAuthenticated s) msg) visited)%list
      /\ spawned w'
         = (spawned w ++ flat_map (goReq (isAuthenticated s) msg) visited)%list
      /\ (forall st, forEach body uris (b, s, w) = Next st -> later = []).
Proof.
  intros Hbody uris.
  induction uris as [|u us IH]; intros b s w b' s' w'; cbn [forEach].
  - intro H; injection H as <- <- <-. exists [], [].
    repeat split; simpl; now rewrite ?app_nil_r.
  - destruct (body u (b, s, w)) as [[[b1 s1] w1]|[[b1 s1] w1]|] eqn:Hstep.
    + intro Hrest.
      destruct (Hbody u b s w b1 s1 w1) as (Hid & Hst & Hsent & Hgo);
        [now rewrite Hstep|].
      destruct (IH _ _ _ _ _ _ Hrest)
        as (visited & later & -> & Hid' & Hst' & Hsent' & Hgo' & Hall).
      rewrite (sameIdentity_authenticated _ _ Hid) in Hsent', Hgo'.
      exists (u :: visited), later. split; [reflexivity|].
      split; [eapply sameIdentity_trans; eassumption|].
      split; [eapply sameStore_trans; eassumption|].
      cbn [flat_map]. rewrite Hsent', Hgo', Hsent, Hgo, !app_assoc.
      repeat split. exact Hall.
    + intro H; injection H as <- <- <-.
      destruct (Hbody u b s w b1 s1 w1) as (Hid & Hst & Hsent & Hgo);
        [now rewrite Hstep|].
      exists [u], us. repeat split; try apply Hid; try apply Hst;
        cbn [flat_map]; rewrite ?app_nil_r; try assumption.
      discriminate.
    + discriminate.
Qed.

Lemma data_loop_trace (msg : list Byte.byte) (uris : list string)
      (b b' : bool) (h h' : list string) (s s' : SMTPServerSession)
      (w w' : World) :
  landing (forEach (dataBody msg) uris (b, h, s, w)) = Some (b', h', s', w') ->
  exists visited later,
    uris = (visited ++ later)%list
    /\ sameIdentity s s' /\ sameStore w w'
    /\ sent w'
       = (sent w ++ flat_map (dataReq (isAuthenticated s) msg) visited)%list
    /\ spawned w' = spawned w
    /\ (forall st, forEach (dataBody msg) uris (b, h, s, w) = Next st ->
                   later = []).
Proof.
  revert b h s w.
  induction uris as [|u us IH]; intros b h s w; cbn [forEach].
  - intro H; injection H as <- <- <- <-. exists [], [].
    repeat split; simpl; now rewrite ?app_nil_r.
  - destruct (dataBody msg u (b, h, s, w))
      as [[[[b1 h1] s1] w1]|[[[b1 h1] s1] w1]|] eqn:Hstep.
    + intro Hrest.
      destruct (dataBody_trace msg u b b1 h h1 s s1 w w1)
        as (Hid & Hst & Hsent & Hgo & _); [now rewrite Hstep|].
      destruct (IH _ _ _ _ Hrest)
        as (visited & later & -> & Hid' & Hst' & Hsent' & Hgo' & Hall).
      rewrite (sameIdentity_authenticated _ _ Hid) in Hsent'.
      exists (u :: visited), later. split; [reflexivity|].
      split; [eapply sameIdentity_trans; eassumption|].
      split; [eapply sameStore_trans; eassumption|].
      cbn [flat_map]. rewrite Hsent', Hgo', Hsent, Hgo, !app_assoc.
      repeat split. exact Hall.
    + intro H; injection H as <- <- <- <-.
      destruct (dataBody_trace msg u b b1 h h1 s s1 w w1)
        as (Hid & Hst & Hsent & Hgo & _); [now rewrite Hstep|].
      exists [u], us. repeat split; try apply Hid; try apply Hst;
        cbn [flat_map]; rewrite ?app_nil_r; try assumption.
      discriminate.
    + discriminate.
Qed.

(* ================================================================ *)
(** ** One answer at most *)

Lemma forEach_return_inv {S R : Type} (body : string -> S -> Flow S R)
      (uris : list string) (st : S) (r : R) :
  forEach body uris st = Return r ->
  exists pre u post st',
    uris = (pre ++ u :: post)%list
    /\ forEach body pre st = Next st'
    /\ body u st' = Return r.
Proof.
  revert st. induction uris as [|u us IH]; intro st; cbn [forEach].
  - discriminate.
  - destruct (body u st) as [st1|r1|] eqn:Hstep.
    + intro H. destruct (IH _ H) as (pre & v & post & st' & -> & Hpre & Hv).
      exists (u :: pre), v, post, st'. repeat split; [|exact Hv].
      cbn [forEach]. now rewrite Hstep.
    + intro H; injection H as <-.
      exists [], u, us, st. repeat split. exact Hstep.
    + discriminate.
Qed.

Lemma answered_after_quiet (s0 s s' : SMTPServerSession) :
  quietly s0 s -> answered s s' -> answered s0 s'.
Proof.
  intros (Ho & _ & _) [[line H]|[H He]]; [left|right].
  - exists line. now rewrite <- Ho.
  - split; [now rewrite <- Ho | exact He].
Qed.

Lemma bridged_answered (reply : option SmtpResponse) (drop : bool)
      (s : SMTPServerSession) :
  hasReplyText reply || drop = true -> answered s (bridged reply drop s).
Proof.
  intro H. unfold answered.
  rewrite bridged_outbox, bridged_exiting.
  destruct reply as [r|]; [destruct (hasReplyText (Some r)) eqn:Ht|].
  - left. now eexists.
  - right. simpl in H. subst drop. now rewrite app_nil_r.
  - right. simpl in H. subst drop. now rewrite app_nil_r.
Qed.

Lemma handleSMTPError_answered (ms : microservice) (err : error)
      (s s' : SMTPServerSession) :
  handleSMTPError ms (Some err) s = (true, s') -> answered s s'.
Proof.
  unfold handleSMTPError.
  destruct (onFailure ms); intro H; try discriminate;
    injection H as <-; left; now eexists.
Qed.

Lemma newClientBody_return (msg : list Byte.byte) (uri : string) (b b' : bool)
      (s s' : SMTPServerSession) (w w' : World) :
  newClientBody msg uri (b, s, w) = Return (b', s', w') ->
  (b' = false /\ quietly s s') \/ (b' = true /\ answered s s').
Proof.
  destruct (newMicroservice uri) as [[ms|] [err|]] eqn:Hnew;
    try (rewrite (newClientBody_unparsable _ _ _ _ _ _ _ Hnew); discriminate).
  2: { unfold newClientBody. rewrite Hnew. discriminate. }
  destruct (isAuthenticated s && skipAuthentifiedUser ms) eqn:Hs.
  { apply andb_prop in Hs as [Ha Hk].
    rewrite (newClientBody_skip _ _ _ _ _ _ Hnew Ha Hk). discriminate. }
  destruct (fireAndForget ms) eqn:Hf.
  { rewrite (newClientBody_detached _ _ _ _ _ _ Hnew Hs Hf). discriminate. }
  destruct (sync_cases Unmarshal_NewClient ms msg w) as [[err He]|[r Hr]].
  - rewrite (newClientBody_failure _ _ _ _ _ _ _ Hnew Hs Hf He). cbv zeta.
    destruct (stopOnError ms); [|discriminate].
    intro H; injection H as <- <- <-. left. repeat split.
  - rewrite (newClientBody_outcome _ _ _ _ _ _ _ Hnew Hs Hf Hr). cbv zeta.
    destruct (hasReplyText _ || nc_DropConnection r) eqn:Hh; [|discriminate].
    intro H; injection H as <- <- <-. right. split; [reflexivity|].
    apply (answered_after_quiet _ (announced ms s)); [repeat split|].
    now apply bridged_answered.
Qed.

Lemma rcptToBody_return (msg : list Byte.byte) (uri : string) (b b' : bool)
      (s s' : SMTPServerSession) (w w' : World) :
  rcptToBody msg uri (b, s, w) = Return (b', s', w') ->
  b' = true /\ answered s s'.
Proof.
  destruct (newMicroservice uri) as [[ms|] [err|]] eqn:Hnew;
    try (rewrite (rcptToBody_unparsable _ _ _ _ _ _ _ Hnew); discriminate).
  2: { unfold rcptToBody. rewrite Hnew. discriminate. }
  destruct (isAuthenticated s && skipAuthentifiedUser ms) eqn:Hs.
  { apply andb_prop in Hs as [Ha Hk].
    rewrite (rcptToBody_skip _ _ _ _ _ _ Hnew Ha Hk). discriminate. }
  destruct (fireAndForget ms) eqn:Hf.
  { rewrite (rcptToBody_detached _ _ _ _ _ _ Hnew Hs Hf). discriminate. }
  destruct (sync_cases Unmarshal_RcptTo ms msg w) as [[err He]|[r Hr]].
  - rewrite (rcptToBody_failure _ _ _ _ _ _ _ Hnew Hs Hf He).
    destruct (handleSMTPError ms (Some err) (announced ms s)) as [[|] s1]
      eqn:Hh; [|discriminate].
    intro H; injection H as <- <- <-. split; [reflexivity|].
    apply (answered_after_quiet _ (announced ms s)); [repeat split|].
    now apply (handleSMTPError_answered ms err).
  - rewrite (rcptToBody_outcome _ _ _ _ _ _ _ Hnew Hs Hf Hr). cbv zeta.
    destruct (hasReplyText _ || rt_DropConnection r) eqn:Hh; [|discriminate].
    intro H; injection H as <- <- <-. split; [reflexivity|].
    apply (answered_after_quiet
             _ (set_relayGranted (rt_RelayGranted r) (announced ms s)));
      [repeat split|].
    now apply bridged_answered.
Qed.

Lemma dataBody_return (msg : list Byte.byte) (uri : string) (b b' : bool)
      (h h' : list string) (s s' : SMTPServerSession) (w w' : World) :
  dataBody msg uri (b, h, s, w) = Return (b', h', s', w') ->
  b' = true /\ answered s s'.
Proof.
  destruct (newMicroservice uri) as [[ms|] [err|]] eqn:Hnew;
    try (rewrite (dataBody_unparsable _ _ _ _ _ _ _ _ Hnew); discriminate).
  2: { unfold dataBody. rewrite Hnew. discriminate. }
  destruct (isAuthenticated s && skipAuthentifiedUser ms) eqn:Hs.
  { apply andb_prop in Hs as [Ha Hk].
    rewrite (dataBody_skip _ _ _ _ _ _ _ Hnew Ha Hk). discriminate. }
  destruct (sync_cases Unmarshal_Data ms msg w) as [[err He]|[r Hr]].
  - rewrite (dataBody_failure _ _ _ _ _ _ _ _ Hnew Hs He).
    destruct (handleSMTPError ms (Some err) (announced ms s)) as [[|] s1]
      eqn:Hh; [|discriminate].
    intro H; injection H as <- <- <- <-. split; [reflexivity|].
    apply (answered_after_quiet _ (announced ms s)); [repeat split|].
    now apply (handleSMTPError_answered ms err).
  - rewrite (dataBody_outcome _ _ _ _ _ _ _ _ Hnew Hs Hr). cbv zeta.
    destruct (hasReplyText _ || da_DropConnection r) eqn:Hh; [|discriminate].
    intro H; injection H as <- <- <- <-. split; [reflexivity|].
    apply (answered_after_quiet _ (announced ms s)); [repeat split|].
    now apply bridged_answered.
Qed.

(** X3.  The value of [stop] tells whether the hook has answered the
    command.  When a session hook returns [stop = false] it has written no
    reply and has not asked to terminate the session; when it returns
    [stop = true] it has written exactly one reply, or none together with
    a request to terminate.  No run writes two replies. *)
Theorem stop_tells_whether_answered (s0 : SMTPServerSession) (w0 : World) :
  (forall stop s' w',
      msSmtpdNewClient s0 w0 = Returned (stop, s', w') ->
      (stop = false -> quietly s0 s') /\ (stop = true -> answered s0 s'))
  /\ (forall rcptTo stop s' w',
         msSmtpdRcptTo s0 rcptTo w0 = Returned (stop, s', w') ->
         (stop = false -> quietly s0 s') /\ (stop = true -> answered s0 s'))
  /\ (forall rawMail stop h s' w',
         smtpdData s0 rawMail w0 = Returned (stop, h, s', w') ->
         (stop = false -> quietly s0 s') /\ (stop = true -> answered s0 s')).
Proof.
  split; [|split].
  - intros stop s' w'. unfold msSmtpdNewClient.
    destruct (List.length _ =? 0)%nat.
    { intro H; injection H as <- <- <-.
      split; [intros _; apply quietly_refl | discriminate]. }
    destruct (proto_Marshal _) as [err|msg].
    { intro H; injection H as <- <- <-.
      split; [intros _; repeat split | discriminate]. }
    destruct (forEach _ _ _) as [[[b s] w]|[[b s] w]|] eqn:Hloop;
      cbn [finish]; intro H; try discriminate; injection H as <- <- <-.
    + apply newClient_loop_next in Hloop as [-> Hq].
      split; [intros _; exact Hq | discriminate].
    + apply forEach_return_inv in Hloop
        as (pre & u & post & [[b1 s1] w1] & _ & Hpre & Hu).
      apply newClient_loop_next in Hpre as [-> Hq].
      apply newClientBody_return in Hu as [[-> Hq']|[-> Ha]].
      * split; [intros _; eapply quietly_trans; eassumption | discriminate].
      * split; [discriminate | intros _].
        eapply answered_after_quiet; eassumption.
  - intros rcptTo stop s' w'. unfold msSmtpdRcptTo.
    destruct (List.length _ =? 0)%nat.
    { intro H; injection H as <- <- <-.
      split; [intros _; apply quietly_refl | discriminate]. }
    destruct (proto_Marshal _) as [err|msg].
    { intro H; injection H as <- <- <-.
      split; [intros _; repeat split | discriminate]. }
    destruct (forEach _ _ _) as [[[b s] w]|[[b s] w]|] eqn:Hloop;
      cbn [finish]; intro H; try discriminate; injection H as <- <- <-.
    + apply rcptTo_loop_next in Hloop as [-> Hq].
      split; [intros _; exact Hq | discriminate].
    + apply forEach_return_inv in Hloop
        as (pre & u & post & [[b1 s1] w1] & _ & Hpre & Hu).
      apply rcptTo_loop_next in Hpre as [-> Hq].
      apply rcptToBody_return in Hu as [-> Ha].
      split; [discriminate | intros _].
      eapply answered_after_quiet; eassumption.
  - intros rawMail stop h s' w'. unfold smtpdData.
    destruct (List.length _ =? 0)%nat.
    { intro H; injection H as <- <- <- <-.
      split; [intros _; apply quietly_refl | discriminate]. }
    destruct (ioutil_TempFile _ _) as [err|name].
    { intro H; injection H as <- <- <- <-.
      split; [intros _; repeat split | discriminate]. }
    destruct (file_Write _ _) as [err|].
    { intro H; injection H as <- <- <- <-.
      split; [intros _; repeat split | discriminate]. }
    destruct (proto_Marshal _) as [err|msg].
    { cbn [cleaned]. intro H; injection H as <- <- <- <-.
      split; [intros _; repeat split | discriminate]. }
    destruct (forEach _ _ _) as [[[[b h1] s] w]|[[[b h1] s] w]|] eqn:Hloop;
      cbn [finishData cleaned]; intro H; try discriminate;
      injection H as <- <- <- <-.
    + apply data_loop_next in Hloop.
      split; [intros _; exact Hloop | discriminate].
    + apply forEach_return_inv in Hloop
        as (pre & u & post & [[[b1 h2] s1] w1] & _ & Hpre & Hu).
      apply data_loop_next in Hpre.
      apply dataBody_return in Hu as [-> Ha].
      split; [discriminate | intros _].
      eapply answered_after_quiet; eassumption.
Qed.

(* ================================================================ *)
(** ** Which endpoints a run contacts *)

Lemma rcptTo_loop_return_stop (msg : list Byte.byte) (uris : list string)
      (st : Frame) (b' : bool) (s' : SMTPServerSession) (w' : World) :
  forEach (rcptToBody msg) uris st = Return (b', s', w') -> b' = true.
Proof.
  intro H. apply forEach_return_inv in H
    as (pre & u & post & [[b1 s1] w1] & _ & _ & Hu).
  now apply rcptToBody_return in Hu as [-> _].
Qed.

Lemma data_loop_return_stop (msg : list Byte.byte) (uris : list string)
      (st : DataFrame) (b' : bool) (h' : list string)
      (s' : SMTPServerSession) (w' : World) :
  forEach (dataBody msg) uris st = Return (b', h', s', w') -> b' = true.
Proof.
  intro H. apply forEach_return_inv in H
    as (pre & u & post & [[[b1 h1] s1] w1] & _ & _ & Hu).
  now apply dataBody_return in Hu as [-> _].
Qed.

(** X4.  A run of msSmtpdNewClient or msSmtpdRcptTo visits a prefix of
    the configured endpoints, in their order.  What it exchanges on its
    own goroutine and what it starts with [go] is, endpoint by endpoint of
    that prefix, one request to the address before the question mark with
    the endpoint's timeout and the query of the run as body: none for a
    reference that does not parse or an endpoint skipped for the
    authenticated session, started with [go] for a fire-and-forget
    endpoint, exchanged otherwise.  The identity of the session, the files
    and the package log are untouched.  A run of msSmtpdRcptTo that
    returns [stop = false] has visited every endpoint. *)
Theorem session_hooks_contact_in_order (s0 : SMTPServerSession) (w0 : World)
        (msg : list Byte.byte) :
  (forall stop s' w',
      proto_Marshal (SmtpdNewClientQuery (uuid s0) (remoteAddr s0)) = inr msg ->
      msSmtpdNewClient s0 w0 = Returned (stop, s', w') ->
      exists visited later,
        GetMicroservicesUri Cfg "smtpdnewclient" = (visited ++ later)%list
        /\ sameIdentity s0 s' /\ sameStore w0 w'
        /\ sent w'
           = (sent w0
              ++ flat_map (syncReq (isAuthenticated s0) msg) visited)%list
        /\ spawned w'
           = (spawned w0
              ++ flat_map (goReq (isAuthenticated s0) msg) visited)%list)
  /\ (forall rcptTo stop s' w',
         proto_Marshal (SmtpdRcptToQuery (uuid s0) rcptTo) = inr msg ->
         msSmtpdRcptTo s0 rcptTo w0 = Returned (stop, s', w') ->
         exists visited later,
           GetMicroservicesUri Cfg "smtpdrcptto" = (visited ++ later)%list
           /\ sameIdentity s0 s' /\ sameStore w0 w'
           /\ sent w'
              = (sent w0
                 ++ flat_map (syncReq (isAuthenticated s0) msg) visited)%list
           /\ spawned w'
              = (spawned w0
                 ++ flat_map (goReq (isAuthenticated s0) msg) visited)%list
           /\ (stop = false -> later = [])).
Proof.
  split.
  - intros stop s' w' Hmsg. unfold msSmtpdNewClient.
    destruct (GetMicroservicesUri Cfg "smtpdnewclient") as [|u us] eqn:Huris.
    { intro H; injection H as <- <- <-. exists [], [].
      repeat split; simpl; now rewrite app_nil_r. }
    cbn [List.length Nat.eqb]. rewrite Hmsg. intro Hrun.
    destruct (frame_loop_trace (newClientBody msg) msg
                (fun uri b s w b' s' w' => newClientBody_trace msg uri b b' s s' w w')
                (u :: us) false s0 w0 stop s' w')
      as (visited & later & Heq & Hid & Hst & Hsent & Hgo & _).
    { destruct (forEach _ _ _) as [[[b s] w]|[[b s] w]|]; cbn [finish] in Hrun;
        try discriminate; now injection Hrun as <- <- <-. }
    exists visited, later. repeat split; try apply Hid; try apply Hst;
      assumption.
  - intros rcptTo stop s' w' Hmsg. unfold msSmtpdRcptTo.
    destruct (GetMicroservicesUri Cfg "smtpdrcptto") as [|u us] eqn:Huris.
    { intro H; injection H as <- <- <-. exists [], [].
      repeat split; simpl; now rewrite app_nil_r. }
    cbn [List.length Nat.eqb]. rewrite Hmsg. intro Hrun.
    destruct (frame_loop_trace (rcptToBody msg) msg
                (fun uri b s w b' s' w' => rcptToBody_trace msg uri b b' s s' w w')
                (u :: us) false s0 w0 stop s' w')
      as (visited & later & Heq & Hid & Hst & Hsent & Hgo & Hall).
    { destruct (forEach _ _ _) as [[[b s] w]|[[b s] w]|]; cbn [finish] in Hrun;
        try discriminate; now injection Hrun as <- <- <-. }
    exists visited, later. repeat split; try apply Hid; try apply Hst;
      try assumption.
    intros ->.
    destruct (forEach (rcptToBody msg) (u :: us) (false, s0, w0))
      as [st|[[b s] w]|] eqn:Hloop; cbn [finish] in Hrun; try discriminate.
    + now apply (Hall st).
    + injection Hrun as -> _ _.
      now apply rcptTo_loop_return_stop in Hloop.
Qed.

Lemma files_os_Remove (name : string) (w : World) :
  files (os_Remove name w)
  = filter (fun f => negb (String.eqb (fst f) name)) (files w).
Proof. reflexivity. Qed.

(** X5.  A run of smtpdData that has saved the message body visits a
    prefix of the configured endpoints in their order and exchanges one
    request with each endpoint of that prefix that parses and is not
    skipped, fire-and-forget or not; it starts nothing with [go].  A run
    that returns [stop = false] has visited every endpoint.  When the name
    of the temporary file was not in use before, the run leaves the files
    exactly as it found them. *)
Theorem data_hook_contacts_in_order (s0 : SMTPServerSession) (w0 : World)
        (rawMail : list Byte.byte) (name : string) (msg : list Byte.byte)
        (stop : bool) (h : list string) (s' : SMTPServerSession)
        (w' : World) :
  GetMicroservicesUri Cfg "smtpddata" <> [] ->
  ioutil_TempFile (files w0) (GetTempDir Cfg) = inr name ->
  file_Write name rawMail = None ->
  proto_Marshal (SmtpdDataQuery (uuid s0) (dataLink name)) = inr msg ->
  smtpdData s0 rawMail w0 = Returned (stop, h, s', w') ->
  exists visited later,
    GetMicroservicesUri Cfg "smtpddata" = (visited ++ later)%list
    /\ sameIdentity s0 s'
    /\ applog w' = applog w0
    /\ sent w'
       = (sent w0 ++ flat_map (dataReq (isAuthenticated s0) msg) visited)%list
    /\ spawned w' = spawned w0
    /\ (stop = false -> later = [])
    /\ (fileExists name w0 = false -> files w' = files w0).
Proof.
  intros Hne Htmp Hwr Hmsg. unfold smtpdData.
  rewrite (nonempty_length_neq _ Hne), Htmp, Hwr, Hmsg. intro Hrun.
  set (w1 := writeFile name rawMail (createFile name w0)) in *.
  destruct (forEach (dataBody msg) (GetMicroservicesUri Cfg "smtpddata")
                    (false, [], s0, w1))
    as [[[[b h1] s] w]|[[[b h1] s] w]|] eqn:Hloop;
    cbn [finishData cleaned] in Hrun; try discriminate;
    injection Hrun as <- <- <- <-.
  - destruct (data_loop_trace msg (GetMicroservicesUri Cfg "smtpddata")
                             false b [] h1 s0 s w1 w)
      as (visited & later & Heq & Hid & (Hf & Hl) & Hsent & Hgo & Hall);
      [now rewrite Hloop|].
    exists visited, later. repeat split; try apply Hid; try assumption.
    + intros _. now apply (Hall _ Hloop).
    + intro Hfresh. rewrite files_os_Remove, Hf.
      rewrite <- files_os_Remove. now apply os_Remove_fresh.
  - destruct (data_loop_trace msg (GetMicroservicesUri Cfg "smtpddata")
                             false b [] h1 s0 s w1 w)
      as (visited & later & Heq & Hid & (Hf & Hl) & Hsent & Hgo & Hall);
      [now rewrite Hloop|].
    exists visited, later. repeat split; try apply Hid; try assumption.
    + intros ->. now apply data_loop_return_stop in Hloop.
    + intro Hfresh. rewrite files_os_Remove, Hf.
      rewrite <- files_os_Remove. now apply os_Remove_fresh.
Qed.

(* ================================================================ *)
(** ** Failure under the Continue policy *)

(** X6.  For an endpoint whose policy is Continue and which a session hook
    calls synchronously, a failure in the transport or in decoding is
    logged and nothing more: no reply is written, and the run goes on
    with the endpoints after it. *)
Theorem continue_policy_goes_on (uri : string) (ms : microservice) :
  newMicroservice uri = (Some ms, None) ->
  onFailure ms = CONTINUE ->
  (forall pre post msg err s0 w0 s w,
      newClientAt pre uri post msg s0 w0 s w ->
      isAuthenticated s && skipAuthentifiedUser ms = false ->
      fireAndForget ms = false ->
      syncFailure Unmarshal_NewClient ms msg w = Some err ->
      let s' := blamed ms err (announced ms s) in
      msSmtpdNewClient s0 w0
      = finish (forEach (newClientBody msg) post
                        (false, s', afterCall ms msg w))
      /\ outbox s' = outbox s0)
  /\ (forall rcptTo pre post msg err s0 w0 s w,
         rcptToAt rcptTo pre uri post msg s0 w0 s w ->
         isAuthenticated s && skipAuthentifiedUser ms = false ->
         fireAndForget ms = false ->
         syncFailure Unmarshal_RcptTo ms msg w = Some err ->
         let s' := blamed ms err (announced ms s) in
         msSmtpdRcptTo s0 rcptTo w0
         = finish (forEach (rcptToBody msg) post
                           (false, s', afterCall ms msg w))
         /\ outbox s' = outbox s0)
  /\ (forall rawMail name pre post msg err s0 w0 h s w,
         dataAt rawMail name pre uri post msg s0 w0 h s w ->
         isAuthenticated s && skipAuthentifiedUser ms = false ->
         syncFailure Unmarshal_Data ms msg w = Some err ->
         let s' := blamed ms err (announced ms s) in
         (exists b,
             smtpdData s0 rawMail w0
             = finishData name
                 (forEach (dataBody msg) post
                          (b, h, s', afterCall ms msg w)))
         /\ outbox s' = outbox s0).
Proof.
  intros Hnew Hpol. split; [|split].
  - intros pre post msg err s0 w0 s w Hat Hskip Hfaf Hfail. split.
    + rewrite (newClient_at _ _ _ _ _ _ _ _ Hat).
      destruct (continue_policy_failure uri ms msg err false [] s w Hnew Hpol
                  Hskip) as (Hb & _ & _).
      now rewrite (Hb Hfaf Hfail).
    + destruct Hat as (_ & _ & Hpre).
      apply newClient_loop_next in Hpre as [_ (Ho & _)]. exact Ho.
  - intros rcptTo pre post msg err s0 w0 s w Hat Hskip Hfaf Hfail. split.
    + rewrite (rcptTo_at _ _ _ _ _ _ _ _ _ Hat).
      destruct (continue_policy_failure uri ms msg err false [] s w Hnew Hpol
                  Hskip) as (_ & Hb & _).
      now rewrite (Hb Hfaf Hfail).
    + destruct Hat as (_ & _ & Hpre).
      apply rcptTo_loop_next in Hpre as [_ (Ho & _)]. exact Ho.
  - intros rawMail name pre post msg err s0 w0 h s w Hat Hskip Hfail. split.
    + destruct (data_at _ _ _ _ _ _ _ _ _ _ _ Hat) as [b Hrun]. exists b.
      destruct (continue_policy_failure uri ms msg err b h s w Hnew Hpol
                  Hskip) as (_ & _ & Hb).
      now rewrite Hrun, (Hb Hfail).
    + destruct Hat as (_ & _ & _ & _ & b & Hpre).
      apply data_loop_next in Hpre as (Ho & _). exact Ho.
Qed.

(* ================================================================ *)
(** ** A reply with text *)

Lemma hasReplyText_true (r : SmtpResponse) :
  GetCode r <> 0 -> GetMsg r <> "" -> hasReplyText (Some r) = true.
Proof.
  intros Hc Hm. unfold hasReplyText.
  apply Z.eqb_neq in Hc. apply String.eqb_neq in Hm. now rewrite Hc, Hm.
Qed.

(** X7.  A decoded outcome whose reply has a nonzero code and a nonempty
    message ends the run of each session hook at that endpoint with
    [stop = true]; the line written is the code in decimal, a space and
    the message, it is the only reply of the run, and termination of the
    session is requested exactly when the outcome also asks to drop the
    connection or it was requested before. *)
Theorem reply_with_text_halts (uri : string) (ms : microservice) :
  newMicroservice uri = (Some ms, None) ->
  (forall pre post msg resp r s0 w0 s w,
      newClientAt pre uri post msg s0 w0 s w ->
      isAuthenticated s && skipAuthentifiedUser ms = false ->
      fireAndForget ms = false ->
      syncOutcome Unmarshal_NewClient ms msg w = Some resp ->
      nc_SmtpResponse resp = Some r ->
      GetCode r <> 0 -> GetMsg r <> "" ->
      exists s',
        msSmtpdNewClient s0 w0 = Returned (true, s', afterCall ms msg w)
        /\ outbox s' = (outbox s0 ++ [replyLine r])%list
        /\ exiting s' = nc_DropConnection resp || exiting s0)
  /\ (forall rcptTo pre post msg resp r s0 w0 s w,
         rcptToAt rcptTo pre uri post msg s0 w0 s w ->
         isAuthenticated s && skipAuthentifiedUser ms = false ->
         fireAndForget ms = false ->
         syncOutcome Unmarshal_RcptTo ms msg w = Some resp ->
         rt_SmtpResponse resp = Some r ->
         GetCode r <> 0 -> GetMsg r <> "" ->
         exists s',
           msSmtpdRcptTo s0 rcptTo w0 = Returned (true, s', afterCall ms msg w)
           /\ outbox s' = (outbox s0 ++ [replyLine r])%list
           /\ exiting s' = rt_DropConnection resp || exiting s0)
  /\ (forall rawMail name pre post msg resp r s0 w0 h s w,
         dataAt rawMail name pre uri post msg s0 w0 h s w ->
         isAuthenticated s && skipAuthentifiedUser ms = false ->
         syncOutcome Unmarshal_Data ms msg w = Some resp ->
         da_SmtpResponse resp = Some r ->
         GetCode r <> 0 -> GetMsg r <> "" ->
         exists s',
           smtpdData s0 rawMail w0
           = Returned (true, (h ++ da_ExtraHeaders resp)%list, s',
                       os_Remove name (afterCall ms msg w))
           /\ outbox s' = (outbox s0 ++ [replyLine r])%list
           /\ exiting s' = da_DropConnection resp || exiting s0).
Proof.
  intros Hnew. split; [|split].
  - intros pre post msg resp r s0 w0 s w Hat Hskip Hfaf Hout Hreply Hc Hm.
    pose proof (hasReplyText_true r Hc Hm) as Ht. eexists. split; [|split].
    + rewrite (newClient_at _ _ _ _ _ _ _ _ Hat).
      rewrite (newClientBody_outcome _ _ _ _ _ _ _ Hnew Hskip Hfaf Hout).
      cbv zeta. rewrite Hreply, Ht, call_world. reflexivity.
    + destruct Hat as (_ & _ & Hpre).
      apply newClient_loop_next in Hpre as [_ (Ho & _)].
      rewrite bridged_outbox, Ht. simpl. now rewrite Ho.
    + destruct Hat as (_ & _ & Hpre).
      apply newClient_loop_next in Hpre as [_ (_ & _ & He)].
      rewrite bridged_exiting. simpl. now rewrite He.
  - intros rcptTo pre post msg resp r s0 w0 s w Hat Hskip Hfaf Hout Hreply Hc
           Hm.
    pose proof (hasReplyText_true r Hc Hm) as Ht. eexists. split; [|split].
    + rewrite (rcptTo_at _ _ _ _ _ _ _ _ _ Hat).
      rewrite (rcptToBody_outcome _ _ _ _ _ _ _ Hnew Hskip Hfaf Hout).
      cbv zeta. rewrite Hreply, Ht, call_world. reflexivity.
    + destruct Hat as (_ & _ & Hpre).
      apply rcptTo_loop_next in Hpre as [_ (Ho & _)].
      rewrite bridged_outbox, Ht. simpl. now rewrite Ho.
    + destruct Hat as (_ & _ & Hpre).
      apply rcptTo_loop_next in Hpre as [_ (_ & _ & He)].
      rewrite bridged_exiting. simpl. now rewrite He.
  - intros rawMail name pre post msg resp r s0 w0 h s w Hat Hskip Hout Hreply
           Hc Hm.
    pose proof (hasReplyText_true r Hc Hm) as Ht. eexists. split; [|split].
    + destruct (data_at _ _ _ _ _ _ _ _ _ _ _ Hat) as [b ->].
      rewrite (dataBody_outcome _ _ _ _ _ _ _ _ Hnew Hskip Hout).
      cbv zeta. rewrite Hreply, Ht, call_world. reflexivity.
    + destruct Hat as (_ & _ & _ & _ & b & Hpre).
      apply data_loop_next in Hpre as (Ho & _).
      rewrite bridged_outbox, Ht. simpl. now rewrite Ho.
    + destruct Hat as (_ & _ & _ & _ & b & Hpre).
      apply data_loop_next in Hpre as (_ & _ & He).
      rewrite bridged_exiting. simpl. now rewrite He.
Qed.

(* ================================================================ *)
(** ** msGetRoutes *)

Lemma call_Log_Info (ms : microservice) (msg : list Byte.byte)
      (text : string) (w : World) :
  call ms msg (Log_Info text w)
  = (fst (call ms msg w), Log_Info text (snd (call ms msg w))).
Proof.
  unfold call, doRequest; cbv iota beta. cbn [sent Log_Info].
  destruct (client_Do _ _) as [err|r]; [reflexivity|].
  destruct (ReadAll r) as [rawBody [err|]]; [reflexivity|].
  destruct (StatusCode r >? 399); reflexivity.
Qed.

(** X8.  When the reference of its endpoint parses, msGetRoutes returns
    and has made exactly one exchange, with that endpoint.  It returns
    [stop = true] only after a failure of the call or of decoding under a
    TempFail or PermFail policy.  After a decoded answer [stop] is false
    and the routes are those of the answer, one record for each in the
    same order, or the nil list when the answer has none. *)
Theorem getRoutes_results (uri : string) (rest : list string)
        (ms : microservice) (d : delivery) (w : World) :
  GetMicroservicesUri Cfg "deliverdgetroutes" = uri :: rest ->
  newMicroservice uri = (Some ms, None) ->
  let msg := routesQuery d in
  exists routes stop w',
    msGetRoutes d w = Returned (routes, stop, w')
    /\ sent w' = (sent w ++ [requestOf ms msg])%list
    /\ spawned w' = spawned w /\ files w' = files w
    /\ (stop = true ->
        stopOnError ms = true
        /\ exists err, syncFailure Unmarshal_GetRoutes ms msg w = Some err)
    /\ (forall err,
           snd (fst (call ms msg w)) = Some err ->
           stop = stopOnError ms /\ routes = None)
    /\ (forall body err,
           fst (call ms msg w) = (Some body, None) ->
           Unmarshal_GetRoutes body = inl err ->
           stop = stopOnError ms /\ routes = Some [])
    /\ (forall resp,
           syncOutcome Unmarshal_GetRoutes ms msg w = Some resp ->
           stop = false
           /\ routes = match GetRoutes resp with
                       | [] => None
                       | rs => Some (map routeOf rs)
                       end).
Proof.
  intros Huris Hnew msg. unfold msGetRoutes.
  rewrite Huris, Hnew. fold (routesQuery d). fold msg.
  rewrite call_Log_Info. cbv beta iota. unfold syncFailure, syncOutcome.
  rewrite (call_world ms msg w).
  destruct (call_total ms msg w) as [[err ->]|[body ->]]; cbn [fst snd].
  - do 3 eexists. split; [reflexivity|].
    repeat split; try reflexivity; try discriminate.
    + assumption.
    + now eexists.
  - destruct (Unmarshal_GetRoutes body) as [err|resp] eqn:Hdec.
    + do 3 eexists. split; [reflexivity|].
      repeat split; try reflexivity; try discriminate.
      * assumption.
      * now eexists.
    + destruct (GetRoutes resp) as [|r rs] eqn:Hrs.
      * do 3 eexists. split; [reflexivity|].
        repeat split; try reflexivity; try discriminate;
          try (injection H as <-; congruence);
          injection H as <-; now rewrite ?Hrs.
      * do 3 eexists. split; [reflexivity|].
        repeat split; try reflexivity; try discriminate;
          try (injection H as <-; congruence);
          injection H as <-; now rewrite ?Hrs.
Qed.


(* ================================================================ *)
(** ** The locator of the message body *)

Lemma strings_Split_last (sep : ascii) (s : string) :
  exists dir base,
    s = dir ++ base
    /\ last (strings_Split s sep) "" = base
    /\ containsByte sep base = false
    /\ ((dir = "" /\ strings_Split s sep = [base])
        \/ (exists d h x t,
               dir = d ++ String sep ""
               /\ strings_Split s sep = h :: x :: t)).
Proof using.
  induction s as [|c rest IH].
  - exists "", "". repeat split. left. split; reflexivity.
  - destruct IH as (dir & base & Hrest & Hlast & Hfree & Hshape).
    cbn [strings_Split].
    destruct (Ascii.eqb c sep) eqn:Hc.
    + apply Ascii.eqb_eq in Hc. subst c.
      exists (String sep dir), base. split; [simpl; now rewrite Hrest|].
      destruct Hshape as [[-> Hone]|(d & h & x & t & -> & Hmany)].
      * rewrite Hone. split; [reflexivity|]. split; [exact Hfree|].
        right. exists "", "", base, []. split; reflexivity.
      * rewrite Hmany in *. split; [exact Hlast|]. split; [exact Hfree|].
        right. exists (String sep d), "", h, (x :: t). split; reflexivity.
    + destruct Hshape as [[-> Hone]|(d & h & x & t & -> & Hmany)].
      * rewrite Hone. exists "", (String c base).
        split; [simpl in *; now rewrite Hrest|]. split; [reflexivity|].
        split; [|left; split; reflexivity].
        cbn [containsByte]. rewrite Hfree, Ascii.eqb_sym, Hc. reflexivity.
      * rewrite Hmany in *. exists (String c (d ++ String sep "")), base.
        split; [simpl; now rewrite Hrest|]. split; [exact Hlast|].
        split; [exact Hfree|].
        right. exists (String c d), (String c h), x, t. split; reflexivity.
Qed.

(** X10.  The locator that smtpdData gives to the endpoints carries the
    base name of the temporary file and nothing else of its path: the
    path is a directory part, empty or ending in a slash, followed by a
    base name without a slash, and the locator is the scheme (https when
    the REST server uses TLS, http otherwise), the address and the port of
    the REST server, [/msdata/], and that base name. *)
Theorem dataLink_exposes_base_name (name : string) :
  exists dir base,
    name = dir ++ base
    /\ containsByte "/" base = false
    /\ (dir = "" \/ exists d, dir = d ++ "/")
    /\ dataLink name
       = (if GetRestServerIsTls Cfg then "https://" else "http://")
         ++ GetRestServerIp Cfg ++ ":" ++ fmt_d (GetRestServerPort Cfg)
         ++ "/msdata/" ++ base.
Proof.
  destruct (strings_Split_last "/" name)
    as (dir & base & Hname & Hlast & Hfree & Hshape).
  exists dir, base. split; [exact Hname|]. split; [exact Hfree|]. split.
  - destruct Hshape as [[-> _]|(d & _ & _ & _ & -> & _)];
      [now left | right; now exists d].
  - unfold dataLink. rewrite Hlast.
    destruct (GetRestServerIsTls Cfg); reflexivity.
Qed.

(* ================================================================ *)
(** ** The descriptor that newMicroservice returns *)

Lemma strings_Split_nonempty (sep : ascii) (s : string) :
  strings_Split s sep <> [].
Proof using.
  destruct s as [|c s]; cbn [strings_Split]; [discriminate|].
  destruct (Ascii.eqb c sep); [discriminate|].
  destruct (strings_Split s sep); discriminate.
Qed.

Lemma strings_Split_head (sep : ascii) (s : string) :
  exists rest,
    s = nth 0 (strings_Split s sep) "" ++ rest
    /\ containsByte sep (nth 0 (strings_Split s sep) "") = false
    /\ (rest = "" \/ exists q, rest = String sep q).
Proof using.
  induction s as [|c s IH].
  - exists "". repeat split. now left.
  - cbn [strings_Split]. destruct (Ascii.eqb c sep) eqn:Hc.
    + apply Ascii.eqb_eq in Hc. subst c.
      exists (String sep s). repeat split. right. now exists s.
    + destruct IH as (rest & Hs & Hfree & Hrest).
      destruct (strings_Split s sep) as [|h t] eqn:Hsplit.
      * now apply strings_Split_nonempty in Hsplit.
      * exists rest. cbn [nth] in *. split; [simpl; now rewrite <- Hs|].
        split; [|exact Hrest].
        cbn [containsByte]. rewrite Hfree, Ascii.eqb_sym, Hc. reflexivity.
Qed.

Lemma digits_range (s0 s : string) (acc n : Z) :
  0 <= acc <= strconv.maxUint64 ->
  strconv.digits s0 s acc = (n, None) ->
  0 <= n <= strconv.maxUint64.
Proof using.
  revert acc. induction s as [|c s IH]; intros acc Hacc; cbn [strconv.digits].
  - intro H; injection H as <-. exact Hacc.
  - destruct (negb (isDigit c)); [discriminate|].
    destruct (acc >=? strconv.maxUint64 / 10 + 1); [discriminate|].
    destruct (_ || _); [discriminate|].
    apply IH. unfold strconv.maxUint64.
    pose proof (Z.mod_pos_bound ((acc * 10) mod 2 ^ 64
                                 + (byteval c - byteval "0")) (2 ^ 64)).
    lia.
Qed.

Lemma ParseUint_range (s : string) (n : Z) :
  strconv.ParseUint s = (n, None) -> 0 <= n <= strconv.maxUint64.
Proof using.
  unfold strconv.ParseUint. destruct (String.eqb s ""); [discriminate|].
  apply digits_range. unfold strconv.maxUint64. lia.
Qed.

Lemma newMicroservice_fields (uri : string) (ms : microservice) :
  newMicroservice uri = (Some ms, None) ->
  url ms = nth 0 (strings_Split uri "?") ""
  /\ (timeout ms = 30
      \/ exists s, strconv.ParseUint s = (timeout ms, None)).
Proof using.
  unfold newMicroservice.
  destruct (net_url.Parse uri) as [[parsed|] [err|]]; try discriminate.
  set (q := net_url.Query parsed).
  destruct (negb (String.eqb (net_url.Get q "timeout") "")).
  - destruct (strconv.ParseUint (net_url.Get q "timeout")) as [n [err|]] eqn:Hn;
      [discriminate|].
    intro H; injection H as <-. split.
    + destruct (String.eqb (net_url.Get q "skipauthentifieduser") "true");
        destruct (String.eqb (net_url.Get q "fireandforget") "true");
        destruct (negb (String.eqb (net_url.Get q "onfailure") ""));
        try reflexivity;
        destruct (String.eqb (net_url.Get q "onfailure") "tempfail");
        try reflexivity;
        destruct (String.eqb (net_url.Get q "onfailure") "permfail");
        reflexivity.
    + right. exists (net_url.Get q "timeout"). rewrite Hn. f_equal.
      destruct (String.eqb (net_url.Get q "skipauthentifieduser") "true");
        destruct (String.eqb (net_url.Get q "fireandforget") "true");
        destruct (negb (String.eqb (net_url.Get q "onfailure") ""));
        try reflexivity;
        destruct (String.eqb (net_url.Get q "onfailure") "tempfail");
        try reflexivity;
        destruct (String.eqb (net_url.Get q "onfailure") "permfail");
        reflexivity.
  - intro H; injection H as <-. split; [|left];
      destruct (String.eqb (net_url.Get q "skipauthentifieduser") "true");
      destruct (String.eqb (net_url.Get q "fireandforget") "true");
      destruct (negb (String.eqb (net_url.Get q "onfailure") ""));
      try reflexivity;
      destruct (String.eqb (net_url.Get q "onfailure") "tempfail");
      try reflexivity;
      destruct (String.eqb (net_url.Get q "onfailure") "permfail");
      reflexivity.
Qed.

(** X11.  Every descriptor that newMicroservice returns has as address the
    reference up to its first question mark, without the query: the
    parameters that set the policy are never part of the address a request
    goes to.  Its timeout fits in 64 unsigned bits. *)
Theorem descriptor_well_formed (uri : string) (ms : microservice) :
  newMicroservice uri = (Some ms, None) ->
  (exists rest,
      uri = url ms ++ rest /\ (rest = "" \/ exists q, rest = String "?" q))
  /\ containsByte "?" (url ms) = false
  /\ 0 <= timeout ms < 2 ^ 64.
Proof using.
  intro Hnew. destruct (newMicroservice_fields _ _ Hnew) as [Hurl Htime].
  destruct (strings_Split_head "?" uri) as (rest & Huri & Hfree & Hrest).
  rewrite <- Hurl in Huri, Hfree. split; [now exists rest|].
  split; [exact Hfree|].
  destruct Htime as [->|[s Hs]]; [lia|].
  apply ParseUint_range in Hs. unfold strconv.maxUint64 in Hs. lia.
Qed.

(* ================================================================ *)
(** ** The extra headers are never lost *)

Lemma data_loop_headers (msg : list Byte.byte) (uris : list string)
      (b b' : bool) (h h' : list string) (s s' : SMTPServerSession)
      (w w' : World) :
  landing (forEach (dataBody msg) uris (b, h, s, w)) = Some (b', h', s', w') ->
  exists more, h' = (h ++ more)%list.
Proof.
  revert b h s w.
  induction uris as [|u us IH]; intros b h s w; cbn [forEach].
  - intro H; injection H as <- <- <- <-. exists []. now rewrite app_nil_r.
  - destruct (dataBody msg u (b, h, s, w))
      as [[[[b1 h1] s1] w1]|[[[b1 h1] s1] w1]|] eqn:Hstep.
    + intro Hrest.
      destruct (dataBody_trace msg u b b1 h h1 s s1 w w1)
        as (_ & _ & _ & _ & more1 & ->); [now rewrite Hstep|].
      destruct (IH _ _ _ _ Hrest) as [more ->].
      exists (more1 ++ more)%list. now rewrite app_assoc.
    + intro H; injection H as <- <- <- <-.
      destruct (dataBody_trace msg u b b1 h h1 s s1 w w1)
        as (_ & _ & _ & _ & more1 & ->); [now rewrite Hstep|].
      now exists more1.
    + discriminate.
Qed.

(** X17.  The headers that the Data hook has gathered when it stands
    before an endpoint are kept, in front and in their order, in the
    headers that the run returns, however the run ends after that
    (policy halt, halting outcome or exhaustion). *)
Theorem data_headers_never_lost
        (rawMail : list Byte.byte) (name uri : string)
        (pre post : list string) (msg : list Byte.byte)
        (s0 s : SMTPServerSession) (w0 w : World) (h : list string) :
  dataAt rawMail name pre uri post msg s0 w0 h s w ->
  exists stop more s' w',
    smtpdData s0 rawMail w0 = Returned (stop, (h ++ more)%list, s', w').
Proof.
  intros (Huris & Htmp & Hwr & Hmsg & b & Hpre). unfold smtpdData.
  rewrite Huris, nonempty_length, Htmp, Hwr, Hmsg, forEach_app, Hpre.
  pose proof (forEach_no_panic (dataBody msg) (uri :: post) (b, h, s, w)
                (dataBody_no_panic msg)) as Hnp.
  destruct (forEach (dataBody msg) (uri :: post) (b, h, s, w))
    as [[[[b1 h1] s1] w1]|[[[b1 h1] s1] w1]|] eqn:Hloop; [| |congruence].
  - destruct (data_loop_headers msg (uri :: post) b b1 h h1 s s1 w w1)
      as [more ->]; [now rewrite Hloop|].
    now do 4 eexists.
  - destruct (data_loop_headers msg (uri :: post) b b1 h h1 s s1 w w1)
      as [more ->]; [now rewrite Hloop|].
    now do 4 eexists.
Qed.

(* ================================================================ *)
(** ** The session only grows *)

Lemma grows_refl (s : SMTPServerSession) : grows s s.
Proof.
  repeat split; try (exists []; now rewrite app_nil_r). trivial.
Qed.

Lemma grows_trans (s1 s2 s3 : SMTPServerSession) :
  grows s1 s2 -> grows s2 s3 -> grows s1 s3.
Proof.
  intros ([l1 Ho1] & [e1 Hj1] & He1) ([l2 Ho2] & [e2 Hj2] & He2).
  split; [|split].
  - exists (l1 ++ l2)%list. now rewrite Ho2, Ho1, app_assoc.
  - exists (e1 ++ e2)%list. now rewrite Hj2, Hj1, app_assoc.
  - auto.
Qed.

Lemma grows_log (text : string) (s : SMTPServerSession) : grows s (log text s).
Proof.
  split; [exists []; simpl; now rewrite app_nil_r|].
  split; [now eexists | trivial].
Qed.

Lemma grows_logError (text : string) (err : error) (s : SMTPServerSession) :
  grows s (logError text err s).
Proof.
  split; [exists []; simpl; now rewrite app_nil_r|].
  split; [now eexists | trivial].
Qed.

Lemma grows_out (line : string) (s : SMTPServerSession) : grows s (out line s).
Proof.
  split; [now eexists|].
  split; [exists []; simpl; now rewrite app_nil_r | trivial].
Qed.

Lemma grows_exitAsap (s : SMTPServerSession) : grows s (exitAsap s).
Proof.
  repeat split; try (exists []; simpl; now rewrite app_nil_r).
Qed.

Lemma grows_set_relayGranted (v : bool) (s : SMTPServerSession) :
  grows s (set_relayGranted v s).
Proof.
  repeat split; try (exists []; simpl; now rewrite app_nil_r). trivial.
Qed.

Lemma grows_bridged (reply : option SmtpResponse) (drop : bool)
      (s : SMTPServerSession) : grows s (bridged reply drop s).
Proof.
  unfold bridged, handleSMTPResponse. destruct reply as [r|].
  - destruct (negb (GetCode r =? 0) && negb (String.eqb (GetMsg r) ""));
      destruct drop; cbn [snd];
      repeat first [apply grows_refl | apply grows_exitAsap
                   | eapply grows_trans; [|apply grows_exitAsap]
                   | eapply grows_trans; [|apply grows_log]
                   | apply grows_out].
  - destruct drop; [apply grows_exitAsap | apply grows_refl].
Qed.

Lemma grows_handleSMTPError (ms : microservice) (err : error)
      (s : SMTPServerSession) :
  grows s (snd (handleSMTPError ms (Some err) s)).
Proof.
  unfold handleSMTPError. destruct (onFailure ms); cbn [snd];
    try apply grows_logError;
    (eapply grows_trans; [apply grows_logError | apply grows_out]).
Qed.

Lemma relayGranted_handleSMTPError (ms : microservice) (err : error)
      (s : SMTPServerSession) :
  relayGranted (snd (handleSMTPError ms (Some err) s)) = relayGranted s.
Proof. unfold handleSMTPError. destruct (onFailure ms); reflexivity. Qed.

Lemma newClientBody_grows (msg : list Byte.byte) (uri : string) (b b' : bool)
      (s s' : SMTPServerSession) (w w' : World) :
  landing (newClientBody msg uri (b, s, w)) = Some (b', s', w') ->
  grows s s' /\ relayGranted s' = relayGranted s.
Proof.
  destruct (newMicroservice uri) as [[ms|] [err|]] eqn:Hnew;
    try (rewrite (newClientBody_unparsable _ _ _ _ _ _ _ Hnew);
         intro H; injection H as <- <- <-;
         split; [apply grows_logError | reflexivity]).
  2: { unfold newClientBody. rewrite Hnew. discriminate. }
  destruct (isAuthenticated s && skipAuthentifiedUser ms) eqn:Hs.
  { apply andb_prop in Hs as [Ha Hk].
    rewrite (newClientBody_skip _ _ _ _ _ _ Hnew Ha Hk).
    intro H; injection H as <- <- <-. split; [apply grows_refl | reflexivity]. }
  destruct (fireAndForget ms) eqn:Hf.
  { rewrite (newClientBody_detached _ _ _ _ _ _ Hnew Hs Hf).
    intro H; injection H as <- <- <-. split; [apply grows_log | reflexivity]. }
  destruct (sync_cases Unmarshal_NewClient ms msg w) as [[err He]|[r Hr]].
  - rewrite (newClientBody_failure _ _ _ _ _ _ _ Hnew Hs Hf He). cbv zeta.
    destruct (stopOnError ms); intro H; injection H as <- <- <-;
      (split; [|reflexivity]);
      (eapply grows_trans; [apply grows_log | apply grows_logError]).
  - rewrite (newClientBody_outcome _ _ _ _ _ _ _ Hnew Hs Hf Hr). cbv zeta.
    destruct (hasReplyText _ || nc_DropConnection r);
      intro H; injection H as <- <- <-;
      (split; [|now rewrite relayGranted_bridged]);
      (eapply grows_trans; [apply grows_log | apply grows_bridged]).
Qed.

Lemma rcptToBody_grows (msg : list Byte.byte) (uri : string) (b b' : bool)
      (s s' : SMTPServerSession) (w w' : World) :
  landing (rcptToBody msg uri (b, s, w)) = Some (b', s', w') ->
  grows s s'.
Proof.
  destruct (newMicroservice uri) as [[ms|] [err|]] eqn:Hnew;
    try (rewrite (rcptToBody_unparsable _ _ _ _ _ _ _ Hnew);
         intro H; injection H as <- <- <-; apply grows_logError).
  2: { unfold rcptToBody. rewrite Hnew. discriminate. }
  destruct (isAuthenticated s && skipAuthentifiedUser ms) eqn:Hs.
  { apply andb_prop in Hs as [Ha Hk].
    rewrite (rcptToBody_skip _ _ _ _ _ _ Hnew Ha Hk).
    intro H; injection H as <- <- <-. apply grows_refl. }
  destruct (fireAndForget ms) eqn:Hf.
  { rewrite (rcptToBody_detached _ _ _ _ _ _ Hnew Hs Hf).
    intro H; injection H as <- <- <-. apply grows_log. }
  destruct (sync_cases Unmarshal_RcptTo ms msg w) as [[err He]|[r Hr]].
  - rewrite (rcptToBody_failure _ _ _ _ _ _ _ Hnew Hs Hf He).
    pose proof (grows_handleSMTPError ms err (announced ms s)) as Hg.
    destruct (handleSMTPError ms (Some err) (announced ms s)) as [[|] s1];
      cbn [snd] in Hg; intro H; injection H as <- <- <-;
      (eapply grows_trans; [apply grows_log | exact Hg]).
  - rewrite (rcptToBody_outcome _ _ _ _ _ _ _ Hnew Hs Hf Hr). cbv zeta.
    destruct (hasReplyText _ || rt_DropConnection r);
      intro H; injection H as <- <- <-;
      (eapply grows_trans; [apply grows_log|]);
      (eapply grows_trans; [apply grows_set_relayGranted | apply grows_bridged]).
Qed.

Lemma dataBody_grows (msg : list Byte.byte) (uri : string) (b b' : bool)
      (h h' : list string) (s s' : SMTPServerSession) (w w' : World) :
  landing (dataBody msg uri (b, h, s, w)) = Some (b', h', s', w') ->
  grows s s' /\ relayGranted s' = relayGranted s.
Proof.
  destruct (newMicroservice uri) as [[ms|] [err|]] eqn:Hnew;
    try (rewrite (dataBody_unparsable _ _ _ _ _ _ _ _ Hnew);
         intro H; injection H as <- <- <- <-;
         split; [apply grows_logError | reflexivity]).
  2: { unfold dataBody. rewrite Hnew. discriminate. }
  destruct (isAuthenticated s && skipAuthentifiedUser ms) eqn:Hs.
  { apply andb_prop in Hs as [Ha Hk].
    rewrite (dataBody_skip _ _ _ _ _ _ _ Hnew Ha Hk).
    intro H; injection H as <- <- <- <-.
    split; [apply grows_refl | reflexivity]. }
  destruct (sync_cases Unmarshal_Data ms msg w) as [[err He]|[r Hr]].
  - rewrite (dataBody_failure _ _ _ _ _ _ _ _ Hnew Hs He).
    pose proof (grows_handleSMTPError ms err (announced ms s)) as Hg.
    pose proof (relayGranted_handleSMTPError ms err (announced ms s)) as Hr.
    destruct (handleSMTPError ms (Some err) (announced ms s)) as [[|] s1];
      cbn [snd] in Hg, Hr; intro H; injection H as <- <- <- <-;
      (split; [|exact Hr]);
      (eapply grows_trans; [apply grows_log | exact Hg]).
  - rewrite (dataBody_outcome _ _ _ _ _ _ _ _ Hnew Hs Hr). cbv zeta.
    destruct (hasReplyText _ || da_DropConnection r);
      intro H; injection H as <- <- <- <-;
      (split; [|now rewrite relayGranted_bridged]);
      (eapply grows_trans; [apply grows_log | apply grows_bridged]).
Qed.

Lemma frame_loop_grows (body : string -> Frame -> Flow Frame Frame)
      (P : SMTPServerSession -> SMTPServerSession -> Prop) :
  (forall s, P s s) ->
  (forall s1 s2 s3, P s1 s2 -> P s2 s3 -> P s1 s3) ->
  (forall uri b s w b' s' w',
      landing (body uri (b, s, w)) = Some (b', s', w') -> P s s') ->
  forall uris b s w b' s' w',
    landing (forEach body uris (b, s, w)) = Some (b', s', w') -> P s s'.
Proof.
  intros Hrefl Htrans Hbody uris.
  induction uris as [|u us IH]; intros b s w b' s' w'; cbn [forEach].
  - intro H; injection H as <- <- <-. apply Hrefl.
  - destruct (body u (b, s, w)) as [[[b1 s1] w1]|[[b1 s1] w1]|] eqn:Hstep.
    + intro Hrest. apply (Htrans s s1 s').
      * apply (Hbody u b s w b1 s1 w1). now rewrite Hstep.
      * exact (IH _ _ _ _ _ _ Hrest).
    + intro H; injection H as <- <- <-.
      apply (Hbody u b s w b1 s1 w1). now rewrite Hstep.
    + discriminate.
Qed.

Lemma data_loop_grows (msg : list Byte.byte) (uris : list string)
      (b b' : bool) (h h' : list string) (s s' : SMTPServerSession)
      (w w' : World) :
  landing (forEach (dataBody msg) uris (b, h, s, w)) = Some (b', h', s', w') ->
  grows s s' /\ relayGranted s' = relayGranted s.
Proof.
  revert b h s w.
  induction uris as [|u us IH]; intros b h s w; cbn [forEach].
  - intro H; injection H as <- <- <- <-. split; [apply grows_refl|reflexivity].
  - destruct (dataBody msg u (b, h, s, w))
      as [[[[b1 h1] s1] w1]|[[[b1 h1] s1] w1]|] eqn:Hstep.
    + intro Hrest.
      destruct (dataBody_grows msg u b b1 h h1 s s1 w w1) as [Hg Hr];
        [now rewrite Hstep|].
      destruct (IH _ _ _ _ Hrest) as [Hg' Hr'].
      split; [eapply grows_trans; eassumption | congruence].
    + intro H; injection H as <- <- <- <-.
      apply (dataBody_grows msg u b b1 h h1 s s1 w w1). now rewrite Hstep.
    + discriminate.
Qed.

(** X18.  Whatever a session hook does to the session, it only adds to
    it: the replies written and the lines logged before the run are still
    there, in front and in their order, and a request to terminate that
    was pending is still pending.  Only msSmtpdRcptTo touches the relay
    grant; msSmtpdNewClient and smtpdData leave it as it was. *)
Theorem session_only_grows (s0 : SMTPServerSession) (w0 : World) :
  (forall stop s' w',
      msSmtpdNewClient s0 w0 = Returned (stop, s', w') ->
      grows s0 s' /\ relayGranted s' = relayGranted s0)
  /\ (forall rcptTo stop s' w',
         msSmtpdRcptTo s0 rcptTo w0 = Returned (stop, s', w') ->
         grows s0 s')
  /\ (forall rawMail stop h s' w',
         smtpdData s0 rawMail w0 = Returned (stop, h, s', w') ->
         grows s0 s' /\ relayGranted s' = relayGranted s0).
Proof.
  split; [|split].
  - intros stop s' w'. unfold msSmtpdNewClient.
    destruct (List.length _ =? 0)%nat.
    { intro H; injection H as <- <- <-. split; [apply grows_refl|reflexivity]. }
    destruct (proto_Marshal _) as [err|msg].
    { intro H; injection H as <- <- <-.
      split; [apply grows_logError|reflexivity]. }
    intro Hrun.
    apply (frame_loop_grows (newClientBody msg)
             (fun s s' => grows s s' /\ relayGranted s' = relayGranted s))
      with (uris := GetMicroservicesUri Cfg "smtpdnewclient")
           (b := false) (w := w0) (b' := stop) (w' := w').
    + intro s. split; [apply grows_refl|reflexivity].
    + intros s1 s2 s3 [Hg Hr] [Hg' Hr'].
      split; [eapply grows_trans; eassumption | congruence].
    + intros uri b s w b' s1 w1. apply newClientBody_grows.
    + destruct (forEach _ _ _) as [[[b s] w]|[[b s] w]|]; cbn [finish] in Hrun;
        try discriminate; now injection Hrun as <- <- <-.
  - intros rcptTo stop s' w'. unfold msSmtpdRcptTo.
    destruct (List.length _ =? 0)%nat.
    { intro H; injection H as <- <- <-. apply grows_refl. }
    destruct (proto_Marshal _) as [err|msg].
    { intro H; injection H as <- <- <-. apply grows_logError. }
    intro Hrun.
    apply (frame_loop_grows (rcptToBody msg) grows grows_refl grows_trans)
      with (uris := GetMicroservicesUri Cfg "smtpdrcptto")
           (b := false) (w := w0) (b' := stop) (w' := w').
    + intros uri b s w b' s1 w1. apply rcptToBody_grows.
    + destruct (forEach _ _ _) as [[[b s] w]|[[b s] w]|]; cbn [finish] in Hrun;
        try discriminate; now injection Hrun as <- <- <-.
  - intros rawMail stop h s' w'. unfold smtpdData.
    destruct (List.length _ =? 0)%nat.
    { intro H; injection H as <- <- <- <-.
      split; [apply grows_refl|reflexivity]. }
    destruct (ioutil_TempFile _ _) as [err|name].
    { intro H; injection H as <- <- <- <-.
      split; [apply grows_logError|reflexivity]. }
    destruct (file_Write _ _) as [err|].
    { intro H; injection H as <- <- <- <-.
      split; [apply grows_logError|reflexivity]. }
    destruct (proto_Marshal _) as [err|msg].
    { cbn [cleaned]. intro H; injection H as <- <- <- <-.
      split; [apply grows_logError|reflexivity]. }
    destruct (forEach _ _ _) as [[[[b h1] s] w]|[[[b h1] s] w]|] eqn:Hloop;
      cbn [finishData cleaned]; intro H; try discriminate;
      injection H as <- <- <- <-;
      eapply data_loop_grows; now rewrite Hloop.
Qed.

End Hooks.

(* ================================================================== *)
(** * The properties on concrete runs *)

(** ** The endpoint parser *)

Lemma newMicroservice_parses_witness :
  newMicroservice
    "http://h/x?skipauthentifieduser=true&fireandforget=true&timeout=7&onfailure=tempfail"
  = (Some (mkMicroservice "http://h/x" true true 7 TEMPFAIL), None)
  /\ newMicroservice "http://h/x?onfailure=maybe"
     = (Some (mkMicroservice "http://h/x" false false 30 CONTINUE), None)
  /\ newMicroservice "http://h/x?timeout=abc"
     = (None, Some (strconv_NumError "ParseUint" "abc" ErrSyntax))
  /\ newMicroservice "http://h x/"
     = (None, Some (url_Error "parse" "http://h x/" (InvalidHostError " "))).
Proof.
  destruct newMicroservice_parses as (_ & Hbad & Hgood).
  split; [|split; [|split]].
  - edestruct (Hgood "http://h/x?skipauthentifieduser=true&fireandforget=true&timeout=7&onfailure=tempfail")
      as (_ & Hdescr & _); [reflexivity|].
    exact (Hdescr 7 (or_intror eq_refl)).
  - edestruct (Hgood "http://h/x?onfailure=maybe") as (_ & Hdescr & _);
      [reflexivity|].
    exact (Hdescr 0 (or_introl eq_refl)).
  - edestruct (Hgood "http://h/x?timeout=abc") as (Herr & _); [reflexivity|].
    apply (Herr 0); [discriminate|reflexivity].
  - apply Hbad. reflexivity.
Defined.

(** ** Failure under a halting policy *)

(** Three endpoints; the first has the Continue policy, the second the
    TempFail policy, and every connection is refused.  The RcptTo and Data
    hooks stop at the second endpoint with the 450 reply; the NewClient
    hook ends there without a reply. *)
Lemma halting_policy_failure_witness :
  let Cfg := Scenario.everywhere
               ["http://h/a"; "http://h/x?onfailure=tempfail"; "http://h/z"] in
  (exists s' w',
      msSmtpdRcptTo Cfg Scenario.refused Scenario.marshal Scenario.garbled
                    Scenario.guest "b@example.net" Scenario.quiet
      = Returned (true, s', w')
      /\ outbox s' = ["450 sorry something wrong happened"]
      /\ map req_url (sent w') = ["http://h/a"; "http://h/x"])
  /\ (exists h s' w',
         smtpdData Cfg Scenario.refused Scenario.marshal Scenario.garbled
                   Scenario.tempFile Scenario.writeOk
                   Scenario.guest [] Scenario.quiet
         = Returned (true, h, s', w')
         /\ outbox s' = ["450 sorry something wrong happened"]
         /\ map req_url (sent w') = ["http://h/a"; "http://h/x"])
  /\ (exists stop s' w',
         msSmtpdNewClient Cfg Scenario.refused Scenario.marshal
                          Scenario.garbled Scenario.guest Scenario.quiet
         = Returned (stop, s', w')
         /\ outbox s' = []
         /\ map req_url (sent w') = ["http://h/a"; "http://h/x"]).
Proof.
  intro Cfg.
  destruct (halting_policy_failure
              Cfg Scenario.refused Scenario.marshal Scenario.garbled
              Scenario.garbled Scenario.garbled Scenario.tempFile
              Scenario.writeOk "http://h/x?onfailure=tempfail"
              (mkMicroservice "http://h/x" false false 30 TEMPFAIL)
              eq_refl (or_introl eq_refl)) as (Hrt & Hda & Hnc).
  split; [|split].
  - edestruct Hrt with (rcptTo := "b@example.net") (pre := ["http://h/a"])
                       (post := ["http://h/z"]) (s0 := Scenario.guest)
                       (w0 := Scenario.quiet) as [Hrun Hout];
      [repeat split; reflexivity | reflexivity | reflexivity | reflexivity |].
    do 2 eexists. split; [exact Hrun|]. split; reflexivity.
  - edestruct Hda with (rawMail := @nil Byte.byte) (name := "/tmp/ms0001")
                       (pre := ["http://h/a"]) (post := ["http://h/z"])
                       (s0 := Scenario.guest) (w0 := Scenario.quiet)
      as [Hrun Hout];
      [repeat split; try reflexivity; eexists; reflexivity
      | reflexivity | reflexivity |].
    do 3 eexists. split; [exact Hrun|]. split; reflexivity.
  - edestruct Hnc with (pre := ["http://h/a"]) (post := ["http://h/z"])
                       (s0 := Scenario.guest) (w0 := Scenario.quiet)
      as [[stop Hrun] Hout];
      [repeat split; reflexivity | reflexivity | reflexivity | reflexivity |].
    do 3 eexists. split; [exact Hrun|]. split; reflexivity.
Defined.

(** C1 as the specification words it fails in the NewClient hook: the
    policy is TempFail, the call fails in the transport, no reply was sent
    before, and the session receives no 450 reply. *)
Lemma newClient_failure_writes_no_reply :
  let uri := "http://h/x?onfailure=tempfail" in
  let ms := mkMicroservice "http://h/x" false false 30 TEMPFAIL in
  let run :=
    msSmtpdNewClient (Scenario.endpoints "smtpdnewclient" [uri; "http://h/z"])
                     Scenario.refused Scenario.marshal Scenario.garbled
                     Scenario.guest Scenario.quiet in
  newMicroservice uri = (Some ms, None)
  /\ (exists msg,
         fst (call Scenario.refused ms msg Scenario.quiet)
         = (None, Some (foreignError "connection refused")))
  /\ outbox Scenario.guest = []
  /\ exists s' w',
      run = Returned (false, s', w')
      /\ outbox s' = []
      /\ ~ In "450 sorry something wrong happened" (outbox s').
Proof.
  cbv zeta. split; [reflexivity|]. split; [exists []; reflexivity|].
  split; [reflexivity|].
  do 2 eexists. split; [reflexivity|]. split; [reflexivity|].
  intros [].
Qed.

(** ** The status of the response *)

Lemma call_status_threshold_witness :
  let ms := mkMicroservice "http://h/x" false false 30 CONTINUE in
  let body := list_byte_of_string "busy" in
  fst (call (Scenario.answers 503 "503 Service Unavailable" body) ms []
            Scenario.quiet)
  = (None, Some (errorString "503 Service Unavailable - busy"))
  /\ fst (call (Scenario.answers 204 "204 No Content" []) ms []
               Scenario.quiet)
     = (Some [], None).
Proof.
  intros ms body. split.
  - apply (call_status_threshold
             (Scenario.answers 503 "503 Service Unavailable" body) ms []
             Scenario.quiet
             (mkResponse 503 "503 Service Unavailable" (body, None)) body
             eq_refl eq_refl).
    reflexivity.
  - apply (call_status_threshold
             (Scenario.answers 204 "204 No Content" []) ms [] Scenario.quiet
             (mkResponse 204 "204 No Content" ([], None)) []
             eq_refl eq_refl).
    discriminate.
Defined.

(** C3 as the specification words it fails for a status outside 2xx and
    below 400: the answer 304 is not returned as an error, its body is
    returned. *)
Lemma call_returns_body_on_304 :
  let ms := mkMicroservice "http://h/x" false false 30 CONTINUE in
  let body := list_byte_of_string "cached" in
  let result :=
    fst (call (Scenario.answers 304 "304 Not Modified" body) ms []
              Scenario.quiet) in
  result = (Some body, None) /\ ~ (exists err, snd result = Some err).
Proof.
  cbv zeta. split; [reflexivity|]. intros [err H]. discriminate H.
Qed.

(** ** Extension data *)

(** An endpoint answers with a reply that halts the run, with two extra
    headers and with the relay granted. *)
Lemma extension_data_always_folded_witness :
  let Cfg := Scenario.everywhere ["http://h/x"; "http://h/z"] in
  let reply := Some (mkSmtpResponse 550 "rejected") in
  (exists s' w',
      msSmtpdRcptTo Cfg (Scenario.answers 200 "200 OK" []) Scenario.marshal
                    (Scenario.decodes (mkRcptToResponse reply false true))
                    Scenario.guest "b@example.net" Scenario.quiet
      = Returned (true, s', w')
      /\ relayGranted s' = true)
  /\ (exists s' w',
         smtpdData Cfg (Scenario.answers 200 "200 OK" []) Scenario.marshal
                   (Scenario.decodes
                      (mkDataResponse reply false ["X-A: 1"; "X-B: 2"]))
                   Scenario.tempFile Scenario.writeOk
                   Scenario.guest [] Scenario.quiet
         = Returned (true, ["X-A: 1"; "X-B: 2"], s', w')).
Proof.
  intros Cfg reply.
  destruct (extension_data_always_folded
              Cfg (Scenario.answers 200 "200 OK" []) Scenario.marshal
              (Scenario.decodes (mkRcptToResponse reply false true))
              (Scenario.decodes
                 (mkDataResponse reply false ["X-A: 1"; "X-B: 2"]))
              Scenario.tempFile Scenario.writeOk "http://h/x"
              (mkMicroservice "http://h/x" false false 30 CONTINUE)
              eq_refl) as (Hrt & Hda).
  split.
  - edestruct Hrt with (rcptTo := "b@example.net") (pre := @nil string)
                       (post := ["http://h/z"]) (s0 := Scenario.guest)
                       (w0 := Scenario.quiet) as [Hgrant Hrun];
      [repeat split; reflexivity | reflexivity | reflexivity | reflexivity |].
    do 2 eexists. split; [exact Hrun | exact Hgrant].
  - do 2 eexists.
    eapply eq_trans;
      [eapply Hda with (pre := @nil string) (post := ["http://h/z"]);
       [repeat split; try reflexivity; eexists; reflexivity
       | reflexivity | reflexivity]
      | reflexivity].
Defined.

(** C7 as the specification words it fails: the outcome halts the run (it
    carries the reply 550 rejected), and yet its extra headers are in the
    aggregate returned and its relay grant is on the session. *)
Lemma halting_outcome_is_folded :
  let Cfg := Scenario.everywhere ["http://h/x"] in
  let reply := Some (mkSmtpResponse 550 "rejected") in
  (exists s' w',
      smtpdData Cfg (Scenario.answers 200 "200 OK" []) Scenario.marshal
                (Scenario.decodes (mkDataResponse reply false ["X-A: 1"]))
                Scenario.tempFile Scenario.writeOk
                Scenario.guest [] Scenario.quiet
      = Returned (true, ["X-A: 1"], s', w')
      /\ outbox s' = ["550 rejected"])
  /\ (exists s' w',
         msSmtpdRcptTo Cfg (Scenario.answers 200 "200 OK" []) Scenario.marshal
                       (Scenario.decodes (mkRcptToResponse reply false true))
                       Scenario.guest "b@example.net" Scenario.quiet
         = Returned (true, s', w')
         /\ relayGranted Scenario.guest = false
         /\ relayGranted s' = true
         /\ outbox s' = ["550 rejected"]).
Proof.
  cbv zeta. split.
  - do 2 eexists. split; reflexivity.
  - do 2 eexists. repeat split; reflexivity.
Qed.

(** ** Endpoints skipped for an authenticated session *)

(** The first endpoint asks to be skipped for authenticated users, is
    fire-and-forget and has the PermFail policy; every connection is
    refused.  For the authenticated session only the second endpoint is
    contacted, and nothing is started with [go]. *)
Lemma skipped_when_authenticated_witness :
  let uri :=
    "http://h/x?skipauthentifieduser=true&fireandforget=true&onfailure=permfail"
  in
  let Cfg := Scenario.everywhere [uri; "http://h/z"] in
  (exists s' w',
      msSmtpdNewClient Cfg Scenario.refused Scenario.marshal Scenario.garbled
                       Scenario.member Scenario.quiet
      = Returned (false, s', w')
      /\ map req_url (sent w') = ["http://h/z"] /\ spawned w' = []
      /\ outbox s' = [])
  /\ (exists s' w',
         msSmtpdRcptTo Cfg Scenario.refused Scenario.marshal Scenario.garbled
                       Scenario.member "b@example.net" Scenario.quiet
         = Returned (false, s', w')
         /\ map req_url (sent w') = ["http://h/z"] /\ spawned w' = []
         /\ outbox s' = [])
  /\ (exists s' w',
         smtpdData Cfg Scenario.refused Scenario.marshal Scenario.garbled
                   Scenario.tempFile Scenario.writeOk
                   Scenario.member [] Scenario.quiet
         = Returned (false, [], s', w')
         /\ map req_url (sent w') = ["http://h/z"] /\ spawned w' = []
         /\ outbox s' = []).
Proof.
  intros uri Cfg.
  destruct (skipped_when_authenticated
              Cfg Scenario.refused Scenario.marshal Scenario.garbled
              Scenario.garbled Scenario.garbled Scenario.tempFile
              Scenario.writeOk uri
              (mkMicroservice "http://h/x" true true 30 PERMFAIL)
              eq_refl eq_refl) as (Hnc & Hrt & Hda).
  split; [|split].
  - edestruct Hnc with (pre := @nil string) (post := ["http://h/z"])
                       (s0 := Scenario.member) (w0 := Scenario.quiet)
      as [_ Hrun]; [repeat split; reflexivity | reflexivity |].
    do 2 eexists. split; [exact Hrun|]. repeat split; reflexivity.
  - edestruct Hrt with (rcptTo := "b@example.net") (pre := @nil string)
                       (post := ["http://h/z"])
                       (s0 := Scenario.member) (w0 := Scenario.quiet)
      as [_ Hrun]; [repeat split; reflexivity | reflexivity |].
    do 2 eexists. split; [exact Hrun|]. repeat split; reflexivity.
  - edestruct Hda with (rawMail := @nil Byte.byte) (name := "/tmp/ms0001")
                       (pre := @nil string) (post := ["http://h/z"])
                       (s0 := Scenario.member) (w0 := Scenario.quiet)
      as [b [_ Hrun]];
      [repeat split; try reflexivity; eexists; reflexivity | reflexivity |].
    do 2 eexists. split; [exact Hrun|]. repeat split; reflexivity.
Defined.

(** ** The response bridge and the drop directive *)

(** The endpoint answers dropConnection=true with a reply whose message is
    empty (NewClient), with no reply (RcptTo), and with a reply of code
    zero (Data). *)
Lemma drop_without_reply_witness :
  let Cfg := Scenario.everywhere ["http://h/x"; "http://h/z"] in
  let net := Scenario.answers 200 "200 OK" [] in
  (exists s' w',
      msSmtpdNewClient Cfg net Scenario.marshal
        (Scenario.decodes
           (mkNewClientResponse (Some (mkSmtpResponse 421 "")) true))
        Scenario.guest Scenario.quiet
      = Returned (true, s', w')
      /\ exiting s' = true /\ outbox s' = [])
  /\ (exists s' w',
         msSmtpdRcptTo Cfg net Scenario.marshal
           (Scenario.decodes (mkRcptToResponse None true false))
           Scenario.guest "b@example.net" Scenario.quiet
         = Returned (true, s', w')
         /\ exiting s' = true /\ outbox s' = [])
  /\ (exists h s' w',
         smtpdData Cfg net Scenario.marshal
           (Scenario.decodes
              (mkDataResponse (Some (mkSmtpResponse 0 "bye")) true []))
           Scenario.tempFile Scenario.writeOk
           Scenario.guest [] Scenario.quiet
         = Returned (true, h, s', w')
         /\ exiting s' = true /\ outbox s' = []).
Proof.
  intros Cfg net.
  destruct (drop_without_reply
              Cfg net Scenario.marshal
              (Scenario.decodes
                 (mkNewClientResponse (Some (mkSmtpResponse 421 "")) true))
              (Scenario.decodes (mkRcptToResponse None true false))
              (Scenario.decodes
                 (mkDataResponse (Some (mkSmtpResponse 0 "bye")) true []))
              Scenario.tempFile Scenario.writeOk "http://h/x"
              (mkMicroservice "http://h/x" false false 30 CONTINUE)
              eq_refl) as (Hnc & Hrt & Hda).
  split; [|split].
  - edestruct Hnc with (pre := @nil string) (post := ["http://h/z"])
                       (s0 := Scenario.guest) (w0 := Scenario.quiet)
      as (Hrun & Hexit & Hout);
      [repeat split; reflexivity | reflexivity | reflexivity | reflexivity
      | reflexivity | right; reflexivity |].
    do 2 eexists. split; [exact Hrun|]. split; [exact Hexit | exact Hout].
  - edestruct Hrt with (rcptTo := "b@example.net") (pre := @nil string)
                       (post := ["http://h/z"])
                       (s0 := Scenario.guest) (w0 := Scenario.quiet)
      as (Hrun & Hexit & Hout);
      [repeat split; reflexivity | reflexivity | reflexivity | reflexivity
      | reflexivity | exact I |].
    do 2 eexists. split; [exact Hrun|]. split; [exact Hexit | exact Hout].
  - edestruct Hda with (rawMail := @nil Byte.byte) (name := "/tmp/ms0001")
                       (pre := @nil string) (post := ["http://h/z"])
                       (s0 := Scenario.guest) (w0 := Scenario.quiet)
      as (Hrun & Hexit & Hout);
      [repeat split; try reflexivity; eexists; reflexivity
      | reflexivity | reflexivity | reflexivity | left; reflexivity |].
    do 3 eexists. split; [exact Hrun|]. split; [exact Hexit | exact Hout].
Defined.

(** The first endpoint answers with a reply whose code is zero and does
    not ask to drop the connection; the second endpoint is contacted, and
    nothing is written to the session. *)
Lemma textless_reply_discarded_witness :
  let Cfg := Scenario.everywhere ["http://h/x"; "http://h/z"] in
  let net := Scenario.answers 200 "200 OK" [] in
  let reply := mkSmtpResponse 0 "hello" in
  handleSMTPResponse (Some reply) Scenario.guest = (false, Scenario.guest)
  /\ (exists s' w',
         msSmtpdNewClient Cfg net Scenario.marshal
           (Scenario.decodes (mkNewClientResponse (Some reply) false))
           Scenario.guest Scenario.quiet
         = Returned (false, s', w')
         /\ map req_url (sent w') = ["http://h/x"; "http://h/z"]
         /\ outbox s' = [])
  /\ (exists s' w',
         msSmtpdRcptTo Cfg net Scenario.marshal
           (Scenario.decodes (mkRcptToResponse (Some reply) false false))
           Scenario.guest "b@example.net" Scenario.quiet
         = Returned (false, s', w')
         /\ map req_url (sent w') = ["http://h/x"; "http://h/z"]
         /\ outbox s' = [])
  /\ (exists h s' w',
         smtpdData Cfg net Scenario.marshal
           (Scenario.decodes (mkDataResponse (Some reply) false []))
           Scenario.tempFile Scenario.writeOk
           Scenario.guest [] Scenario.quiet
         = Returned (false, h, s', w')
         /\ map req_url (sent w') = ["http://h/x"; "http://h/z"]
         /\ outbox s' = []).
Proof.
  intros Cfg net reply.
  destruct (textless_reply_discarded
              Cfg net Scenario.marshal
              (Scenario.decodes (mkNewClientResponse (Some reply) false))
              (Scenario.decodes (mkRcptToResponse (Some reply) false false))
              (Scenario.decodes (mkDataResponse (Some reply) false []))
              Scenario.tempFile Scenario.writeOk) as (Hbridge & Hhooks).
  destruct (Hhooks "http://h/x"
                   (mkMicroservice "http://h/x" false false 30 CONTINUE)
                   eq_refl) as (Hnc & Hrt & Hda).
  split; [|split; [|split]].
  - apply Hbridge. left; reflexivity.
  - edestruct Hnc with (pre := @nil string) (post := ["http://h/z"])
                       (s0 := Scenario.guest) (w0 := Scenario.quiet)
      as (Hrun & Hout);
      [repeat split; reflexivity | reflexivity | reflexivity | reflexivity
      | reflexivity | left; reflexivity | reflexivity |].
    do 2 eexists. split; [exact Hrun|]. split; reflexivity.
  - edestruct Hrt with (rcptTo := "b@example.net") (pre := @nil string)
                       (post := ["http://h/z"])
                       (s0 := Scenario.guest) (w0 := Scenario.quiet)
      as (Hrun & Hout);
      [repeat split; reflexivity | reflexivity | reflexivity | reflexivity
      | reflexivity | left; reflexivity | reflexivity |].
    do 2 eexists. split; [exact Hrun|]. split; reflexivity.
  - edestruct Hda with (rawMail := @nil Byte.byte) (name := "/tmp/ms0001")
                       (pre := @nil string) (post := ["http://h/z"])
                       (s0 := Scenario.guest) (w0 := Scenario.quiet)
      as (Hrun & Hout);
      [repeat split; try reflexivity; eexists; reflexivity
      | reflexivity | reflexivity | reflexivity | left; reflexivity
      | reflexivity |].
    do 3 eexists. split; [exact Hrun|]. split; reflexivity.
Defined.

(** ** Fire-and-forget in the Data hook *)

(** The single endpoint is fire-and-forget with the PermFail policy and
    every connection is refused.  The Data hook calls it on its own
    goroutine, stops and replies 550; the RcptTo hook, on the same
    configuration, starts the call with [go] and returns [stop = false]
    with nothing written. *)
Lemma data_hook_calls_fireAndForget_synchronously_witness :
  let uri := "http://h/x?fireandforget=true&onfailure=permfail" in
  let Cfg := Scenario.everywhere [uri] in
  (exists s' w',
      smtpdData Cfg Scenario.refused Scenario.marshal Scenario.garbled
                Scenario.tempFile Scenario.writeOk
                Scenario.guest [] Scenario.quiet
      = Returned (true, [], s', w')
      /\ outbox s' = ["550 sorry something wrong happened"]
      /\ map req_url (sent w') = ["http://h/x"]
      /\ spawned w' = [])
  /\ (exists s' w',
         msSmtpdRcptTo Cfg Scenario.refused Scenario.marshal Scenario.garbled
                       Scenario.guest "b@example.net" Scenario.quiet
         = Returned (false, s', w')
         /\ outbox s' = []
         /\ sent w' = []
         /\ map req_url (spawned w') = ["http://h/x"]).
Proof.
  intros uri Cfg. split.
  - edestruct (data_hook_calls_fireAndForget_synchronously
                 Cfg Scenario.refused Scenario.marshal Scenario.garbled
                 Scenario.tempFile Scenario.writeOk [] "/tmp/ms0001" uri
                 (mkMicroservice "http://h/x" false true 30 PERMFAIL)
                 [] [])
      with (s0 := Scenario.guest) (w0 := Scenario.quiet)
      as (Hrun & Hspawned & Hsent);
      [reflexivity | reflexivity | right; reflexivity
      | repeat split; try reflexivity; eexists; reflexivity
      | reflexivity | reflexivity |].
    do 2 eexists. split; [exact Hrun|]. repeat split; reflexivity.
  - do 2 eexists. repeat split; reflexivity.
Defined.

(** ** The temporary file of the Data hook *)

(** The temporary file is created and the disk is full: the run returns
    with the file still in place. *)
Lemma data_write_failure_leaves_file_witness :
  let Cfg := Scenario.endpoints "smtpddata" ["http://h/x"] in
  exists s' w',
    smtpdData Cfg Scenario.refused Scenario.marshal Scenario.garbled
              Scenario.tempFile Scenario.diskFull
              Scenario.guest (list_byte_of_string "Subject: hi")
              Scenario.quiet
    = Returned (false, [], s', w')
    /\ files Scenario.quiet = []
    /\ fileExists "/tmp/ms0001" w' = true.
Proof.
  intro Cfg.
  destruct (data_write_failure_leaves_file
              Cfg Scenario.refused Scenario.marshal Scenario.garbled
              Scenario.tempFile Scenario.diskFull
              (list_byte_of_string "Subject: hi") "/tmp/ms0001"
              (foreignError "no space left on device")
              Scenario.guest Scenario.quiet)
    as [Hrun Hfile]; [discriminate | reflexivity | reflexivity |].
  do 2 eexists. split; [exact Hrun|]. split; [reflexivity | exact Hfile].
Defined.

(** ** A reference that does not parse, in the GetRoutes hook *)

(** The reference of the GetRoutes endpoint has a timeout that is not a
    number: the run panics.  With the same reference the RcptTo hook logs
    the error and goes on to the next endpoint. *)
Lemma getRoutes_unparsable_panics_witness :
  let uri := "http://h/x?timeout=abc" in
  msGetRoutes (Scenario.endpoints "deliverdgetroutes" [uri])
              Scenario.refused Scenario.marshal Scenario.garbled
              Scenario.someDelivery Scenario.quiet
  = Panicked
  /\ exists s' w',
      msSmtpdRcptTo (Scenario.endpoints "smtpdrcptto" [uri; "http://h/z"])
                    Scenario.refused Scenario.marshal Scenario.garbled
                    Scenario.guest "b@example.net" Scenario.quiet
      = Returned (false, s', w')
      /\ journal s'
         = [Error "unable to parse microservice url http://h/x?timeout=abc. "
                  (strconv_NumError "ParseUint" "abc" ErrSyntax);
            Info "calling http://h/z";
            Error "microservice http://h/z failed. "
                  (foreignError "connection refused")]
      /\ map req_url (sent w') = ["http://h/z"].
Proof.
  intro uri. split.
  - apply (getRoutes_unparsable_panics
             (Scenario.endpoints "deliverdgetroutes" [uri])
             Scenario.refused Scenario.marshal Scenario.garbled
             uri [] None (strconv_NumError "ParseUint" "abc" ErrSyntax));
      reflexivity.
  - do 2 eexists. repeat split; reflexivity.
Defined.

(* ================================================================== *)
(** * The further properties on concrete runs *)

(** With no endpoint configured for its name, each hook returns the
    session and the world it was given. *)
Lemma no_endpoints_no_effect_witness :
  let Cfg := Scenario.endpoints "smtpdhelo" ["http://h/x"] in
  msSmtpdNewClient Cfg Scenario.refused Scenario.marshal Scenario.garbled
                   Scenario.guest Scenario.quiet
  = Returned (false, Scenario.guest, Scenario.quiet)
  /\ msSmtpdRcptTo Cfg Scenario.refused Scenario.marshal Scenario.garbled
                   Scenario.guest "b@example.net" Scenario.quiet
     = Returned (false, Scenario.guest, Scenario.quiet)
  /\ smtpdData Cfg Scenario.refused Scenario.marshal Scenario.garbled
               Scenario.tempFile Scenario.writeOk Scenario.guest []
               Scenario.quiet
     = Returned (false, [], Scenario.guest, Scenario.quiet)
  /\ msGetRoutes Cfg Scenario.refused Scenario.marshal Scenario.garbled
                 Scenario.someDelivery Scenario.quiet
     = Returned (Some [], false, Scenario.quiet).
Proof.
  intro Cfg.
  destruct (no_endpoints_no_effect
              Cfg Scenario.refused Scenario.marshal Scenario.garbled
              Scenario.garbled Scenario.garbled Scenario.garbled
              Scenario.tempFile Scenario.writeOk Scenario.guest Scenario.quiet
              "b@example.net" [] Scenario.someDelivery)
    as (Hnc & Hrt & Hda & Hgr).
  split; [|split; [|split]].
  - apply Hnc. reflexivity.
  - apply Hrt. reflexivity.
  - apply Hda. reflexivity.
  - apply Hgr. reflexivity.
Defined.

(** The codec cannot serialize, or the temporary directory is missing:
    nothing is sent. *)
Lemma local_failure_contacts_nobody_witness :
  let Cfg := Scenario.everywhere ["http://h/x"] in
  let broken : Query -> error + list Byte.byte :=
    fun _ => inl (foreignError "proto: required field not set") in
  let noDir : list (string * list Byte.byte) -> string -> error + string :=
    fun _ _ => inl (foreignError "no such file or directory") in
  (exists s',
      msSmtpdNewClient Cfg Scenario.refused broken Scenario.garbled
                       Scenario.guest Scenario.quiet
      = Returned (false, s', Scenario.quiet))
  /\ (exists s',
         msSmtpdRcptTo Cfg Scenario.refused broken Scenario.garbled
                       Scenario.guest "b@example.net" Scenario.quiet
         = Returned (false, s', Scenario.quiet))
  /\ (exists s',
         smtpdData Cfg Scenario.refused Scenario.marshal Scenario.garbled
                   noDir Scenario.writeOk Scenario.guest [] Scenario.quiet
         = Returned (false, [], s', Scenario.quiet))
  /\ (exists s' w',
         smtpdData Cfg Scenario.refused broken Scenario.garbled
                   Scenario.tempFile Scenario.writeOk Scenario.guest []
                   Scenario.quiet
         = Returned (false, [], s', w')
         /\ sent w' = [] /\ files w' = []).
Proof.
  intros Cfg broken noDir.
  split; [|split; [|split]].
  - eexists.
    apply (local_failure_contacts_nobody
             Cfg Scenario.refused broken Scenario.garbled Scenario.garbled
             Scenario.garbled Scenario.tempFile Scenario.writeOk
             Scenario.guest Scenario.quiet "b@example.net" []
             (foreignError "proto: required field not set"));
      [discriminate | reflexivity].
  - eexists.
    apply (local_failure_contacts_nobody
             Cfg Scenario.refused broken Scenario.garbled Scenario.garbled
             Scenario.garbled Scenario.tempFile Scenario.writeOk
             Scenario.guest Scenario.quiet "b@example.net" []
             (foreignError "proto: required field not set"));
      [discriminate | reflexivity].
  - eexists.
    apply (local_failure_contacts_nobody
             Cfg Scenario.refused Scenario.marshal Scenario.garbled
             Scenario.garbled Scenario.garbled noDir Scenario.writeOk
             Scenario.guest Scenario.quiet "b@example.net" []
             (foreignError "no such file or directory"));
      [discriminate | reflexivity].
  - destruct (local_failure_contacts_nobody
                Cfg Scenario.refused broken Scenario.garbled Scenario.garbled
                Scenario.garbled Scenario.tempFile Scenario.writeOk
                Scenario.guest Scenario.quiet "b@example.net" []
                (foreignError "proto: required field not set"))
      as (_ & _ & _ & Hda).
    destruct (Hda "/tmp/ms0001") as (w' & Hrun & Hsent & _ & Hfiles);
      [discriminate | reflexivity | reflexivity | reflexivity | reflexivity |].
    do 2 eexists. split; [exact Hrun|]. split; assumption.
Defined.

(** Every connection is refused.  Under the PermFail policy the RcptTo
    hook returns [stop = true] with one reply; under the Continue policy it
    returns [stop = false] with none. *)
Lemma stop_tells_whether_answered_witness :
  (exists s' w',
      msSmtpdRcptTo (Scenario.everywhere ["http://h/x?onfailure=permfail"])
                    Scenario.refused Scenario.marshal Scenario.garbled
                    Scenario.guest "b@example.net" Scenario.quiet
      = Returned (true, s', w')
      /\ answered Scenario.guest s')
  /\ (exists s' w',
         msSmtpdRcptTo (Scenario.everywhere ["http://h/x"])
                       Scenario.refused Scenario.marshal Scenario.garbled
                       Scenario.guest "b@example.net" Scenario.quiet
         = Returned (false, s', w')
         /\ quietly Scenario.guest s').
Proof.
  split.
  - destruct (stop_tells_whether_answered
                (Scenario.everywhere ["http://h/x?onfailure=permfail"])
                Scenario.refused Scenario.marshal Scenario.garbled
                Scenario.garbled Scenario.garbled Scenario.tempFile
                Scenario.writeOk Scenario.guest Scenario.quiet)
      as (_ & Hrt & _).
    do 2 eexists. split; [reflexivity|].
    exact (proj2 (Hrt "b@example.net" true _ _ eq_refl) eq_refl).
  - destruct (stop_tells_whether_answered
                (Scenario.everywhere ["http://h/x"])
                Scenario.refused Scenario.marshal Scenario.garbled
                Scenario.garbled Scenario.garbled Scenario.tempFile
                Scenario.writeOk Scenario.guest Scenario.quiet)
      as (_ & Hrt & _).
    do 2 eexists. split; [reflexivity|].
    exact (proj1 (Hrt "b@example.net" false _ _ eq_refl) eq_refl).
Defined.

(** Four endpoints for an authenticated session: a reference that does
    not parse, an endpoint skipped for authenticated users, a
    fire-and-forget endpoint and a plain one with its own timeout. *)
Lemma session_hooks_contact_in_order_witness :
  let Cfg := Scenario.everywhere
               ["http://h/a?timeout=abc";
                "http://h/b?skipauthentifieduser=true";
                "http://h/c?fireandforget=true";
                "http://h/d?timeout=5"] in
  let msg := list_byte_of_string "sid|b@example.net" in
  exists s' w',
    msSmtpdRcptTo Cfg Scenario.refused Scenario.marshal Scenario.garbled
                  Scenario.member "b@example.net" Scenario.quiet
    = Returned (false, s', w')
    /\ sent w' = [mkRequest "http://h/d" 5 msg]
    /\ spawned w' = [mkRequest "http://h/c" 30 msg].
Proof.
  intros Cfg msg.
  destruct (session_hooks_contact_in_order
              Cfg Scenario.refused Scenario.marshal Scenario.garbled
              Scenario.garbled Scenario.member Scenario.quiet msg)
    as (_ & Hrt).
  do 2 eexists. split; [reflexivity|].
  destruct (Hrt "b@example.net" false _ _ eq_refl eq_refl)
    as (visited & later & Heq & _ & _ & Hsent & Hgo & Hall).
  specialize (Hall eq_refl). subst later. rewrite app_nil_r in Heq.
  subst visited. split; [exact Hsent | exact Hgo].
Defined.

(** Two endpoints, the first of them fire-and-forget, and every connection
    refused: the Data hook exchanges with both, starts nothing with [go],
    and leaves no file behind. *)
Lemma data_hook_contacts_in_order_witness :
  let Cfg := Scenario.everywhere
               ["http://h/c?fireandforget=true"; "http://h/d?timeout=5"] in
  exists h s' w',
    smtpdData Cfg Scenario.refused Scenario.marshal Scenario.garbled
              Scenario.tempFile Scenario.writeOk Scenario.guest
              (list_byte_of_string "Subject: hi") Scenario.quiet
    = Returned (false, h, s', w')
    /\ map req_url (sent w') = ["http://h/c"; "http://h/d"]
    /\ map req_timeout (sent w') = [30; 5]
    /\ spawned w' = []
    /\ files w' = [].
Proof.
  intro Cfg. do 3 eexists. split; [reflexivity|].
  edestruct (data_hook_contacts_in_order
               Cfg Scenario.refused Scenario.marshal Scenario.garbled
               Scenario.tempFile Scenario.writeOk Scenario.guest Scenario.quiet
               (list_byte_of_string "Subject: hi") "/tmp/ms0001"
               (list_byte_of_string "sid|http://127.0.0.1:8080/msdata/ms0001")
               false)
    as (visited & later & Heq & _ & _ & Hsent & Hgo & Hall & Hfiles);
    [discriminate | reflexivity | reflexivity | reflexivity | reflexivity |].
  specialize (Hall eq_refl). subst later. rewrite app_nil_r in Heq.
  subst visited. rewrite Hsent, Hgo, (Hfiles eq_refl).
  repeat split.
Defined.

(** The first endpoint has the default policy and its connection is
    refused; the second endpoint is contacted all the same and nothing is
    written to the session. *)
Lemma continue_policy_goes_on_witness :
  let Cfg := Scenario.everywhere ["http://h/x"; "http://h/z"] in
  (exists s' w',
      msSmtpdNewClient Cfg Scenario.refused Scenario.marshal Scenario.garbled
                       Scenario.guest Scenario.quiet
      = Returned (false, s', w')
      /\ map req_url (sent w') = ["http://h/x"; "http://h/z"]
      /\ outbox s' = [])
  /\ (exists s' w',
         msSmtpdRcptTo Cfg Scenario.refused Scenario.marshal Scenario.garbled
                       Scenario.guest "b@example.net" Scenario.quiet
         = Returned (false, s', w')
         /\ map req_url (sent w') = ["http://h/x"; "http://h/z"]
         /\ outbox s' = [])
  /\ (exists h s' w',
         smtpdData Cfg Scenario.refused Scenario.marshal Scenario.garbled
                   Scenario.tempFile Scenario.writeOk Scenario.guest []
                   Scenario.quiet
         = Returned (false, h, s', w')
         /\ map req_url (sent w') = ["http://h/x"; "http://h/z"]
         /\ outbox s' = []).
Proof.
  intro Cfg.
  destruct (continue_policy_goes_on
              Cfg Scenario.refused Scenario.marshal Scenario.garbled
              Scenario.garbled Scenario.garbled Scenario.tempFile
              Scenario.writeOk "http://h/x"
              (mkMicroservice "http://h/x" false false 30 CONTINUE)
              eq_refl eq_refl) as (Hnc & Hrt & Hda).
  split; [|split].
  - edestruct Hnc with (pre := @nil string) (post := ["http://h/z"])
                       (s0 := Scenario.guest) (w0 := Scenario.quiet)
      as (Hrun & Hout);
      [repeat split; reflexivity | reflexivity | reflexivity | reflexivity |].
    do 2 eexists. split; [exact Hrun|]. split; reflexivity.
  - edestruct Hrt with (rcptTo := "b@example.net") (pre := @nil string)
                       (post := ["http://h/z"])
                       (s0 := Scenario.guest) (w0 := Scenario.quiet)
      as (Hrun & Hout);
      [repeat split; reflexivity | reflexivity | reflexivity | reflexivity |].
    do 2 eexists. split; [exact Hrun|]. split; reflexivity.
  - edestruct Hda with (rawMail := @nil Byte.byte) (name := "/tmp/ms0001")
                       (pre := @nil string) (post := ["http://h/z"])
                       (s0 := Scenario.guest) (w0 := Scenario.quiet)
      as ([b Hrun] & Hout);
      [repeat split; try reflexivity; eexists; reflexivity
      | reflexivity | reflexivity |].
    do 3 eexists. split; [exact Hrun|]. split; reflexivity.
Defined.

(** The endpoint answers with the reply 554 and a text, and in the Data
    hook it also asks to drop the connection. *)
Lemma reply_with_text_halts_witness :
  let Cfg := Scenario.everywhere ["http://h/x"; "http://h/z"] in
  let net := Scenario.answers 200 "200 OK" [] in
  let reply := mkSmtpResponse 554 "go away" in
  (exists s' w',
      msSmtpdNewClient Cfg net Scenario.marshal
        (Scenario.decodes (mkNewClientResponse (Some reply) false))
        Scenario.guest Scenario.quiet
      = Returned (true, s', w')
      /\ outbox s' = ["554 go away"] /\ exiting s' = false
      /\ map req_url (sent w') = ["http://h/x"])
  /\ (exists s' w',
         msSmtpdRcptTo Cfg net Scenario.marshal
           (Scenario.decodes (mkRcptToResponse (Some reply) false false))
           Scenario.guest "b@example.net" Scenario.quiet
         = Returned (true, s', w')
         /\ outbox s' = ["554 go away"] /\ exiting s' = false
         /\ map req_url (sent w') = ["http://h/x"])
  /\ (exists h s' w',
         smtpdData Cfg net Scenario.marshal
           (Scenario.decodes (mkDataResponse (Some reply) true []))
           Scenario.tempFile Scenario.writeOk Scenario.guest []
           Scenario.quiet
         = Returned (true, h, s', w')
         /\ outbox s' = ["554 go away"] /\ exiting s' = true
         /\ map req_url (sent w') = ["http://h/x"]).
Proof.
  intros Cfg net reply.
  destruct (reply_with_text_halts
              Cfg net Scenario.marshal
              (Scenario.decodes (mkNewClientResponse (Some reply) false))
              (Scenario.decodes (mkRcptToResponse (Some reply) false false))
              (Scenario.decodes (mkDataResponse (Some reply) true []))
              Scenario.tempFile Scenario.writeOk "http://h/x"
              (mkMicroservice "http://h/x" false false 30 CONTINUE)
              eq_refl) as (Hnc & Hrt & Hda).
  split; [|split].
  - edestruct Hnc with (pre := @nil string) (post := ["http://h/z"])
                       (s0 := Scenario.guest) (w0 := Scenario.quiet)
      as (s' & Hrun & Hout & Hexit);
      [repeat split; reflexivity | reflexivity | reflexivity | reflexivity
      | reflexivity | discriminate | discriminate |].
    do 2 eexists. split; [exact Hrun|].
    split; [exact Hout|]. split; [exact Hexit | reflexivity].
  - edestruct Hrt with (rcptTo := "b@example.net") (pre := @nil string)
                       (post := ["http://h/z"])
                       (s0 := Scenario.guest) (w0 := Scenario.quiet)
      as (s' & Hrun & Hout & Hexit);
      [repeat split; reflexivity | reflexivity | reflexivity | reflexivity
      | reflexivity | discriminate | discriminate |].
    do 2 eexists. split; [exact Hrun|].
    split; [exact Hout|]. split; [exact Hexit | reflexivity].
  - edestruct Hda with (rawMail := @nil Byte.byte) (name := "/tmp/ms0001")
                       (pre := @nil string) (post := ["http://h/z"])
                       (s0 := Scenario.guest) (w0 := Scenario.quiet)
      as (s' & Hrun & Hout & Hexit);
      [repeat split; try reflexivity; eexists; reflexivity
      | reflexivity | reflexivity | reflexivity | discriminate
      | discriminate |].
    do 3 eexists. split; [exact Hrun|].
    split; [exact Hout|]. split; [exact Hexit | reflexivity].
Defined.

(** ** msGetRoutes *)

(** X12.  msGetRoutes consults the first configured endpoint and no
    other: the endpoints configured after the first make no difference to
    what it returns, to what it sends and to what it logs. *)
Theorem getRoutes_consults_first_only
        (Cfg Cfg' : Config)
        (client_Do : list Request -> Request -> error + Response)
        (proto_Marshal : Query -> error + list Byte.byte)
        (Unmarshal_GetRoutes :
           list Byte.byte -> error + DeliverdGetRoutesResponse)
        (uri : string) (rest : list string) (d : delivery) (w : World) :
  GetMicroservicesUri Cfg "deliverdgetroutes" = uri :: rest ->
  GetMicroservicesUri Cfg' "deliverdgetroutes" = [uri] ->
  msGetRoutes Cfg client_Do proto_Marshal Unmarshal_GetRoutes d w
  = msGetRoutes Cfg' client_Do proto_Marshal Unmarshal_GetRoutes d w.
Proof.
  intros H H'. unfold msGetRoutes. rewrite H, H'. reflexivity.
Qed.

(** The second endpoint would answer differently, if it were asked. *)
Lemma getRoutes_consults_first_only_witness :
  let net : list Request -> Request -> error + Response :=
    fun _ req =>
      if String.eqb (req_url req) "http://h/x"
      then inr (mkResponse 200 "200 OK" ([], None))
      else inl (foreignError "connection refused") in
  msGetRoutes (Scenario.everywhere ["http://h/x"; "http://h/z"])
              net Scenario.marshal
              (Scenario.decodes (mkGetRoutesResponse []))
              Scenario.someDelivery Scenario.quiet
  = msGetRoutes (Scenario.everywhere ["http://h/x"])
                net Scenario.marshal
                (Scenario.decodes (mkGetRoutesResponse []))
                Scenario.someDelivery Scenario.quiet.
Proof.
  intro net.
  apply (getRoutes_consults_first_only
           (Scenario.everywhere ["http://h/x"; "http://h/z"])
           (Scenario.everywhere ["http://h/x"]) net Scenario.marshal
           (Scenario.decodes (mkGetRoutesResponse []))
           "http://h/x" ["http://h/z"]); reflexivity.
Defined.

(** The endpoint has the PermFail policy and answers with two routes, one
    with a priority only, one with a local address and a port only. *)
Lemma getRoutes_results_witness :
  let Cfg := Scenario.everywhere ["http://h/x?onfailure=permfail"] in
  let answer :=
    mkGetRoutesResponse
      [mkRouteMsg "mx1" "" 0 10; mkRouteMsg "mx2" "10.0.0.1" 2525 0] in
  exists w',
    msGetRoutes Cfg (Scenario.answers 200 "200 OK" []) Scenario.marshal
                (Scenario.decodes answer) Scenario.someDelivery
                Scenario.quiet
    = Returned (Some [mkRoute "mx1" None None (Some 10);
                      mkRoute "mx2" (Some "10.0.0.1") (Some 2525) None],
                false, w')
    /\ map req_url (sent w') = ["http://h/x"].
Proof.
  intros Cfg answer.
  destruct (getRoutes_results
              Cfg (Scenario.answers 200 "200 OK" []) Scenario.marshal
              (Scenario.decodes answer)
              "http://h/x?onfailure=permfail" []
              (mkMicroservice "http://h/x" false false 30 PERMFAIL)
              Scenario.someDelivery Scenario.quiet eq_refl eq_refl)
    as (routes & stop & w' & Hrun & Hsent & _ & _ & _ & _ & _ & Hok).
  destruct (Hok answer eq_refl) as [-> ->].
  exists w'. split; [exact Hrun|]. rewrite Hsent. reflexivity.
Defined.


(** ** The descriptor *)

Lemma descriptor_well_formed_witness :
  let uri := "http://h/x?timeout=18446744073709551615&a=b?c" in
  exists ms,
    newMicroservice uri = (Some ms, None)
    /\ uri = url ms ++ "?timeout=18446744073709551615&a=b?c"
    /\ containsByte "?" (url ms) = false
    /\ 0 <= timeout ms < 2 ^ 64.
Proof.
  intro uri. eexists. split; [reflexivity|]. split; [reflexivity|].
  apply (descriptor_well_formed uri). reflexivity.
Defined.

(** ** References that do not parse, fire-and-forget, the temporary file *)

Lemma unparsable_reference_skipped_witness :
  let uri := "http://h/x?timeout=-1" in
  let Cfg := Scenario.everywhere [uri; "http://h/z"] in
  (exists s' w',
      msSmtpdNewClient Cfg Scenario.refused Scenario.marshal Scenario.garbled
                       Scenario.guest Scenario.quiet
      = Returned (false, s', w')
      /\ map req_url (sent w') = ["http://h/z"] /\ outbox s' = [])
  /\ (exists s' w',
         msSmtpdRcptTo Cfg Scenario.refused Scenario.marshal Scenario.garbled
                       Scenario.guest "b@example.net" Scenario.quiet
         = Returned (false, s', w')
         /\ map req_url (sent w') = ["http://h/z"] /\ outbox s' = [])
  /\ (exists h s' w',
         smtpdData Cfg Scenario.refused Scenario.marshal Scenario.garbled
                   Scenario.tempFile Scenario.writeOk Scenario.guest []
                   Scenario.quiet
         = Returned (false, h, s', w')
         /\ map req_url (sent w') = ["http://h/z"] /\ outbox s' = []).
Proof.
  intros uri Cfg.
  destruct (unparsable_reference_skipped
              Cfg Scenario.refused Scenario.marshal Scenario.garbled
              Scenario.garbled Scenario.garbled Scenario.tempFile
              Scenario.writeOk uri None
              (strconv_NumError "ParseUint" "-1" ErrSyntax) eq_refl)
    as (Hnc & Hrt & Hda).
  split; [|split].
  - do 2 eexists.
    split;
      [eapply eq_trans;
       [eapply Hnc with (pre := @nil string) (post := ["http://h/z"]);
        repeat split; reflexivity
       | reflexivity]
      | split; reflexivity].
  - do 2 eexists.
    split;
      [eapply eq_trans;
       [eapply Hrt with (pre := @nil string) (post := ["http://h/z"]);
        repeat split; reflexivity
       | reflexivity]
      | split; reflexivity].
  - edestruct Hda with (rawMail := @nil Byte.byte) (name := "/tmp/ms0001")
                       (pre := @nil string) (post := ["http://h/z"])
                       (s0 := Scenario.guest) (w0 := Scenario.quiet)
      as [b Hrun];
      [repeat split; try reflexivity; eexists; reflexivity|].
    do 3 eexists. split; [exact Hrun|]. split; reflexivity.
Defined.

Lemma detached_call_goes_on_witness :
  let uri := "http://h/x?fireandforget=true&onfailure=permfail" in
  let Cfg := Scenario.everywhere [uri; "http://h/z"] in
  (exists s' w',
      msSmtpdNewClient Cfg Scenario.refused Scenario.marshal Scenario.garbled
                       Scenario.guest Scenario.quiet
      = Returned (false, s', w')
      /\ map req_url (sent w') = ["http://h/z"]
      /\ map req_url (spawned w') = ["http://h/x"]
      /\ outbox s' = [])
  /\ (exists s' w',
         msSmtpdRcptTo Cfg Scenario.refused Scenario.marshal Scenario.garbled
                       Scenario.guest "b@example.net" Scenario.quiet
         = Returned (false, s', w')
         /\ map req_url (sent w') = ["http://h/z"]
         /\ map req_url (spawned w') = ["http://h/x"]
         /\ outbox s' = []).
Proof.
  intros uri Cfg.
  destruct (detached_call_goes_on
              Cfg Scenario.refused Scenario.marshal Scenario.garbled
              Scenario.garbled uri
              (mkMicroservice "http://h/x" false true 30 PERMFAIL)
              eq_refl eq_refl) as (Hnc & Hrt).
  split.
  - do 2 eexists.
    split;
      [eapply eq_trans;
       [eapply Hnc with (pre := @nil string) (post := ["http://h/z"]);
        [repeat split; reflexivity | reflexivity]
       | reflexivity]
      | repeat split; reflexivity].
  - do 2 eexists.
    split;
      [eapply eq_trans;
       [eapply Hrt with (pre := @nil string) (post := ["http://h/z"]);
        [repeat split; reflexivity | reflexivity]
       | reflexivity]
      | repeat split; reflexivity].
Defined.

(** A file of the name that [ioutil.TempFile] returns is present before
    the run, and the endpoint halts the run: no file of that name is left. *)
Lemma data_file_removed_witness :
  let Cfg := Scenario.everywhere ["http://h/x?onfailure=tempfail"] in
  let w0 := mkWorld [] [] [("/tmp/ms0001", [])] [] in
  exists r,
    smtpdData Cfg Scenario.refused Scenario.marshal Scenario.garbled
              Scenario.tempFile Scenario.writeOk Scenario.guest
              (list_byte_of_string "Subject: hi") w0
    = Returned r
    /\ fileExists "/tmp/ms0001" (snd r) = false.
Proof.
  intros Cfg w0. eexists. split; [reflexivity|].
  apply (data_file_removed
           Cfg Scenario.refused Scenario.marshal Scenario.garbled
           Scenario.tempFile Scenario.writeOk
           (list_byte_of_string "Subject: hi") "/tmp/ms0001"
           Scenario.guest w0);
    [discriminate | reflexivity | reflexivity | reflexivity].
Defined.

(** Two endpoints that both answer with the extra header X-A: the header
    gathered from the first is in front of what the Data hook returns. *)
Lemma data_headers_never_lost_witness :
  let Cfg := Scenario.everywhere ["http://h/x"; "http://h/z"] in
  exists stop more s' w',
    smtpdData Cfg (Scenario.answers 200 "200 OK" []) Scenario.marshal
              (Scenario.decodes (mkDataResponse None false ["X-A: 1"]))
              Scenario.tempFile Scenario.writeOk
              Scenario.guest [] Scenario.quiet
    = Returned (stop, (["X-A: 1"] ++ more)%list, s', w').
Proof.
  intro Cfg.
  eapply (data_headers_never_lost
            Cfg (Scenario.answers 200 "200 OK" []) Scenario.marshal
            (Scenario.decodes (mkDataResponse None false ["X-A: 1"]))
            Scenario.tempFile Scenario.writeOk
            [] "/tmp/ms0001" "http://h/z" ["http://h/x"] []
            (list_byte_of_string "sid|http://127.0.0.1:8080/msdata/ms0001")
            Scenario.guest).
  unfold dataAt.
  split; [reflexivity|]. split; [reflexivity|]. split; [reflexivity|].
  split; [reflexivity|]. eexists. reflexivity.
Defined.

(** A session that has already written a greeting, logged a line and been
    asked to terminate goes through the RcptTo hook with an endpoint that
    rejects the recipient: the greeting, the line and the request to
    terminate are still there afterwards. *)
Lemma session_only_grows_witness :
  let Cfg := Scenario.everywhere ["http://h/x"] in
  let s0 := mkSession "sid" "192.0.2.1:40000" None false true
                      ["220 ready"] [Info "session opened"] in
  exists s' w',
    msSmtpdRcptTo Cfg (Scenario.answers 200 "200 OK" []) Scenario.marshal
                  (Scenario.decodes
                     (mkRcptToResponse
                        (Some (mkSmtpResponse 550 "rejected")) false true))
                  s0 "b@example.net" Scenario.quiet
    = Returned (true, s', w')
    /\ grows s0 s'.
Proof.
  intros Cfg s0. do 2 eexists. split; [reflexivity|].
  exact (proj1 (proj2 (session_only_grows
                         Cfg (Scenario.answers 200 "200 OK" [])
                         Scenario.marshal Scenario.garbled
                         (Scenario.decodes
                            (mkRcptToResponse
                               (Some (mkSmtpResponse 550 "rejected"))
                               false true))
                         Scenario.garbled Scenario.tempFile Scenario.writeOk
                         s0 Scenario.quiet))
               "b@example.net" true _ _ eq_refl).
Defined.
